(** * WalletIntel: the normalisation pipeline and its aggregate queries

    A shallow embedding of [Finance] and of the metrics of the
    dashboard script (src/app.py), and of the tables that the three
    charts of [Graph] are drawn from (src/graphs.py).

    A pandas frame is modelled row by row: a frame is the list of its
    rows and a row maps the frame's column names to cells.  Reading a
    column that a row does not carry is pandas' [KeyError]; an operator
    applied to a cell it is not defined on is Python's [TypeError].  Both
    are the [None] of the option monad.

    Amounts are binary floating-point numbers in the program; they are
    modelled as exact rationals, with NaN as the null cell.  A sum is
    therefore exact here where the program rounds; negation, selection
    and comparison of stored Amounts are the program's own.

    Three things that pandas decides on a whole column are not recorded
    in a list of rows, and the model returns on some frames on which
    the program raises:
    - a frame without rows is [[]] and names no column, so a column
      that is missing is only seen on a frame with a row;
    - the sub-frame of the Transfer rows likewise names its columns
      only through its rows;
    - the [.str] accessor refuses a column that holds no text at all,
      whatever its cells ([AttributeError]).
    On every frame on which the program returns, the model returns
    too.  The properties of the splitter and of the pipeline are
    therefore stated of a frame on which the function returns, and the
    conditions for a return are stated of frames with a row. *)

From Stdlib Require Import QArith Qabs ZArith String Ascii List Permutation.
From Stdlib Require OrderedTypeEx.
From stdpp Require Import gmap strings list sorting pretty.

Local Open Scope string_scope.
Local Open Scope Z_scope.

(** ** Cells, rows and frames *)

(** A date-time.  [dt_nanos] is the time of day. *)
Record datetime := mk_datetime {
  dt_year : Z;
  dt_month : Z;
  dt_day : Z;
  dt_nanos : Z
}.

(** What a cell read from the sheet can hold: nothing (NaN, NaT, None),
    a number, a text, or a date-time. *)
Inductive cell :=
| Null
| Num (q : Q)
| Str (s : string)
| Time (t : datetime).

(** A row maps the frame's column names to its cells; a frame is the
    list of its rows.  The columns of a frame are read from its rows:
    the frame without rows names none. *)
Abbreviation Row := (gmap string cell).
Abbreviation DataFrame := (list (gmap string cell)).

(** [pd.isna] on one cell. *)
Definition isna (c : cell) : bool :=
  match c with Null => true | _ => false end.

(** Unary minus on one cell, as [-series] applies it: NaN stays NaN, a
    number is negated, and Python raises TypeError on a text or a
    date-time. *)
Definition neg (c : cell) : option cell :=
  match c with
  | Null => Some Null
  | Num q => Some (Num (- q)%Q)
  | Str _ => None
  | Time _ => None
  end.

(** [df[c]] on one row. *)
Definition getitem (c : string) (r : Row) : option cell := r !! c.

(** [df[c] = series]: the series is stored cell by cell. *)
Definition setitem (c : string) (series : list cell) (df : DataFrame)
  : DataFrame :=
  zip_with (λ v r, <[c:=v]> r) series df.

(** [df[c] = f(df)]: the series is computed from every row, then stored. *)
Definition assign (c : string) (f : Row → option cell) (df : DataFrame)
  : option DataFrame :=
  series ← mapM f df; Some (setitem c series df).

(** [df[mask]]: the rows where the boolean series holds. *)
Fixpoint loc_mask {A} (df : list A) (mask : list bool) : list A :=
  match df, mask with
  | r :: df', b :: mask' =>
      if b then r :: loc_mask df' mask' else loc_mask df' mask'
  | _, _ => []
  end.

(** [df[cols]] on one row, the cells in the order of [cols]. *)
Definition getitems (cols : list string) (r : Row) : option (list cell) :=
  mapM (λ c, getitem c r) cols.

(** [.bfill(axis=1)] on the cells of one row: a null takes the next
    non-null value to its right, if there is one. *)
Fixpoint bfill (l : list cell) : list cell :=
  match l with
  | [] => []
  | c :: l' =>
      let r := bfill l' in
      (if isna c then default Null (head r) else c) :: r
  end.

(** [.iloc[:, 0]] on the cells of one row. *)
Definition iloc0 (l : list cell) : option cell := head l.

(** [df.drop(columns=cols)] on one row. *)
Definition drop_columns (cols : list string) (r : Row) : Row :=
  foldr delete r cols.

(** ** Texts

    A text is the string of the bytes of its UTF-8 encoding. *)

(** [str.strip] removes the characters for which [str.isspace] holds:
    U+0009 to U+000D, U+001C to U+0020, U+0085, U+00A0, U+1680, U+2000
    to U+200A, U+2028, U+2029, U+202F, U+205F and U+3000.  [is_space]
    reads the ones of one byte, [is_space2] and [is_space3] the ones of
    two and of three bytes. *)
Definition is_space (a : ascii) : bool :=
  let n := N_of_ascii a in
  ((9 <=? n) && (n <=? 13) || (28 <=? n) && (n <=? 32))%N.

Definition is_space2 (a b : ascii) : bool :=
  let m := N_of_ascii a in
  let n := N_of_ascii b in
  ((m =? 194) && ((n =? 133) || (n =? 160)))%N.

Definition is_space3 (a b c : ascii) : bool :=
  let l := N_of_ascii a in
  let m := N_of_ascii b in
  let n := N_of_ascii c in
  ((l =? 225) && (m =? 154) && (n =? 128)
   || (l =? 226) && (m =? 128)
      && ((128 <=? n) && (n <=? 138) || (n =? 168) || (n =? 169) || (n =? 175))
   || (l =? 226) && (m =? 129) && (n =? 159)
   || (l =? 227) && (m =? 128) && (n =? 128))%N.

Fixpoint lstrip (s : string) : string :=
  match s with
  | EmptyString => EmptyString
  | String a s1 =>
      if is_space a then lstrip s1
      else
        match s1 with
        | EmptyString => s
        | String b s2 =>
            if is_space2 a b then lstrip s2
            else
              match s2 with
              | EmptyString => s
              | String c s3 => if is_space3 a b c then lstrip s3 else s
              end
        end
  end.

(** [lstrip] on a text read backwards: the bytes of a character come
    last byte first. *)
Fixpoint lstrip_backwards (s : string) : string :=
  match s with
  | EmptyString => EmptyString
  | String a s1 =>
      if is_space a then lstrip_backwards s1
      else
        match s1 with
        | EmptyString => s
        | String b s2 =>
            if is_space2 b a then lstrip_backwards s2
            else
              match s2 with
              | EmptyString => s
              | String c s3 =>
                  if is_space3 c b a then lstrip_backwards s3 else s
              end
        end
  end.

Definition rstrip (s : string) : string :=
  String.rev (lstrip_backwards (String.rev s)).

(** [str.strip()] *)
Definition strip (s : string) : string := rstrip (lstrip s).

(** [.str.strip()] on one cell of an object column: a cell that is not a
    text becomes NaN.  The accessor [.str] raises [AttributeError] on a
    column of another type, one that holds numbers or nulls only; the
    type of a column is not recorded in its cells, and this check is
    not part of the model. *)
Definition str_strip (c : cell) : cell :=
  match c with Str s => Str (strip s) | _ => Null end.

(** [.fillna(v)] on one cell. *)
Definition fillna (v c : cell) : cell := if isna c then v else c.

(** [series == s] on one cell, for a text [s]. *)
Definition eq_str (c : cell) (s : string) : bool :=
  match c with Str t => String.eqb t s | _ => false end.

(** ** Ordering and sorting *)

Definition datetime_leb (t u : datetime) : bool :=
  if dt_year t =? dt_year u then
    if dt_month t =? dt_month u then
      if dt_day t =? dt_day u then dt_nanos t <=? dt_nanos u
      else dt_day t <? dt_day u
    else dt_month t <? dt_month u
  else dt_year t <? dt_year u.

(** The Python type of a cell's value. *)
Inductive kind := KNull | KNum | KStr | KTime.

Definition kind_of (c : cell) : kind :=
  match c with
  | Null => KNull | Num _ => KNum | Str _ => KStr | Time _ => KTime
  end.

Definition kind_eqb (j k : kind) : bool :=
  match j, k with
  | KNull, KNull | KNum, KNum | KStr, KStr | KTime, KTime => true
  | _, _ => false
  end.

(** [<=] between two values of one Python type. *)
Definition cell_leb (a b : cell) : bool :=
  match a, b with
  | Num p, Num q => Qle_bool p q
  | Str s, Str t => String.leb s t
  | Time t, Time u => datetime_leb t u
  | _, _ => true
  end.

(** Sorting compares values of one type only: Python raises TypeError
    when a text meets a number or a date-time. *)
Definition comparable (keys : list cell) : bool :=
  match keys with
  | [] => true
  | k :: keys' => forallb (λ k', kind_eqb (kind_of k') (kind_of k)) keys'
  end.

(** [df.sort_values(c, ascending=True)]: the rows with a key in
    ascending order, then the rows whose key is null.  pandas sorts with
    an unstable quicksort, so the order among rows of equal key is not
    fixed by the program; it is [merge_sort]'s here, and nothing below
    depends on it. *)
Definition sort_values (c : string) (df : DataFrame) : option DataFrame :=
  keyed ← mapM (λ r, k ← getitem c r; Some (k, r)) df;
  let present := List.filter (λ kr : cell * Row, negb (isna kr.1)) keyed in
  let missing := List.filter (λ kr : cell * Row, isna kr.1) keyed in
  if comparable (map fst present) then
    Some (map snd
            (merge_sort (λ x y : cell * Row, Is_true (cell_leb x.1 y.1)) present
             ++ missing)%list)
  else None.

(** [df[cols]] as a frame, on one row. *)
Definition project (cols : list string) (r : Row) : option Row :=
  kvs ← mapM (λ c, v ← getitem c r; Some (c, v)) cols;
  Some (list_to_map kvs).

(** ** Type coercions of the table library

    What pandas computes from the text or the number in a cell is not
    part of this repository; it is an interface here.  The interface
    gives one result for each cell; [pd.to_datetime] may read the texts
    of a column in the format of its first text, so what it returns for
    a text is fixed only within one column.  The theorems below hold
    for every instance of the interface. *)
Class Coercions := {
  (** the date-time a text parses to, if any ([pd.to_datetime]) *)
  parse_datetime : string → option datetime;
  (** the date-time a number stands for, if any ([pd.to_datetime]) *)
  datetime_of_number : Q → option datetime;
  (** the number a text parses to, if any ([pd.to_numeric]) *)
  parse_numeric : string → option Q;
  (** the number a date-time converts to, if any ([pd.to_numeric]) *)
  number_of_datetime : datetime → option Q;
  (** [str(x)] of a number *)
  str_of_number : Q → string;
  (** [str(x)] of a date-time *)
  str_of_datetime : datetime → string
}.

(** [pd.to_datetime(series, errors="coerce")] on one cell. *)
Definition to_datetime `{Coercions} (c : cell) : option datetime :=
  match c with
  | Null => None
  | Time t => Some t
  | Str s => parse_datetime s
  | Num q => datetime_of_number q
  end.

(** [pd.to_numeric(series, errors="coerce")] on one cell. *)
Definition to_numeric `{Coercions} (c : cell) : option Q :=
  match c with
  | Null => None
  | Num q => Some q
  | Str s => parse_numeric s
  | Time t => number_of_datetime t
  end.

(** [series.astype("string")] on one cell: a null stays null. *)
Definition astype_string `{Coercions} (c : cell) : option string :=
  match c with
  | Null => None
  | Str s => Some s
  | Num q => Some (str_of_number q)
  | Time t => Some (str_of_datetime t)
  end.

(** One row of the canonical ledger, each field in its enforced type. *)
Record LedgerEntry := mk_entry {
  Timestamp : option datetime;
  Nature_of_Record : option string;
  Amount : option Q;
  Source : option string;
  Account : option string;
  Description : string
}.

Abbreviation Ledger := (list LedgerEntry).

(** ** Grouping and summing *)

(** [sum()] of a numeric series: nulls are skipped and the empty sum
    is 0. *)
Definition nansum (l : list (option Q)) : Q :=
  foldr Qplus 0%Q (omap id l).

(** [a < b] on numbers. *)
Definition Qltb (a b : Q) : bool :=
  match (a ?= b)%Q with Lt => true | _ => false end.

Section groupby.
Context {K : Type} `{EqDecision K} (leb : K → K → bool).
Context (key : LedgerEntry → option K).

(** The group keys that occur in the frame, sorted ([sort=True]); a
    row whose key is null belongs to no group ([dropna=True]). *)
Definition group_keys (df : Ledger) : list K :=
  merge_sort (λ j k, Is_true (leb j k)) (remove_dups (omap key df)).

(** [df.groupby(key)["Amount"].sum()] *)
Definition groupby_sum (df : Ledger) : list (K * Q) :=
  map (λ k, (k, nansum (map Amount (filter (λ e, key e = Some k) df))))
      (group_keys df).
End groupby.

(** Order of the pairs of a two-level index. *)
Definition pair_leb (a b : string * string) : bool :=
  if String.eqb a.1 b.1 then String.leb a.2 b.2 else String.ltb a.1 b.1.

(** [series == n] on one cell of a numeric series; NaN equals nothing. *)
Definition eq_int (x : option Z) (n : Z) : bool :=
  match x with Some v => v =? n | None => false end.

(** The end of the Python slice [[:n]] of a sequence of length [len]. *)
Definition slice_stop (n : Z) (len : nat) : nat :=
  if n <? 0 then Z.to_nat (Z.max 0 (Z.of_nat len + n)) else Z.to_nat n.

(** [series.head(n)], that is [series.iloc[:n]] *)
Definition head_n {A} (n : Z) (l : list A) : list A :=
  take (slice_stop n (length l)) l.

(** [series.iloc[n:]] *)
Definition iloc_from {A} (n : Z) (l : list A) : list A :=
  drop (slice_stop n (length l)) l.

(** [series.sort_values(ascending=False)] of a labelled numeric series
    without nulls.  The order among equal values is [merge_sort]'s (see
    [sort_values]). *)
Definition sort_descending {L} (data : list (L * Q)) : list (L * Q) :=
  merge_sort (λ x y : L * Q, Is_true (Qle_bool y.2 x.2)) data.

(** [<=] between two cells of a typed column as a sort reads it: a
    null comes after every value ([na_position="last"]). *)
Definition option_leb {A} (leb : A → A → bool) (x y : option A) : bool :=
  match x, y with
  | Some a, Some b => leb a b
  | Some _, None => true
  | None, Some _ => false
  | None, None => true
  end.

(** The order of [df.sort_values(["Account", "Timestamp"])]: by
    Account, and among the rows of one Account by Timestamp. *)
Definition account_timestamp_leb (e1 e2 : LedgerEntry) : bool :=
  if decide (Account e1 = Account e2)
  then option_leb datetime_leb (Timestamp e1) (Timestamp e2)
  else option_leb String.leb (Account e1) (Account e2).

(** A sort on several columns is stable in pandas: rows of equal keys
    keep their order. *)
Fixpoint insert_sorted {A} (leb : A → A → bool) (x : A) (l : list A)
  : list A :=
  match l with
  | [] => [x]
  | y :: l' => if leb x y then x :: l else y :: insert_sorted leb x l'
  end.

Definition stable_sort {A} (leb : A → A → bool) (l : list A) : list A :=
  foldr (insert_sorted leb) [] l.

(** [df.sort_values("Timestamp")] on rows whose Timestamp is typed: the
    dated rows in ascending order, then the undated ones.  The order
    among rows of equal Timestamp is [merge_sort]'s (see [sort_values]). *)
Definition sort_timestamps {A} (timestamp : A → option datetime)
    (df : list A) : list A :=
  let present := List.filter (λ r, bool_decide (is_Some (timestamp r))) df in
  let missing :=
    List.filter (λ r, negb (bool_decide (is_Some (timestamp r)))) df in
  (merge_sort (λ x y, Is_true (option_leb datetime_leb
                                          (timestamp x) (timestamp y)))
              present
   ++ missing)%list.

(** [df.groupby("Account")["Amount"].cumsum()]: for every row the sum
    of the Amounts of its Account up to that row.  A null Amount is
    left out of the sum and gives a null; a row without an Account is in
    no group and gets a null as well.  [sums] holds the sum of every
    Account so far. *)
Fixpoint groupby_cumsum (sums : gmap string Q) (df : Ledger)
  : list (option Q) :=
  match df with
  | [] => []
  | e :: df' =>
      match Account e, Amount e with
      | Some a, Some q =>
          let s := (default 0 (sums !! a) + q)%Q in
          Some s :: groupby_cumsum (<[a:=s]> sums) df'
      | _, _ => None :: groupby_cumsum sums df'
      end
  end.

(** [series.isin(values)] on one cell of a text column; a null is in no
    list of texts. *)
Definition isin (x : option string) (values : list string) : bool :=
  match x with
  | Some s => bool_decide (s ∈ values)
  | None => false
  end.

(** ** Finance *)

Module Finance.

Definition AMOUNT_COLS : list string :=
  [ "Income Amount";
    "Expense Amount";
    "Transfer Amount";
    "Transfer-In Amount";
    "Transfer-Out Amount" ].

Definition ACCOUNT_COLS : list string :=
  [ "Income Account";
    "Expense Source";
    "Transfer Account";
    "Transfer-In Account";
    "Transfer-Out Source" ].

Definition SOURCE_COLS : list string :=
  [ "Income Source";
    "Expense Account";
    "Transfer Source";
    "Transfer-In Source";
    "Transfer-Out Account" ].

Definition DESC_COLS : list string :=
  [ "Income Note";
    "Expense Note";
    "Transfer Note";
    "Transfer-In Note";
    "Transfer-Out Note" ].

(** [raw[cols].bfill(axis=1).iloc[:, 0]] on one row. *)
Definition coalesce (cols : list string) (r : Row) : option cell :=
  cells ← getitems cols r; iloc0 (bfill cells).

Definition _combine_columns (raw : DataFrame) : option DataFrame :=
  (* flip sign for Expense and Transfer-Out *)
  raw ← assign "Expense Amount" (λ r, getitem "Expense Amount" r ≫= neg) raw;
  raw ← assign "Transfer-Out Amount"
               (λ r, getitem "Transfer-Out Amount" r ≫= neg) raw;
  (* coalesce across columns using first non-null *)
  raw ← assign "Amount" (coalesce AMOUNT_COLS) raw;
  raw ← assign "Account" (coalesce ACCOUNT_COLS) raw;
  raw ← assign "Source" (coalesce SOURCE_COLS) raw;
  raw ← assign "Description" (coalesce DESC_COLS) raw;
  (* drop original cols *)
  let drop_cols :=
    (AMOUNT_COLS ++ ACCOUNT_COLS ++ SOURCE_COLS ++ DESC_COLS)%list in
  Some (map (drop_columns drop_cols) raw).

(** The splitter reads Amount, Source and Account on the sub-frame of
    the Transfer rows.  pandas raises [KeyError] there for a column that
    the frame does not have, also when no row is a Transfer; here the
    read fails only when a Transfer row lacks the cell. *)
Definition _split_transfers (raw : DataFrame) : option DataFrame :=
  is_transfer ←
    mapM (λ r, c ← getitem "Nature of Record" r;
               Some (eq_str (fillna (Str "") (str_strip c)) "Transfer")) raw;
  let transfer_rows := loc_mask raw is_transfer in
  let non_transfer_rows := loc_mask raw (map negb is_transfer) in
  (* expense leg *)
  let transfer_expense := transfer_rows in
  transfer_expense ←
    assign "Amount" (λ r, getitem "Amount" r ≫= neg) transfer_expense;
  temp ← mapM (getitem "Source") transfer_expense;
  transfer_expense ← assign "Source" (getitem "Account") transfer_expense;
  let transfer_expense := setitem "Account" temp transfer_expense in
  let transfer_expense :=
    map (insert "Nature of Record" (Str "Transfer-Out")) transfer_expense in
  (* income leg *)
  let transfer_income := transfer_rows in
  transfer_income ← assign "Amount" (getitem "Amount") transfer_income;
  let transfer_income :=
    map (insert "Nature of Record" (Str "Transfer-In")) transfer_income in
  let split_transfers := (transfer_expense ++ transfer_income)%list in
  Some (non_transfer_rows ++ split_transfers)%list.

Definition _finalise_schema (df : DataFrame) : option DataFrame :=
  df ← mapM (project [ "Timestamp"; "Nature of Record"; "Amount";
                       "Source"; "Account"; "Description" ]) df;
  sort_values "Timestamp" df.

Definition _enforce_types `{Coercions} (df : DataFrame) : option Ledger :=
  mapM (λ r,
    timestamp ← getitem "Timestamp" r;
    nature ← getitem "Nature of Record" r;
    amount ← getitem "Amount" r;
    account ← getitem "Account" r;
    source ← getitem "Source" r;
    description ← getitem "Description" r;
    Some {| Timestamp := to_datetime timestamp;
            Nature_of_Record := astype_string nature;
            Amount := to_numeric amount;
            Account := astype_string account;
            Source := astype_string source;
            Description := default "" (astype_string description) |}) df.

(** Main pipeline: transform and type-cast the loaded sheet [raw]. *)
Definition run `{Coercions} (raw : DataFrame) : option Ledger :=
  raw ← _combine_columns raw;
  df ← _split_transfers raw;
  df ← _finalise_schema df;
  _enforce_types df.

Definition monthly_profit_and_loss (month year : Z) (df : Ledger)
  : list ((string * string) * Q) :=
  let mask :=
    map (λ e, eq_int (dt_year <$> Timestamp e) year
              && eq_int (dt_month <$> Timestamp e) month) df in
  let df_m := loc_mask df mask in
  let pnl :=
    groupby_sum pair_leb
      (λ e, n ← Nature_of_Record e; a ← Account e; Some (n, a)) df_m in
  pnl.

(** The period label [f"{year}-{month:02d}"]. *)
Definition period_label (year month : Z) : string :=
  let m := pretty month in
  pretty year +:+ "-" +:+ (if (String.length m <? 2)%nat then "0" +:+ m else m).

(** The rows [monthly_expense_compare] collects for its chart.  The
    method [monthly_expense] it calls is not in the source; it is the
    argument [monthly_expense], giving the labelled Amount series of one
    month.  The bar chart drawn from the rows is not modelled. *)
Definition monthly_expense_compare
    (monthly_expense : Z → Z → list (string * Q))
    (periods : list (Z * Z)) (topN : Z) : list (string * Q * string) :=
  let all_rows :=
    flat_map (λ '(year, month),
      let data := monthly_expense month year in
      (* Top N + others per month *)
      let topN_series := head_n topN data in
      let others_sum := nansum (map (Some ∘ snd) (iloc_from topN data)) in
      let labels := map fst topN_series in
      let values := map snd topN_series in
      let '(labels, values) :=
        if Qltb 0 others_sum
        then ((labels ++ ["Others"])%list, (values ++ [others_sum])%list)
        else (labels, values) in
      (* add rows for this period *)
      map (λ '(acc, amt), (acc, amt, period_label year month))
          (zip labels values)) periods in
  all_rows.

End Finance.

(** ** Graph *)

Module Graph.

(** The table [df_plot] that [expense_pie_topN] hands to the chart; the
    chart itself is not modelled. *)
Definition expense_pie_topN (exp_df : Ledger) (topN : Z)
  : list (string * Q) :=
  (* aggregate raw data *)
  let pie_data :=
    sort_descending
      (map (λ kv : string * Q, (kv.1, Qabs kv.2))
           (groupby_sum String.leb Source exp_df)) in
  (* Top N + Others logic *)
  let data := pie_data in
  let top := head_n topN data in
  let others_sum := nansum (map (Some ∘ snd) (iloc_from topN data)) in
  let labels := map fst top in
  let values := map snd top in
  let '(labels, values) :=
    if Qltb 0 others_sum
    then ((labels ++ ["Others"])%list, (values ++ [others_sum])%list)
    else (labels, values) in
  zip labels values.

(** The table [current_bals] that [balance_by_account_graph] hands to
    the chart, a row for every Account with its summed Amount; the
    chart itself is not modelled. *)
Definition balance_by_account_graph (df : Ledger)
    (selected_accounts : list string) : list (string * Q) :=
  (* aggregate balances for selected accounts *)
  let current_bals :=
    groupby_sum String.leb Account
      (loc_mask df (map (λ e, isin (Account e) selected_accounts) df)) in
  current_bals.

(** The frame that [balance_overtime_graph] hands to the chart, every
    row with its Balance; the chart itself is not modelled.  [mask] is a
    boolean series over the index of [df], as the script passes it:
    [df.loc[mask]] looks every row up in it by the row's index label,
    and raises when the label is missing. *)
Definition balance_overtime_graph (df : Ledger) (mask : list bool)
  : option (list (LedgerEntry * option Q)) :=
  (* the rows under their index labels *)
  let df := zip (seq 0 (length df)) df in
  (* 1) global running balance per account (no filter yet) *)
  let df :=
    stable_sort (λ r1 r2 : nat * LedgerEntry,
                   account_timestamp_leb r1.2 r2.2) df in
  let Balance := groupby_cumsum ∅ (map snd df) in
  let df := zip df Balance in
  (* 2) filter to selected accounts *)
  selected ← mapM (λ r : nat * LedgerEntry * option Q, mask !! r.1.1) df;
  let df := loc_mask df selected in
  (* 3) sort for nice time-series plotting *)
  let df :=
    sort_timestamps (λ r : nat * LedgerEntry * option Q, Timestamp r.1.2) df in
  Some (map (λ r : nat * LedgerEntry * option Q, (r.1.2, r.2)) df).

End Graph.

(** ** The dashboard script

    The numbers that the script at the end of src/app.py computes from
    the ledger for its three metrics.  The page is not modelled. *)

(** [df.groupby("Nature of Record")["Amount"].sum().to_dict()] *)
Definition record_totals (df : Ledger) : gmap string Q :=
  list_to_map (groupby_sum String.leb Nature_of_Record df).

(** The net flow of the selected period. *)
Definition balance (filtered_df : Ledger) : Q :=
  let filtered_record_totals := record_totals filtered_df in
  (default 0 (filtered_record_totals !! "Income")
   + default 0 (filtered_record_totals !! "Expense"))%Q.

(** The expense ratio of the selected period.  [dict.get] gives None
    for a label without a group, and dividing None, or by None, raises
    TypeError, which the script does not catch; dividing by a zero
    total raises ZeroDivisionError, which the script turns into 0. *)
Definition expense_ratio (filtered_df : Ledger) : option Q :=
  let filtered_record_totals := record_totals filtered_df in
  expense ← filtered_record_totals !! "Expense";
  income ← filtered_record_totals !! "Income";
  Some (if Qeq_bool income 0 then 0%Q else Qabs (expense / income)).

(** ** The frame operations, row by row

    The program works on whole columns; the properties below are about
    single rows.  These definitions read each stage on one row. *)

Import Finance.

(** The two sign flips of [_combine_columns] on one row. *)
Definition sign_flip (r : Row) : option Row :=
  e ← (getitem "Expense Amount" r ≫= neg);
  let r := <["Expense Amount":=e]> r in
  t ← (getitem "Transfer-Out Amount" r ≫= neg);
  Some (<["Transfer-Out Amount":=t]> r).

(** [_combine_columns] on one row. *)
Definition combine_row (r : Row) : option Row :=
  r ← sign_flip r;
  amount ← coalesce AMOUNT_COLS r;
  let r := <["Amount":=amount]> r in
  account ← coalesce ACCOUNT_COLS r;
  let r := <["Account":=account]> r in
  source ← coalesce SOURCE_COLS r;
  let r := <["Source":=source]> r in
  description ← coalesce DESC_COLS r;
  let r := <["Description":=description]> r in
  Some (drop_columns
          (AMOUNT_COLS ++ ACCOUNT_COLS ++ SOURCE_COLS ++ DESC_COLS)%list r).

(** The mask of [_split_transfers] on one row. *)
Definition is_transfer (r : Row) : option bool :=
  c ← getitem "Nature of Record" r;
  Some (eq_str (fillna (Str "") (str_strip c)) "Transfer").

(** The expense leg of [_split_transfers] for one Transfer row. *)
Definition expense_leg (r : Row) : option Row :=
  amount ← (getitem "Amount" r ≫= neg);
  let r := <["Amount":=amount]> r in
  temp ← getitem "Source" r;
  account ← getitem "Account" r;
  let r := <["Source":=account]> r in
  let r := <["Account":=temp]> r in
  Some (<["Nature of Record":=Str "Transfer-Out"]> r).

(** The income leg of [_split_transfers] for one Transfer row. *)
Definition income_leg (r : Row) : option Row :=
  amount ← getitem "Amount" r;
  let r := <["Amount":=amount]> r in
  Some (<["Nature of Record":=Str "Transfer-In"]> r).

(** The rows [_split_transfers] selects as Transfer rows, and the rest. *)
Definition transfer_rows (raw : DataFrame) : DataFrame :=
  filter (λ r, is_transfer r = Some true) raw.

Definition non_transfer_rows (raw : DataFrame) : DataFrame :=
  filter (λ r, is_transfer r ≠ Some true) raw.

(** The month mask of [monthly_profit_and_loss] on one entry. *)
Definition in_month (month year : Z) (e : LedgerEntry) : bool :=
  eq_int (dt_year <$> Timestamp e) year
  && eq_int (dt_month <$> Timestamp e) month.

(** The index of the profit-and-loss table on one entry. *)
Definition pnl_key (e : LedgerEntry) : option (string * string) :=
  n ← Nature_of_Record e; a ← Account e; Some (n, a).

(** ** The specification's words *)

(** The first non-null value of a family, null when there is none. *)
Definition first_valid (l : list cell) : cell :=
  default Null (List.find (λ c, negb (isna c)) l).

(** The cells of a family in one row, in the order of [cols]. *)
Definition family (cols : list string) (r : Row) : list cell :=
  map (λ c, default Null (r !! c)) cols.

(** Negation where it is defined: of a number, and of nothing. *)
Definition opp (c : cell) : cell :=
  match c with Num q => Num (- q)%Q | _ => c end.

(** The Amount family as the coalescer reads it, after the sign flips. *)
Definition signed_amounts (r : Row) : list cell :=
  [ default Null (r !! "Income Amount");
    opp (default Null (r !! "Expense Amount"));
    default Null (r !! "Transfer Amount");
    default Null (r !! "Transfer-In Amount");
    opp (default Null (r !! "Transfer-Out Amount")) ].

(** A wide row carries every column of the four families, and numbers
    or nothing in the two Amount columns whose sign is flipped. *)
Definition negatable (c : option cell) : bool :=
  match c with
  | Some Null | Some (Num _) => true
  | _ => false
  end.

Definition wide_ok (r : Row) : bool :=
  forallb (λ c, bool_decide (is_Some (r !! c)))
          (AMOUNT_COLS ++ ACCOUNT_COLS ++ SOURCE_COLS ++ DESC_COLS)%list
  && negatable (r !! "Expense Amount")
  && negatable (r !! "Transfer-Out Amount").

(** What the splitter needs of a row to return: the row carries a
    label, and when the label makes it a Transfer row it carries a
    Source, an Account and an Amount that is a number or nothing. *)
Definition split_ok (r : Row) : bool :=
  match is_transfer r with
  | None => false
  | Some false => true
  | Some true =>
      negatable (r !! "Amount")
      && bool_decide (is_Some (r !! "Source"))
      && bool_decide (is_Some (r !! "Account"))
  end.

(** Lower case of an ASCII text. *)
Definition lower_ascii (a : ascii) : ascii :=
  let n := N_of_ascii a in
  if ((65 <=? n) && (n <=? 90))%N then ascii_of_N (n + 32) else a.

Fixpoint lower (s : string) : string :=
  match s with
  | EmptyString => EmptyString
  | String a s' => String (lower_ascii a) (lower s')
  end.

Fixpoint remove_spaces (s : string) : string :=
  match s with
  | EmptyString => EmptyString
  | String a s' =>
      if is_space a then remove_spaces s' else String a (remove_spaces s')
  end.

(** The test as the specification words it: equality with "Transfer"
    that ignores case and whitespace. *)
Definition insensitive_transfer_test (c : cell) : bool :=
  match c with
  | Str s => String.eqb (lower (remove_spaces s)) (lower "Transfer")
  | _ => false
  end.

(** The top-N collapse: the first N groups as they are, then one
    "Others" group holding the sum of the remaining ones when that sum
    is strictly positive. *)
Definition topN_collapse (data : list (string * Q)) (topN : Z)
  : list (string * Q) :=
  let others_sum := nansum (map (Some ∘ snd) (iloc_from topN data)) in
  (head_n topN data
   ++ if Qltb 0 others_sum then [("Others", others_sum)] else [])%list.

(** The Source groups of [expense_pie_topN]: the absolute value of each
    Source's summed Amount. *)
Definition source_sums (exp_df : Ledger) : list (string * Q) :=
  map (λ kv : string * Q, (kv.1, Qabs kv.2))
      (groupby_sum String.leb Source exp_df).

(** The Source groups read literally from the specification: each
    Source's sum of absolute Amounts. *)
Definition source_sums_of_absolutes (exp_df : Ledger) : list (string * Q) :=
  groupby_sum String.leb Source
    (map (λ e, {| Timestamp := Timestamp e;
                  Nature_of_Record := Nature_of_Record e;
                  Amount := Qabs <$> Amount e;
                  Source := Source e;
                  Account := Account e;
                  Description := Description e |}) exp_df).

(** The number in the Amount column of a row, as a sum over the column
    reads it: nothing for a null cell. *)
Definition amount_number (r : Row) : option Q :=
  match r !! "Amount" with Some (Num q) => Some q | _ => None end.

(** The six columns of the canonical schema, as [_finalise_schema]
    lists them. *)
Definition CANONICAL : list string :=
  ["Timestamp"; "Nature of Record"; "Amount"; "Source"; "Account";
   "Description"].

(** The canonical columns of a row. *)
Definition canonical_part (r : Row) : Row :=
  filter (λ kv : string * cell, kv.1 ∈ CANONICAL) r.

(** The Timestamp cell of a row, null when the column is missing. *)
Definition timestamp_cell (r : Row) : cell := default Null (r !! "Timestamp").

(** [_enforce_types] on one row. *)
Definition enforce_row `{Coercions} (r : Row) : option LedgerEntry :=
  timestamp ← getitem "Timestamp" r;
  nature ← getitem "Nature of Record" r;
  amount ← getitem "Amount" r;
  account ← getitem "Account" r;
  source ← getitem "Source" r;
  description ← getitem "Description" r;
  Some {| Timestamp := to_datetime timestamp;
          Nature_of_Record := astype_string nature;
          Amount := to_numeric amount;
          Account := astype_string account;
          Source := astype_string source;
          Description := default "" (astype_string description) |}.

(** The label cell of a row, null when the column is missing. *)
Definition nature_cell (r : Row) : cell :=
  default Null (r !! "Nature of Record").

(** A cell that holds a date-time or nothing, as the cells of a date
    column read from the sheet do. *)
Definition datetime_or_null (c : cell) : bool :=
  match c with Null | Time _ => true | _ => false end.

(** A cell that holds a text or nothing. *)
Definition text_or_null (c : cell) : bool :=
  match c with Null | Str _ => true | _ => false end.

(** The Amount cell of a row, null when the column is missing. *)
Definition amount_cell (r : Row) : cell := default Null (r !! "Amount").

(** A label as the sheet's form writes it for a row that is no leg of a
    transfer: nothing, or a text other than the labels of the two legs. *)
Definition no_leg_label (c : cell) : bool :=
  match c with
  | Null => true
  | Str s => negb (String.eqb s "Transfer-In")
             && negb (String.eqb s "Transfer-Out")
  | _ => false
  end.

(** The entry that a row of the finalised frame gives to the label [l]
    once its types are enforced: its Amount as a number, None for NaN,
    when its label reads [l], and no entry otherwise. *)
Definition labelled_amount `{Coercions} (l : string) (r : Row)
    : option (option Q) :=
  if decide (astype_string (nature_cell r) = Some l)
  then Some (to_numeric (amount_cell r)) else None.

(** ** Sample rows *)

(** A wide row: the given cells, and nothing in every other column of
    the four families. *)
Definition wide_row (timestamp nature : cell) (cells : list (string * cell))
  : Row :=
  list_to_map
    (cells
     ++ [("Timestamp", timestamp); ("Nature of Record", nature)]
     ++ map (λ c, (c, Null))
            (AMOUNT_COLS ++ ACCOUNT_COLS ++ SOURCE_COLS ++ DESC_COLS))%list.

Definition nov3 : datetime := mk_datetime 2025 11 3 0.

(** An Expense of 150.0. *)
Definition expense_150 : Row :=
  wide_row (Time nov3) (Str "Expense")
    [("Expense Amount", Num 150); ("Expense Source", Str "Bank");
     ("Expense Account", Str "Food"); ("Expense Note", Str "lunch")].

(** A Transfer of 40.0 from Bank to Cash; the label has stray blanks. *)
Definition transfer_40 : Row :=
  wide_row (Time nov3) (Str " Transfer ")
    [("Transfer Amount", Num 40); ("Transfer Account", Str "Cash");
     ("Transfer Source", Str "Bank"); ("Transfer Note", Str "atm")].

(** A malformed row: an Income and an Expense amount at once. *)
Definition income_and_expense : Row :=
  wide_row (Time nov3) (Str "Income")
    [("Income Amount", Num 100); ("Expense Amount", Num 30);
     ("Income Account", Str "Bank"); ("Income Source", Str "Salary")].

(** An Expense whose amount cell holds a text. *)
Definition expense_text_amount : Row :=
  wide_row (Time nov3) (Str "Expense")
    [("Expense Amount", Str "abc"); ("Expense Source", Str "Bank");
     ("Expense Account", Str "Food")].

(** An Income whose amount cell holds the same text, and whose
    Timestamp holds a text as well. *)
Definition income_text_amount : Row :=
  wide_row (Str "not-a-date") (Str "Income")
    [("Income Amount", Str "abc"); ("Income Account", Str "Bank");
     ("Income Source", Str "Salary")].

(** A coalesced row, as [_combine_columns] leaves it. *)
Definition narrow_row (timestamp nature amount source account description : cell)
  : Row :=
  list_to_map
    [("Timestamp", timestamp); ("Nature of Record", nature);
     ("Amount", amount); ("Source", source); ("Account", account);
     ("Description", description)].

Definition coalesced_expense : Row :=
  narrow_row (Time nov3) (Str "Expense") (Num (-150))
             (Str "Food") (Str "Bank") (Str "lunch").

Definition coalesced_transfer : Row :=
  narrow_row (Time nov3) (Str " Transfer ") (Num 40)
             (Str "Bank") (Str "Cash") (Str "atm").

(** A row without a label. *)
Definition coalesced_unlabelled : Row :=
  narrow_row (Time nov3) Null (Num 5) (Str "Gift") (Str "Cash") Null.

(** A row whose label is written in lower case. *)
Definition coalesced_lowercase : Row :=
  narrow_row (Time nov3) (Str "transfer") (Num 40)
             (Str "Bank") (Str "Cash") (Str "atm").

(** A ledger entry. *)
Definition entry (month : Z) (nature : string) (amount : Q)
    (source account : string) : LedgerEntry :=
  {| Timestamp := Some (mk_datetime 2025 month 1 0);
     Nature_of_Record := Some nature;
     Amount := Some amount;
     Source := Some source;
     Account := Some account;
     Description := "" |}.

(** An entry whose Timestamp did not parse. *)
Definition undated : LedgerEntry :=
  {| Timestamp := None;
     Nature_of_Record := Some "Income";
     Amount := Some 7%Q;
     Source := Some "Gift";
     Account := Some "Cash";
     Description := "" |}.

(** November 2025 has Income only; the one Expense is in December. *)
Definition income_only_november : Ledger :=
  [ entry 11 "Income" 100 "Salary" "Bank";
    entry 12 "Expense" (-30) "Food" "Bank" ].

(** Five Sources whose expenses sum to 100, 80, 60, 40 and 20. *)
Definition five_sources : Ledger :=
  [ entry 11 "Expense" (-20) "Taxi" "Bank";
    entry 11 "Expense" (-70) "Rent" "Bank";
    entry 11 "Expense" (-60) "Food" "Bank";
    entry 11 "Expense" (-80) "Travel" "Bank";
    entry 11 "Expense" (-30) "Rent" "Cash";
    entry 11 "Expense" (-40) "Books" "Cash" ].

(** An expense of 100 on Food and a refund of 30 on it. *)
Definition expense_and_refund : Ledger :=
  [ entry 11 "Expense" (-100) "Food" "Bank";
    entry 11 "Expense" 30 "Food" "Bank" ].

Definition nov1 : datetime := mk_datetime 2025 11 1 0.

Definition coalesced_income : Row :=
  narrow_row (Time nov1) (Str "Income") (Num 100)
             (Str "Salary") (Str "Bank") Null.

(** A row whose Timestamp cell is empty. *)
Definition coalesced_undated : Row :=
  narrow_row Null (Str "Income") (Num 7) (Str "Gift") (Str "Cash") Null.

(** A frame that is not in the order of its Timestamps. *)
Definition unsorted_frame : DataFrame :=
  [coalesced_expense; coalesced_undated; coalesced_income].

(** Coercions that parse no text, for the examples. *)
Definition parse_nothing : Coercions :=
  {| parse_datetime := λ _, None;
     datetime_of_number := λ _, None;
     parse_numeric := λ _, None;
     number_of_datetime := λ _, None;
     str_of_number := λ _, "";
     str_of_datetime := λ _, "" |}.

(** An Income of 100.0 two days earlier. *)
Definition income_100 : Row :=
  wide_row (Time nov1) (Str "Income")
    [("Income Amount", Num 100); ("Income Account", Str "Bank");
     ("Income Source", Str "Salary")].

(** An Income of 7.0 without a Timestamp. *)
Definition income_undated : Row :=
  wide_row Null (Str "Income")
    [("Income Amount", Num 7); ("Income Account", Str "Cash");
     ("Income Source", Str "Gift")].

(** A ledger of two accounts, not in the order of its Timestamps, with
    one entry that has no Timestamp. *)
Definition two_accounts : Ledger :=
  [ entry 12 "Expense" (-30) "Food" "Bank";
    entry 11 "Income" 100 "Salary" "Bank";
    undated;
    entry 11 "Income" 7 "Gift" "Cash" ].

(** ** Lemmas on the frame operations *)

Section frame_lemmas.
Context {A B C : Type}.

Lemma mapM_bind_fuse (f : A → option B) (g : B → option C) (l : list A) :
  mapM f l ≫= mapM g = mapM (λ x, f x ≫= g) l.
Proof.
  induction l as [|x l IH]; [done|].
  cbn. destruct (f x) as [y|]; cbn; [|done].
  rewrite <- IH. destruct (mapM f l) as [k|]; cbn; [|by destruct (g y)].
  done.
Qed.

Lemma mapM_bind_fuse_k {D} (f : A → option B) (g : B → option C)
    (k : list C → option D) (l : list A) :
  (mapM f l ≫= λ l1, mapM g l1 ≫= k) = mapM (λ x, f x ≫= g) l ≫= k.
Proof.
  rewrite <- mapM_bind_fuse. by destruct (mapM f l).
Qed.

Lemma mapM_fmap_fuse (f : A → option B) (g : B → C) (l : list A) :
  (mapM f l ≫= λ l1, Some (map g l1)) = mapM (λ x, g <$> f x) l.
Proof.
  induction l as [|x l IH]; [done|].
  cbn. destruct (f x) as [y|]; cbn; [|done].
  rewrite <- IH. by destruct (mapM f l).
Qed.
End frame_lemmas.

Lemma assign_rowwise (c : string) (f : Row → option cell) (df : DataFrame) :
  assign c f df = mapM (λ r, v ← f r; Some (<[c:=v]> r)) df.
Proof.
  unfold assign, setitem. induction df as [|r df IH]; [done|].
  cbn. destruct (f r) as [v|]; cbn; [|done].
  rewrite <- IH. by destruct (mapM f df).
Qed.

Lemma loc_mask_filter {A} (f : A → option bool) (l : list A) mask :
  mapM f l = Some mask →
  loc_mask l mask = filter (λ x, f x = Some true) l
  ∧ loc_mask l (map negb mask) = filter (λ x, f x ≠ Some true) l.
Proof.
  revert mask. induction l as [|x l IH]; intros mask Hm.
  - by destruct mask.
  - cbn in Hm. destruct (f x) as [b|] eqn:Hx; cbn in Hm; [|done].
    destruct (mapM f l) as [m|]; cbn in Hm; [|done].
    injection Hm as <-. destruct (IH m eq_refl) as [IH1 IH2].
    rewrite !filter_cons. cbn. rewrite Hx.
    destruct b; cbn; repeat case_decide; try congruence; by rewrite ?IH1, ?IH2.
Qed.

Lemma bfill_first_valid (l : list cell) :
  default Null (head (bfill l)) = first_valid l.
Proof.
  induction l as [|c l IH]; [done|].
  cbn. unfold first_valid in *. cbn. by destruct c.
Qed.

Lemma iloc0_bfill (c : cell) (l : list cell) :
  iloc0 (bfill (c :: l)) = Some (first_valid (c :: l)).
Proof.
  unfold iloc0. rewrite <- bfill_first_valid. done.
Qed.

Lemma assign_bind_fuse {A D} (F : A → option Row) (c : string)
    (f : Row → option cell) (k : DataFrame → option D) (l : list A) :
  (mapM F l ≫= λ l1, assign c f l1 ≫= k)
  = mapM (λ x, F x ≫= λ r, v ← f r; Some (<[c:=v]> r)) l ≫= k.
Proof.
  rewrite <- mapM_bind_fuse.
  destruct (mapM F l); cbn; [by rewrite assign_rowwise|done].
Qed.

(** *** The coalescer *)

Opaque coalesce getitem drop_columns neg.

Lemma combine_columns_rowwise (raw : DataFrame) :
  _combine_columns raw = mapM combine_row raw.
Proof.
  unfold _combine_columns. rewrite assign_rowwise.
  cbv zeta.
  rewrite !assign_bind_fuse.
  rewrite mapM_fmap_fuse.
  apply mapM_ext. intros r. unfold combine_row, sign_flip.
  destruct (getitem "Expense Amount" r ≫= neg) as [e|]; cbn; [|done].
  destruct (getitem "Transfer-Out Amount" _ ≫= neg) as [t|]; cbn; [|done].
  destruct (coalesce AMOUNT_COLS _) as [a|]; cbn; [|done].
  destruct (coalesce ACCOUNT_COLS _) as [b|]; cbn; [|done].
  destruct (coalesce SOURCE_COLS _) as [c|]; cbn; [|done].
  destruct (coalesce DESC_COLS _) as [d|]; cbn; [|done].
  done.
Qed.

Transparent coalesce getitem drop_columns neg.

Lemma getitems_family (cols : list string) (r : Row) (cells : list cell) :
  getitems cols r = Some cells →
  cells = family cols r ∧ Forall (λ c, is_Some (r !! c)) cols.
Proof.
  unfold getitems, getitem. intros H%mapM_Some_1.
  induction H as [|c y cols cells Hc _ [IH1 IH2]]; [done|].
  split.
  - cbn. by rewrite Hc, IH1.
  - constructor; [by rewrite Hc|done].
Qed.

Lemma getitems_present (cols : list string) (r : Row) :
  Forall (λ c, is_Some (r !! c)) cols →
  getitems cols r = Some (family cols r).
Proof.
  intros H. apply mapM_Some_2.
  induction H as [|c cols [y Hy] _ IH]; cbn; constructor; [|done].
  unfold getitem. by rewrite Hy.
Qed.

Lemma coalesce_Some (cols : list string) (r : Row) (v : cell) :
  coalesce cols r = Some v →
  v = first_valid (family cols r) ∧ Forall (λ c, is_Some (r !! c)) cols.
Proof.
  unfold coalesce. intros H.
  destruct (getitems cols r) as [cells|] eqn:Hg; cbn in H; [|done].
  apply getitems_family in Hg as [-> Hall]. split; [|done].
  destruct cols as [|c cols]; [done|].
  cbn [family map] in H. rewrite iloc0_bfill in H. by injection H as <-.
Qed.

Lemma coalesce_present (cols : list string) (r : Row) :
  cols ≠ [] →
  Forall (λ c, is_Some (r !! c)) cols →
  coalesce cols r = Some (first_valid (family cols r)).
Proof.
  intros Hne H. unfold coalesce. rewrite (getitems_present _ _ H).
  destruct cols as [|c cols]; [done|]. cbn. apply iloc0_bfill.
Qed.

Lemma neg_Some (c v : cell) : neg c = Some v → v = opp c.
Proof. destruct c; cbn; intros H; by inversion H. Qed.

Lemma neg_negatable (c : option cell) :
  negatable c = true → ∃ x, c = Some x ∧ neg x = Some (opp x).
Proof. destruct c as [[]|]; cbn; intros H; try done; eauto. Qed.

Lemma wide_ok_iff (r : Row) :
  wide_ok r = true ↔
  Forall (λ c, is_Some (r !! c))
         (AMOUNT_COLS ++ ACCOUNT_COLS ++ SOURCE_COLS ++ DESC_COLS)
  ∧ negatable (r !! "Expense Amount") = true
  ∧ negatable (r !! "Transfer-Out Amount") = true.
Proof.
  unfold wide_ok. rewrite !andb_true_iff, forallb_forall, Forall_forall.
  setoid_rewrite bool_decide_eq_true. setoid_rewrite <- list_elem_of_In.
  tauto.
Qed.

Lemma sign_flip_Some (r r1 : Row) :
  sign_flip r = Some r1 →
  negatable (r !! "Expense Amount") = true
  ∧ negatable (r !! "Transfer-Out Amount") = true
  ∧ r1 = <["Transfer-Out Amount":=opp (default Null (r !! "Transfer-Out Amount"))]>
           (<["Expense Amount":=opp (default Null (r !! "Expense Amount"))]> r).
Proof.
  unfold sign_flip, getitem. intros H.
  destruct (r !! "Expense Amount") as [x|] eqn:Hx; cbn in H; [|done].
  destruct (neg x) as [e|] eqn:He; cbn in H; [|done].
  rewrite lookup_insert_ne in H by done.
  destruct (r !! "Transfer-Out Amount") as [y|] eqn:Hy; cbn in H; [|done].
  destruct (neg y) as [t|] eqn:Ht; cbn in H; [|done].
  injection H as <-.
  apply neg_Some in He as Hxe. apply neg_Some in Ht as Hyt. subst e t.
  repeat split; [by destruct x|by destruct y].
Qed.

Lemma family_insert_notin (cols : list string) (k : string) (v : cell) (r : Row) :
  k ∉ cols → family cols (<[k:=v]> r) = family cols r.
Proof.
  intros Hk. unfold family. apply map_ext_in. intros c Hc%list_elem_of_In.
  rewrite lookup_insert_ne; [done|]. by intros ->.
Qed.

Lemma present_insert (cols : list string) (k : string) (v : cell) (r : Row) :
  Forall (λ c, is_Some (<[k:=v]> r !! c)) cols →
  k ∉ cols ∨ is_Some (r !! k) →
  Forall (λ c, is_Some (r !! c)) cols.
Proof.
  rewrite !Forall_forall. intros H Hk c Hc. specialize (H c Hc).
  destruct (decide (k = c)) as [->|Hne].
  - by destruct Hk.
  - by rewrite lookup_insert_ne in H.
Qed.

Lemma lookup_drop_columns (cols : list string) (c : string) (r : Row) :
  c ∉ cols → drop_columns cols r !! c = r !! c.
Proof.
  unfold drop_columns. induction cols as [|k cols IH]; [done|].
  intros [Hk Hc]%not_elem_of_cons. cbn. rewrite lookup_delete_ne by done. auto.
Qed.

Lemma signed_amounts_family (r : Row) :
  family AMOUNT_COLS
    (<["Transfer-Out Amount":=opp (default Null (r !! "Transfer-Out Amount"))]>
       (<["Expense Amount":=opp (default Null (r !! "Expense Amount"))]> r))
  = signed_amounts r.
Proof.
  unfold family, signed_amounts, AMOUNT_COLS. cbn [map].
  repeat first [rewrite lookup_insert_eq | rewrite lookup_insert_ne by done].
  done.
Qed.

Opaque coalesce getitem drop_columns neg sign_flip family.

Lemma combine_row_Some (r r' : Row) :
  combine_row r = Some r' →
  wide_ok r = true
  ∧ r' !! "Amount" = Some (first_valid (signed_amounts r))
  ∧ r' !! "Account" = Some (first_valid (family ACCOUNT_COLS r))
  ∧ r' !! "Source" = Some (first_valid (family SOURCE_COLS r))
  ∧ r' !! "Description" = Some (first_valid (family DESC_COLS r))
  ∧ (∀ c : string,
        c ∉ (["Amount"; "Account"; "Source"; "Description"]
             ++ AMOUNT_COLS ++ ACCOUNT_COLS ++ SOURCE_COLS ++ DESC_COLS)%list →
        r' !! c = r !! c).
Proof.
  unfold combine_row. intros H.
  destruct (sign_flip r) as [r1|] eqn:H1; cbn [mbind option_bind] in H; [|done].
  apply sign_flip_Some in H1 as (He & Ht & ->).
  destruct (coalesce AMOUNT_COLS _) as [a|] eqn:Ha; cbn [mbind option_bind] in H; [|done].
  destruct (coalesce ACCOUNT_COLS _) as [b|] eqn:Hb; cbn [mbind option_bind] in H; [|done].
  destruct (coalesce SOURCE_COLS _) as [c|] eqn:Hc; cbn [mbind option_bind] in H; [|done].
  destruct (coalesce DESC_COLS _) as [d|] eqn:Hd; cbn [mbind option_bind] in H; [|done].
  injection H as <-.
  apply coalesce_Some in Ha as [-> Pa], Hb as [-> Pb], Hc as [-> Pc], Hd as [-> Pd].
  rewrite signed_amounts_family.
  rewrite !family_insert_notin in * by compute_done.
  apply neg_negatable in He as He', Ht as Ht'.
  destruct He' as (x & Hx & _), Ht' as (y & Hy & _).
  do 2 (apply present_insert in Pa; [|right; by rewrite ?lookup_insert_ne, ?Hx, ?Hy by done]).
  do 3 (apply present_insert in Pb; [|left; compute_done]).
  do 4 (apply present_insert in Pc; [|left; compute_done]).
  do 5 (apply present_insert in Pd; [|left; compute_done]).
  split.
  { apply wide_ok_iff. rewrite !Forall_app. done. }
  repeat split.
  - rewrite lookup_drop_columns by compute_done.
    by rewrite !lookup_insert_ne, lookup_insert_eq by done.
  - rewrite lookup_drop_columns by compute_done.
    by rewrite !lookup_insert_ne, lookup_insert_eq by done.
  - rewrite lookup_drop_columns by compute_done.
    by rewrite !lookup_insert_ne, lookup_insert_eq by done.
  - rewrite lookup_drop_columns by compute_done.
    by rewrite lookup_insert_eq.
  - intros k Hk. apply not_elem_of_app in Hk as [Hk1 Hk2].
    rewrite lookup_drop_columns by exact Hk2.
    apply not_elem_of_app in Hk2 as [Hk2 _].
    by rewrite !lookup_insert_ne
      by (intros <-; solve [apply Hk1; compute_done|apply Hk2; compute_done]).
Qed.

Transparent coalesce getitem drop_columns neg sign_flip family.

Lemma sign_flip_negatable (r : Row) :
  negatable (r !! "Expense Amount") = true →
  negatable (r !! "Transfer-Out Amount") = true →
  sign_flip r
  = Some (<["Transfer-Out Amount":=opp (default Null (r !! "Transfer-Out Amount"))]>
            (<["Expense Amount":=opp (default Null (r !! "Expense Amount"))]> r)).
Proof.
  intros (x & Hx & Hnx)%neg_negatable (y & Hy & Hny)%neg_negatable.
  unfold sign_flip, getitem. rewrite Hx. cbn. rewrite Hnx. cbn.
  rewrite lookup_insert_ne by done. rewrite Hy. cbn. rewrite Hny. done.
Qed.

Lemma present_insert_2 (cols : list string) (k : string) (v : cell) (r : Row) :
  Forall (λ c, is_Some (r !! c)) cols →
  Forall (λ c, is_Some (<[k:=v]> r !! c)) cols.
Proof.
  intros H. eapply Forall_impl; [exact H|]. intros c Hc. cbn beta in *.
  destruct (decide (k = c)) as [->|Hne].
  - by rewrite lookup_insert_eq.
  - by rewrite lookup_insert_ne.
Qed.

Opaque coalesce getitem drop_columns neg sign_flip family.

Lemma combine_row_wide_ok (r : Row) :
  wide_ok r = true → is_Some (combine_row r).
Proof.
  intros (P & He & Ht)%wide_ok_iff.
  rewrite !Forall_app in P. destruct P as (Pa & Pb & Pc & Pd).
  unfold combine_row. rewrite sign_flip_negatable by done.
  cbn [mbind option_bind].
  rewrite coalesce_present
    by (done || by do 2 apply present_insert_2).
  cbn [mbind option_bind].
  rewrite coalesce_present
    by (done || by do 3 apply present_insert_2).
  cbn [mbind option_bind].
  rewrite coalesce_present
    by (done || by do 4 apply present_insert_2).
  cbn [mbind option_bind].
  rewrite coalesce_present
    by (done || by do 5 apply present_insert_2).
  cbn [mbind option_bind]. done.
Qed.

Transparent coalesce getitem drop_columns neg sign_flip family.

Lemma combine_columns_Some (raw df : DataFrame) :
  _combine_columns raw = Some df →
  Forall2 (λ r r', combine_row r = Some r') raw df.
Proof. rewrite combine_columns_rowwise. apply mapM_Some_1. Qed.

(** [wide_ok] holds of every row of a frame on which the coalescer
    returns: it is the domain of [_combine_columns]. *)
Lemma combine_columns_domain (raw df : DataFrame) :
  _combine_columns raw = Some df → Forall (λ r, wide_ok r = true) raw.
Proof.
  intros H%combine_columns_Some. eapply Forall2_Forall_l; [exact H|].
  apply Forall_true. intros r' r Hr. by apply combine_row_Some in Hr as [? _].
Qed.

Lemma combine_columns_wide_ok (raw : DataFrame) :
  Forall (λ r, wide_ok r = true) raw → is_Some (_combine_columns raw).
Proof.
  intros H. rewrite combine_columns_rowwise. apply mapM_is_Some.
  eapply Forall_impl; [exact H|]. intros r. apply combine_row_wide_ok.
Qed.

(** ** The coalescer and the sign normaliser *)

(** C4.  For every wide frame, [_combine_columns] returns, and in every
    row each of the four coalesced fields is the first non-null cell of
    its family, read in the declared order Income, Expense, Transfer,
    Transfer-In, Transfer-Out, and null when the family is all null
    (the Amount family is read after the sign flips).  In particular a
    non-null Income Amount is the coalesced Amount, whatever the Expense
    Amount holds. *)
Theorem coalesce_first_non_null (raw : DataFrame) :
  Forall (λ r, wide_ok r = true) raw →
  ∃ df, _combine_columns raw = Some df ∧
    Forall2 (λ r r',
      r' !! "Amount" = Some (first_valid (signed_amounts r))
      ∧ r' !! "Account" = Some (first_valid (family ACCOUNT_COLS r))
      ∧ r' !! "Source" = Some (first_valid (family SOURCE_COLS r))
      ∧ r' !! "Description" = Some (first_valid (family DESC_COLS r))
      ∧ (∀ v, r !! "Income Amount" = Some v → isna v = false →
              r' !! "Amount" = Some v)) raw df.
Proof.
  intros Hw. destruct (combine_columns_wide_ok raw Hw) as [df Hdf].
  exists df. split; [done|].
  eapply Forall2_impl; [exact (combine_columns_Some _ _ Hdf)|].
  intros r r' (_ & Ha & Hb & Hc & Hd & _)%combine_row_Some.
  repeat split; try done.
  intros v Hv Hna. rewrite Ha. unfold signed_amounts, first_valid.
  rewrite Hv. cbn. by rewrite Hna.
Qed.

Lemma coalesce_first_non_null_witness :
  Forall (λ r, wide_ok r = true) [income_and_expense]
  ∧ ∃ df, _combine_columns [income_and_expense] = Some df ∧
      Forall2 (λ r r',
        r' !! "Amount" = Some (first_valid (signed_amounts r))
        ∧ r' !! "Account" = Some (first_valid (family ACCOUNT_COLS r))
        ∧ r' !! "Source" = Some (first_valid (family SOURCE_COLS r))
        ∧ r' !! "Description" = Some (first_valid (family DESC_COLS r))
        ∧ (∀ v, r !! "Income Amount" = Some v → isna v = false →
                r' !! "Amount" = Some v)) [income_and_expense] df.
Proof.
  assert (Forall (λ r, wide_ok r = true) [income_and_expense]) as H.
  { repeat constructor. }
  split; [exact H|]. exact (coalesce_first_non_null _ H).
Defined.

(** C5.  For every wide frame, [_combine_columns] returns, and the
    coalesced Amount of a row carries the sign of its category: an
    Expense Amount and a Transfer-Out Amount come out negated, while the
    Amount of a raw Transfer row is its Transfer Amount as entered. *)
Theorem sign_normalisation (raw : DataFrame) :
  Forall (λ r, wide_ok r = true) raw →
  ∃ df, _combine_columns raw = Some df ∧
    Forall2 (λ r r',
      (∀ a, r !! "Income Amount" = Some Null →
            r !! "Expense Amount" = Some (Num a) →
            r' !! "Amount" = Some (Num (- a)%Q))
      ∧ (∀ a, r !! "Income Amount" = Some Null →
              r !! "Expense Amount" = Some Null →
              r !! "Transfer Amount" = Some (Num a) →
              r' !! "Amount" = Some (Num a))
      ∧ (∀ a, r !! "Income Amount" = Some Null →
              r !! "Expense Amount" = Some Null →
              r !! "Transfer Amount" = Some Null →
              r !! "Transfer-In Amount" = Some Null →
              r !! "Transfer-Out Amount" = Some (Num a) →
              r' !! "Amount" = Some (Num (- a)%Q))) raw df.
Proof.
  intros Hw. destruct (combine_columns_wide_ok raw Hw) as [df Hdf].
  exists df. split; [done|].
  eapply Forall2_impl; [exact (combine_columns_Some _ _ Hdf)|].
  intros r r' (_ & Ha & _)%combine_row_Some.
  rewrite Ha. unfold signed_amounts, first_valid.
  repeat split; intros a; intros; by simplify_option_eq.
Qed.

Lemma sign_normalisation_witness :
  Forall (λ r, wide_ok r = true) [expense_150; transfer_40]
  ∧ ∃ df, _combine_columns [expense_150; transfer_40] = Some df ∧
      Forall2 (λ r r',
        (∀ a, r !! "Income Amount" = Some Null →
              r !! "Expense Amount" = Some (Num a) →
              r' !! "Amount" = Some (Num (- a)%Q))
        ∧ (∀ a, r !! "Income Amount" = Some Null →
                r !! "Expense Amount" = Some Null →
                r !! "Transfer Amount" = Some (Num a) →
                r' !! "Amount" = Some (Num a))
        ∧ (∀ a, r !! "Income Amount" = Some Null →
                r !! "Expense Amount" = Some Null →
                r !! "Transfer Amount" = Some Null →
                r !! "Transfer-In Amount" = Some Null →
                r !! "Transfer-Out Amount" = Some (Num a) →
                r' !! "Amount" = Some (Num (- a)%Q)))
        [expense_150; transfer_40] df.
Proof.
  assert (Forall (λ r, wide_ok r = true) [expense_150; transfer_40]) as H.
  { repeat constructor. }
  split; [exact H|]. exact (sign_normalisation _ H).
Defined.

(** The specification's own instance of C5: the Expense of 150.0 has
    Amount -150.0 after [_combine_columns], and in the ledger [run]
    returns; the Transfer of 40.0 still has Amount 40.0 after
    [_combine_columns]. *)
Example expense_150_amount `{Coercions} :
  map (λ r : Row, r !! "Amount") <$> _combine_columns [expense_150; transfer_40]
  = Some [Some (Num (-150)); Some (Num 40)]
  ∧ map Amount <$> run [expense_150] = Some [Some (-150)%Q].
Proof. split; by vm_compute. Qed.

(** ** The transfer splitter *)

Opaque getitem neg.

(** The swap of Source and Account through [temp], row by row. *)
Lemma swap_rowwise (df : DataFrame) :
  (temp ← mapM (getitem "Source") df;
   df' ← assign "Source" (getitem "Account") df;
   Some (setitem "Account" temp df'))
  = mapM (λ r, temp ← getitem "Source" r;
               account ← getitem "Account" r;
               Some (<["Account":=temp]> (<["Source":=account]> r))) df.
Proof.
  rewrite assign_rowwise. unfold setitem.
  induction df as [|r df IH]; [done|].
  cbn. destruct (getitem "Source" r) as [t|]; cbn; [|done].
  rewrite <- IH. clear IH.
  destruct (mapM (getitem "Source") df) as [temp|],
    (getitem "Account" r) as [a|]; cbn; try done;
    by destruct (mapM _ df).
Qed.

Lemma expense_leg_rowwise {D} (k : DataFrame → option D) (df : DataFrame) :
  (te ← assign "Amount" (λ r, getitem "Amount" r ≫= neg) df;
   temp ← mapM (getitem "Source") te;
   te' ← assign "Source" (getitem "Account") te;
   k (map (insert "Nature of Record" (Str "Transfer-Out"))
          (setitem "Account" temp te')))
  = mapM expense_leg df ≫= k.
Proof.
  transitivity
    ((te ← assign "Amount" (λ r, getitem "Amount" r ≫= neg) df;
      te' ← (temp ← mapM (getitem "Source") te;
             te' ← assign "Source" (getitem "Account") te;
             Some (setitem "Account" temp te'));
      Some (map (insert "Nature of Record" (Str "Transfer-Out")) te')) ≫= k).
  { destruct (assign "Amount" _ df) as [te|]; cbn; [|done].
    destruct (mapM (getitem "Source") te) as [temp|]; cbn; [|done].
    by destruct (assign "Source" _ te). }
  f_equal. rewrite assign_rowwise.
  transitivity
    (mapM (λ r, v ← getitem "Amount" r ≫= neg; Some (<["Amount":=v]> r)) df
     ≫= λ te, mapM (λ r, temp ← getitem "Source" r;
                         account ← getitem "Account" r;
                         Some (<["Account":=temp]> (<["Source":=account]> r))) te
     ≫= λ te', Some (map (insert "Nature of Record" (Str "Transfer-Out")) te')).
  { destruct (mapM _ df) as [te|]; cbn; [|done]. by rewrite swap_rowwise. }
  rewrite mapM_bind_fuse_k, mapM_fmap_fuse.
  apply mapM_ext. intros r. unfold expense_leg.
  destruct (getitem "Amount" r ≫= neg) as [a|]; cbn; [|done].
  destruct (getitem "Source" _) as [s|]; cbn; [|done].
  by destruct (getitem "Account" _) as [c|].
Qed.

Lemma income_leg_rowwise {D} (k : DataFrame → option D) (df : DataFrame) :
  (ti ← assign "Amount" (getitem "Amount") df;
   k (map (insert "Nature of Record" (Str "Transfer-In")) ti))
  = mapM income_leg df ≫= k.
Proof.
  transitivity
    ((ti ← assign "Amount" (getitem "Amount") df;
      Some (map (insert "Nature of Record" (Str "Transfer-In")) ti)) ≫= k).
  { by destruct (assign "Amount" _ df). }
  f_equal. rewrite assign_rowwise, mapM_fmap_fuse.
  apply mapM_ext. intros r. unfold income_leg.
  by destruct (getitem "Amount" r).
Qed.

Lemma split_transfers_rowwise (raw : DataFrame) :
  _split_transfers raw
  = (mask ← mapM is_transfer raw;
     outs ← mapM expense_leg (loc_mask raw mask);
     ins ← mapM income_leg (loc_mask raw mask);
     Some (loc_mask raw (map negb mask) ++ outs ++ ins)%list).
Proof.
  unfold _split_transfers. fold is_transfer.
  change (mapM (λ r, c ← getitem "Nature of Record" r;
                     Some (eq_str (fillna (Str "") (str_strip c)) "Transfer")) raw)
    with (mapM is_transfer raw).
  destruct (mapM is_transfer raw) as [mask|]; cbn [mbind option_bind]; [|done].
  cbv zeta.
  rewrite (expense_leg_rowwise
    (λ outs, ti ← assign "Amount" (getitem "Amount") (loc_mask raw mask);
             Some (loc_mask raw (map negb mask) ++ outs
                   ++ map (insert "Nature of Record" (Str "Transfer-In")) ti)%list)).
  destruct (mapM expense_leg _) as [outs|]; cbn [mbind option_bind]; [|done].
  by rewrite (income_leg_rowwise
    (λ ins, Some (loc_mask raw (map negb mask) ++ outs ++ ins)%list)).
Qed.

Transparent getitem neg.

Lemma expense_leg_Some (r o : Row) :
  expense_leg r = Some o →
  ∃ a s c, r !! "Amount" = Some a ∧ negatable (Some a) = true
    ∧ r !! "Source" = Some s ∧ r !! "Account" = Some c
    ∧ o = <["Nature of Record":=Str "Transfer-Out"]>
            (<["Account":=s]> (<["Source":=c]> (<["Amount":=opp a]> r))).
Proof.
  unfold expense_leg, getitem. intros H.
  destruct (r !! "Amount") as [a|] eqn:Ha; cbn in H; [|done].
  destruct (neg a) as [na|] eqn:Hna; cbn in H; [|done].
  rewrite !lookup_insert_ne in H by done.
  destruct (r !! "Source") as [s|] eqn:Hs; cbn in H; [|done].
  destruct (r !! "Account") as [c|] eqn:Hc; cbn in H; [|done].
  injection H as <-. apply neg_Some in Hna as Hna'. subst na.
  exists a, s, c. repeat split; try done. by destruct a.
Qed.

Lemma income_leg_Some (r i : Row) :
  income_leg r = Some i →
  is_Some (r !! "Amount")
  ∧ i = <["Nature of Record":=Str "Transfer-In"]> r.
Proof.
  unfold income_leg, getitem. intros H.
  destruct (r !! "Amount") as [a|] eqn:Ha; cbn in H; [|done].
  injection H as <-. split; [done|]. by rewrite (insert_id r "Amount" a).
Qed.

Lemma split_transfers_Some (raw df : DataFrame) :
  _split_transfers raw = Some df →
  ∃ outs ins,
    df = (non_transfer_rows raw ++ outs ++ ins)%list
    ∧ Forall2 (λ r o, expense_leg r = Some o) (transfer_rows raw) outs
    ∧ Forall2 (λ r i, income_leg r = Some i) (transfer_rows raw) ins.
Proof.
  rewrite split_transfers_rowwise. intros H.
  destruct (mapM is_transfer raw) as [mask|] eqn:Hm;
    cbn [mbind option_bind] in H; [|done].
  destruct (loc_mask_filter _ _ _ Hm) as [E1 E2]. rewrite E1, E2 in H.
  fold (transfer_rows raw) (non_transfer_rows raw) in H.
  destruct (mapM expense_leg _) as [outs|] eqn:Ho;
    cbn [mbind option_bind] in H; [|done].
  destruct (mapM income_leg _) as [ins|] eqn:Hi;
    cbn [mbind option_bind] in H; [|done].
  injection H as <-. exists outs, ins.
  split; [done|]. split; by apply mapM_Some_1.
Qed.

Lemma transfer_legs_lookup (raw df : DataFrame) :
  _split_transfers raw = Some df →
  length df = (length (non_transfer_rows raw)
               + 2 * length (transfer_rows raw))%nat
  ∧ take (length (non_transfer_rows raw)) df = non_transfer_rows raw
  ∧ ∀ i r, transfer_rows raw !! i = Some r →
      ∃ out_leg in_leg,
        df !! (length (non_transfer_rows raw) + i)%nat = Some out_leg
        ∧ df !! (length (non_transfer_rows raw)
                 + length (transfer_rows raw) + i)%nat = Some in_leg
        ∧ expense_leg r = Some out_leg
        ∧ income_leg r = Some in_leg.
Proof.
  intros (outs & ins & -> & Ho & Hi)%split_transfers_Some.
  pose proof (Forall2_length _ _ _ Ho) as Lo.
  pose proof (Forall2_length _ _ _ Hi) as Li.
  split; [rewrite !length_app; lia|].
  split; [by rewrite take_app_length|].
  intros i r Hr.
  destruct (Forall2_lookup_l _ _ _ _ _ Ho Hr) as (o & Hoi & Hor).
  destruct (Forall2_lookup_l _ _ _ _ _ Hi Hr) as (n & Hni & Hnr).
  exists o, n. repeat split; try done.
  - rewrite lookup_app_r by lia. rewrite lookup_app_l by (apply lookup_lt_Some in Hoi; lia).
    rewrite <- Hoi. f_equal. lia.
  - rewrite lookup_app_r by lia. rewrite lookup_app_r by lia.
    rewrite <- Hni. f_equal. lia.
Qed.

(** [split_ok] holds of every row of a frame on which the splitter
    returns. *)
Lemma split_transfers_domain (raw df : DataFrame) :
  _split_transfers raw = Some df → Forall (λ r, split_ok r = true) raw.
Proof.
  rewrite split_transfers_rowwise. intros H.
  destruct (mapM is_transfer raw) as [mask|] eqn:Hm;
    cbn [mbind option_bind] in H; [|done].
  destruct (loc_mask_filter _ _ _ Hm) as [E1 _]. rewrite E1 in H.
  destruct (mapM expense_leg _) as [outs|] eqn:Ho;
    cbn [mbind option_bind] in H; [|done].
  assert (Forall (is_Some ∘ is_transfer) raw) as H1
    by (apply mapM_is_Some; by rewrite Hm).
  assert (Forall (is_Some ∘ expense_leg)
                 (filter (λ r, is_transfer r = Some true) raw)) as H2
    by (apply mapM_is_Some; by rewrite Ho).
  rewrite Forall_forall in H1, H2.
  apply Forall_forall. intros r Hr.
  destruct (H1 r Hr) as [b Hb]. unfold split_ok. rewrite Hb.
  destruct b; [|done].
  destruct (H2 r) as [o Hro]; [by apply list_elem_of_filter|].
  apply expense_leg_Some in Hro as (a & s & c & Ha & Hneg & Hs & Hc & _).
  by rewrite Ha, Hs, Hc, Hneg.
Qed.

(** C1.  Whenever [_split_transfers] returns, the result has one row
    per non-transfer row and two per Transfer row, and for every
    Transfer row whose Amount is a number [a] these two are a
    Transfer-Out leg of Amount [-a] and a Transfer-In leg of Amount [a],
    which sum to zero. *)
Theorem transfer_conservation (raw df : DataFrame) :
  _split_transfers raw = Some df →
  length df = (length (non_transfer_rows raw)
               + 2 * length (transfer_rows raw))%nat
  ∧ ∀ i r a,
      transfer_rows raw !! i = Some r →
      r !! "Amount" = Some (Num a) →
      ∃ out_leg in_leg,
        df !! (length (non_transfer_rows raw) + i)%nat = Some out_leg
        ∧ df !! (length (non_transfer_rows raw)
                 + length (transfer_rows raw) + i)%nat = Some in_leg
        ∧ out_leg !! "Nature of Record" = Some (Str "Transfer-Out")
        ∧ out_leg !! "Amount" = Some (Num (- a)%Q)
        ∧ in_leg !! "Nature of Record" = Some (Str "Transfer-In")
        ∧ in_leg !! "Amount" = Some (Num a)
        ∧ (- a + a == 0)%Q.
Proof.
  intros Hdf.
  destruct (transfer_legs_lookup _ _ Hdf) as (Hlen & _ & Hlegs).
  split; [done|]. intros i r a Hr Ha.
  destruct (Hlegs i r Hr) as (o & n & Ho & Hn & Hor & Hnr).
  exists o, n. split; [done|]. split; [done|].
  apply expense_leg_Some in Hor as (a' & s & c & Ha' & _ & Hs & Hc & ->).
  apply income_leg_Some in Hnr as (_ & ->).
  rewrite Ha in Ha'. injection Ha' as <-.
  split; [by rewrite lookup_insert_eq|].
  split; [by rewrite !lookup_insert_ne, lookup_insert_eq by done|].
  split; [by rewrite lookup_insert_eq|].
  split; [by rewrite lookup_insert_ne by done|]. ring.
Qed.

Lemma transfer_conservation_witness :
  ∃ df, _split_transfers [coalesced_expense; coalesced_transfer] = Some df
    ∧ length df
      = (length (non_transfer_rows [coalesced_expense; coalesced_transfer])
         + 2 * length (transfer_rows [coalesced_expense; coalesced_transfer]))%nat
    ∧ ∀ i r a,
        transfer_rows [coalesced_expense; coalesced_transfer] !! i = Some r →
        r !! "Amount" = Some (Num a) →
        ∃ out_leg in_leg,
          df !! (length (non_transfer_rows [coalesced_expense; coalesced_transfer])
                 + i)%nat = Some out_leg
          ∧ df !! (length (non_transfer_rows [coalesced_expense; coalesced_transfer])
                   + length (transfer_rows [coalesced_expense; coalesced_transfer])
                   + i)%nat = Some in_leg
          ∧ out_leg !! "Nature of Record" = Some (Str "Transfer-Out")
          ∧ out_leg !! "Amount" = Some (Num (- a)%Q)
          ∧ in_leg !! "Nature of Record" = Some (Str "Transfer-In")
          ∧ in_leg !! "Amount" = Some (Num a)
          ∧ (- a + a == 0)%Q.
Proof.
  assert (bool_decide (is_Some (_split_transfers [coalesced_expense; coalesced_transfer])) = true)
    as [df E]%bool_decide_eq_true by (vm_compute; reflexivity).
  exists df. split; [exact E|]. exact (transfer_conservation _ _ E).
Defined.

Lemma rows_partition (raw : DataFrame) :
  (length (non_transfer_rows raw) + length (transfer_rows raw))%nat
  = length raw.
Proof.
  unfold non_transfer_rows, transfer_rows.
  induction raw as [|r raw IH]; [done|].
  rewrite !filter_cons. cbn. repeat case_decide; cbn; try done; lia.
Qed.

(** C2.  Whenever [_split_transfers] returns, it returns as many rows
    as there are non-transfer rows plus twice the Transfer rows, and the
    non-transfer rows pass through as they are (so with their Nature of
    Record), ahead of the legs. *)
Theorem row_count_law (raw df : DataFrame) :
  _split_transfers raw = Some df →
  length df = (length (non_transfer_rows raw)
               + 2 * length (transfer_rows raw))%nat
  ∧ (length (non_transfer_rows raw) + length (transfer_rows raw))%nat
    = length raw
  ∧ take (length (non_transfer_rows raw)) df = non_transfer_rows raw.
Proof.
  intros Hdf.
  destruct (transfer_legs_lookup _ _ Hdf) as (Hlen & Htake & _).
  split; [done|]. split; [apply rows_partition|done].
Qed.

Lemma row_count_law_witness :
  ∃ df,
    _split_transfers
      [coalesced_expense; coalesced_transfer; coalesced_unlabelled] = Some df
    ∧ length df
      = (length (non_transfer_rows
                   [coalesced_expense; coalesced_transfer; coalesced_unlabelled])
         + 2 * length (transfer_rows
                   [coalesced_expense; coalesced_transfer; coalesced_unlabelled]))%nat
    ∧ (length (non_transfer_rows
                 [coalesced_expense; coalesced_transfer; coalesced_unlabelled])
       + length (transfer_rows
                 [coalesced_expense; coalesced_transfer; coalesced_unlabelled]))%nat
      = length [coalesced_expense; coalesced_transfer; coalesced_unlabelled]
    ∧ take (length (non_transfer_rows
                 [coalesced_expense; coalesced_transfer; coalesced_unlabelled])) df
      = non_transfer_rows
          [coalesced_expense; coalesced_transfer; coalesced_unlabelled].
Proof.
  assert (bool_decide (is_Some (_split_transfers [coalesced_expense; coalesced_transfer; coalesced_unlabelled])) = true)
    as [df E]%bool_decide_eq_true by (vm_compute; reflexivity).
  exists df. split; [exact E|]. exact (row_count_law _ _ E).
Defined.

(** C9.  Whenever [_split_transfers] returns, both legs of every
    Transfer row carry the row's Timestamp and Description, and indeed
    every column other than Amount, Source, Account and Nature of
    Record, unchanged. *)
Theorem transfer_legs_frame (raw df : DataFrame) :
  _split_transfers raw = Some df →
  ∀ i r,
    transfer_rows raw !! i = Some r →
    ∃ out_leg in_leg,
      df !! (length (non_transfer_rows raw) + i)%nat = Some out_leg
      ∧ df !! (length (non_transfer_rows raw)
               + length (transfer_rows raw) + i)%nat = Some in_leg
      ∧ out_leg !! "Timestamp" = r !! "Timestamp"
      ∧ out_leg !! "Description" = r !! "Description"
      ∧ in_leg !! "Timestamp" = r !! "Timestamp"
      ∧ in_leg !! "Description" = r !! "Description"
      ∧ ∀ c : string,
          c ∉ ["Amount"; "Source"; "Account"; "Nature of Record"] →
          out_leg !! c = r !! c ∧ in_leg !! c = r !! c.
Proof.
  intros Hdf.
  destruct (transfer_legs_lookup _ _ Hdf) as (_ & _ & Hlegs).
  intros i r Hr.
  destruct (Hlegs i r Hr) as (o & n & Ho & Hn & Hor & Hnr).
  exists o, n. split; [done|]. split; [done|].
  apply expense_leg_Some in Hor as (a & s & c & _ & _ & _ & _ & ->).
  apply income_leg_Some in Hnr as (_ & ->).
  do 4 (split; [by rewrite !lookup_insert_ne by done|]).
  intros k Hk.
  split;
    by rewrite !lookup_insert_ne by (intros <-; apply Hk; compute_done).
Qed.

Lemma transfer_legs_frame_witness :
  ∃ df, _split_transfers [coalesced_expense; coalesced_transfer] = Some df
    ∧ ∀ i r,
        transfer_rows [coalesced_expense; coalesced_transfer] !! i = Some r →
        ∃ out_leg in_leg,
          df !! (length (non_transfer_rows [coalesced_expense; coalesced_transfer])
                 + i)%nat = Some out_leg
          ∧ df !! (length (non_transfer_rows [coalesced_expense; coalesced_transfer])
                   + length (transfer_rows [coalesced_expense; coalesced_transfer])
                   + i)%nat = Some in_leg
          ∧ out_leg !! "Timestamp" = r !! "Timestamp"
          ∧ out_leg !! "Description" = r !! "Description"
          ∧ in_leg !! "Timestamp" = r !! "Timestamp"
          ∧ in_leg !! "Description" = r !! "Description"
          ∧ ∀ c : string,
              c ∉ ["Amount"; "Source"; "Account"; "Nature of Record"] →
              out_leg !! c = r !! c ∧ in_leg !! c = r !! c.
Proof.
  assert (bool_decide (is_Some (_split_transfers [coalesced_expense; coalesced_transfer])) = true)
    as [df E]%bool_decide_eq_true by (vm_compute; reflexivity).
  exists df. split; [exact E|]. exact (transfer_legs_frame _ _ E).
Defined.

Lemma is_transfer_iff (r : Row) :
  is_transfer r = Some true ↔
  ∃ s, r !! "Nature of Record" = Some (Str s) ∧ strip s = "Transfer".
Proof.
  unfold is_transfer, getitem.
  destruct (r !! "Nature of Record") as [[| |s|]|]; cbn;
    try (split; [done|by intros (? & ? & ?)]).
  split.
  - intros [= H]. exists s. split; [done|]. by apply String.eqb_eq.
  - intros (s' & [= <-] & H). by rewrite H.
Qed.

(** C3, as the code has it.  Whenever [_split_transfers] returns, it
    has taken a row for a Transfer exactly when the row's Nature of
    Record is a text that equals "Transfer", letter case included, once
    [str.strip] has removed the whitespace at its two ends; every other
    row, a row with a null label among them, has passed through
    unchanged as a non-transfer row. *)
Theorem transfer_test_exact (raw df : DataFrame) :
  _split_transfers raw = Some df →
  (∀ r, r ∈ raw →
     (r ∈ transfer_rows raw ↔
      ∃ s, r !! "Nature of Record" = Some (Str s) ∧ strip s = "Transfer")
     ∧ (r ∈ non_transfer_rows raw ↔ r ∉ transfer_rows raw)
     ∧ (r !! "Nature of Record" = Some Null → r ∈ non_transfer_rows raw))
  ∧ take (length (non_transfer_rows raw)) df = non_transfer_rows raw.
Proof.
  intros Hdf.
  destruct (transfer_legs_lookup _ _ Hdf) as (_ & Htake & _).
  split; [|done]. intros r Hr.
  unfold transfer_rows, non_transfer_rows.
  rewrite !list_elem_of_filter, <- is_transfer_iff.
  split; [tauto|]. split; [tauto|].
  intros Hnull. split; [|done].
  rewrite is_transfer_iff. intros (s & Hs & _). congruence.
Qed.

Lemma transfer_test_exact_witness :
  ∃ df,
    _split_transfers
      [coalesced_transfer; coalesced_lowercase; coalesced_unlabelled] = Some df
    ∧ (∀ r, r ∈ [coalesced_transfer; coalesced_lowercase; coalesced_unlabelled] →
         (r ∈ transfer_rows
                [coalesced_transfer; coalesced_lowercase; coalesced_unlabelled] ↔
          ∃ s, r !! "Nature of Record" = Some (Str s) ∧ strip s = "Transfer")
         ∧ (r ∈ non_transfer_rows
                  [coalesced_transfer; coalesced_lowercase; coalesced_unlabelled] ↔
            r ∉ transfer_rows
                  [coalesced_transfer; coalesced_lowercase; coalesced_unlabelled])
         ∧ (r !! "Nature of Record" = Some Null →
            r ∈ non_transfer_rows
                  [coalesced_transfer; coalesced_lowercase; coalesced_unlabelled]))
    ∧ take (length (non_transfer_rows
              [coalesced_transfer; coalesced_lowercase; coalesced_unlabelled])) df
      = non_transfer_rows
          [coalesced_transfer; coalesced_lowercase; coalesced_unlabelled].
Proof.
  assert (bool_decide (is_Some (_split_transfers [coalesced_transfer; coalesced_lowercase; coalesced_unlabelled])) = true)
    as [df E]%bool_decide_eq_true by (vm_compute; reflexivity).
  exists df. split; [exact E|]. exact (transfer_test_exact _ _ E).
Defined.

(** C3, as the specification words it, fails: the label "transfer"
    equals "Transfer" up to case, yet the splitter does not take the row
    for a Transfer and passes it through whole. *)
Lemma lowercase_label_not_split :
  insensitive_transfer_test (Str "transfer") = true
  ∧ coalesced_lowercase !! "Nature of Record" = Some (Str "transfer")
  ∧ is_transfer coalesced_lowercase = Some false
  ∧ _split_transfers [coalesced_lowercase] = Some [coalesced_lowercase].
Proof. repeat split; by vm_compute. Qed.

(** ** Monthly profit and loss *)

Lemma loc_mask_map {A} (f : A → bool) (l : list A) :
  loc_mask l (map f l) = filter (λ x, f x = true) l.
Proof.
  induction l as [|x l IH]; [done|].
  rewrite filter_cons. cbn [loc_mask map]. rewrite IH.
  by destruct (f x); case_decide.
Qed.

Lemma monthly_profit_and_loss_rows (month year : Z) (df : Ledger) :
  monthly_profit_and_loss month year df
  = groupby_sum pair_leb pnl_key
      (filter (λ e, in_month month year e = true) df).
Proof.
  unfold monthly_profit_and_loss. cbv zeta.
  by rewrite (loc_mask_map (in_month month year)).
Qed.

Lemma in_month_iff (month year : Z) (e : LedgerEntry) :
  in_month month year e = true ↔
  ∃ t, Timestamp e = Some t ∧ dt_year t = year ∧ dt_month t = month.
Proof.
  unfold in_month. destruct (Timestamp e) as [t|]; cbn.
  - rewrite andb_true_iff, !Z.eqb_eq. split.
    + intros [? ?]. by exists t.
    + by intros (? & [= <-] & ? & ?).
  - split; [done|]. by intros (? & ? & _).
Qed.

(** C10.  An entry whose Timestamp is null is outside every month: it
    fails the month mask for all month and year arguments, and the
    profit-and-loss table is the same with and without it. *)
Theorem null_timestamp_excluded (month year : Z) (df1 df2 : Ledger)
    (e : LedgerEntry) :
  Timestamp e = None →
  in_month month year e = false
  ∧ monthly_profit_and_loss month year (df1 ++ e :: df2)
    = monthly_profit_and_loss month year (df1 ++ df2).
Proof.
  intros He.
  assert (in_month month year e = false) as Hm.
  { unfold in_month. by rewrite He. }
  split; [done|].
  rewrite !monthly_profit_and_loss_rows, !filter_app, filter_cons.
  case_decide; [congruence|done].
Qed.

Lemma null_timestamp_excluded_witness :
  Timestamp undated = None
  ∧ in_month 11 2025 undated = false
  ∧ monthly_profit_and_loss 11 2025 ([entry 11 "Income" 100 "Salary" "Bank"]
                                      ++ undated :: [])
    = monthly_profit_and_loss 11 2025 ([entry 11 "Income" 100 "Salary" "Bank"]
                                       ++ []).
Proof.
  split; [reflexivity|].
  exact (null_timestamp_excluded 11 2025
           [entry 11 "Income" 100 "Salary" "Bank"] [] undated eq_refl).
Defined.

Section groupby_lemmas.
Context {K : Type} `{EqDecision K} (leb : K → K → bool).
Context (key : LedgerEntry → option K).

Lemma elem_of_group_keys (df : Ledger) (k : K) :
  k ∈ group_keys leb key df ↔ ∃ e, e ∈ df ∧ key e = Some k.
Proof.
  unfold group_keys. rewrite merge_sort_Permutation, elem_of_remove_dups.
  apply list_elem_of_omap.
Qed.

Lemma NoDup_group_keys (df : Ledger) : NoDup (group_keys leb key df).
Proof.
  unfold group_keys. rewrite merge_sort_Permutation.
  apply NoDup_remove_dups.
Qed.

Lemma fst_groupby_sum (df : Ledger) :
  map fst (groupby_sum leb key df) = group_keys leb key df.
Proof.
  unfold groupby_sum. rewrite map_map. cbn. apply map_id.
Qed.

Lemma elem_of_groupby_sum (df : Ledger) (k : K) (v : Q) :
  (k, v) ∈ groupby_sum leb key df ↔
  (∃ e, e ∈ df ∧ key e = Some k)
  ∧ v = nansum (map Amount (filter (λ e, key e = Some k) df)).
Proof.
  unfold groupby_sum. rewrite list_elem_of_fmap, <- elem_of_group_keys.
  split.
  - intros (k' & [= -> ->] & Hk). done.
  - intros [Hk ->]. by exists k.
Qed.
End groupby_lemmas.

Lemma pnl_key_Some (e : LedgerEntry) (n a : string) :
  pnl_key e = Some (n, a) ↔ Nature_of_Record e = Some n ∧ Account e = Some a.
Proof.
  unfold pnl_key.
  destruct (Nature_of_Record e) as [n'|], (Account e) as [a'|]; cbn;
    (split; [intros [= -> ->]|intros [[= ->] [= ->]]]); done.
Qed.

(** C7, as the code has it.  For every (month, year) the table has
    exactly one row for each (Nature of Record, Account) pair that
    occurs among the entries of that calendar month, holding the sum of
    their non-null Amounts; a pair that does not occur there has no
    row. *)
Theorem pnl_observed_groups (month year : Z) (df : Ledger) :
  let rows := filter (λ e, in_month month year e = true) df in
  let pnl := monthly_profit_and_loss month year df in
  (∀ e, e ∈ rows ↔
        e ∈ df ∧ ∃ t, Timestamp e = Some t
                      ∧ dt_year t = year ∧ dt_month t = month)
  ∧ NoDup (map fst pnl)
  ∧ ∀ n a v,
      ((n, a), v) ∈ pnl ↔
      (∃ e, e ∈ rows ∧ Nature_of_Record e = Some n ∧ Account e = Some a)
      ∧ v = nansum (map Amount
                     (filter (λ e, Nature_of_Record e = Some n
                                   ∧ Account e = Some a) rows)).
Proof.
  intros rows pnl. subst pnl. rewrite monthly_profit_and_loss_rows.
  fold rows. split; [|split].
  - intros e. unfold rows. rewrite list_elem_of_filter, in_month_iff. tauto.
  - rewrite fst_groupby_sum. apply NoDup_group_keys.
  - intros n a v. rewrite elem_of_groupby_sum.
    assert (filter (λ e, pnl_key e = Some (n, a)) rows
            = filter (λ e, Nature_of_Record e = Some n ∧ Account e = Some a) rows)
      as ->.
    { apply list_filter_iff. intros e. apply pnl_key_Some. }
    split; intros [(e & He & Hk) Hv]; (split; [|done]); exists e;
      (split; [done|]); by apply pnl_key_Some.
Qed.

(** C7, as the specification words it, fails: November 2025 has an
    Income entry on the Bank account and no Expense entry, and the table
    of that month has the Income row alone, with no Expense row for
    Bank. *)
Lemma expense_group_absent :
  monthly_profit_and_loss 11 2025 income_only_november
  = [(("Income", "Bank"), 100%Q)]
  ∧ ¬ ∃ v, (("Expense", "Bank"), v)
           ∈ monthly_profit_and_loss 11 2025 income_only_november.
Proof.
  assert (monthly_profit_and_loss 11 2025 income_only_november
          = [(("Income", "Bank"), 100%Q)]) as E by (by vm_compute).
  split; [done|]. rewrite E. intros [v Hv].
  apply list_elem_of_singleton in Hv. discriminate.
Qed.

(** ** Top-N grouping *)

Lemma zip_collapse {A B} (l : list (A * B)) (a : A) (b : B) :
  zip (map fst l ++ [a]) (map snd l ++ [b]) = (l ++ [(a, b)])%list.
Proof.
  induction l as [|[x y] l IH]; [done|]. cbn. by rewrite IH.
Qed.

Lemma expense_pie_topN_collapse (exp_df : Ledger) (topN : Z) :
  Graph.expense_pie_topN exp_df topN
  = topN_collapse (sort_descending (source_sums exp_df)) topN.
Proof.
  unfold Graph.expense_pie_topN, topN_collapse. fold (source_sums exp_df).
  cbv zeta. destruct (Qltb 0 _).
  - apply zip_collapse.
  - rewrite app_nil_r. apply zip_fst_snd.
Qed.

Lemma monthly_expense_compare_collapse
    (monthly_expense : Z → Z → list (string * Q))
    (periods : list (Z * Z)) (topN : Z) :
  monthly_expense_compare monthly_expense periods topN
  = flat_map (λ '(year, month),
      map (λ '(acc, amt), (acc, amt, period_label year month))
          (topN_collapse (monthly_expense month year) topN)) periods.
Proof.
  unfold monthly_expense_compare, topN_collapse. cbv zeta.
  induction periods as [|[year month] periods IH]; [done|].
  cbn [flat_map]. rewrite IH. f_equal.
  destruct (Qltb 0 _).
  - by rewrite zip_collapse.
  - by rewrite app_nil_r, zip_fst_snd.
Qed.

Lemma Qltb_lt (a b : Q) : Qltb a b = true ↔ (a < b)%Q.
Proof.
  unfold Qltb. rewrite Qlt_alt. by destruct (a ?= b)%Q.
Qed.

Lemma sort_descending_Permutation {L} (data : list (L * Q)) :
  sort_descending data ≡ₚ data.
Proof. apply merge_sort_Permutation. Qed.

Lemma Sorted_weaken {A} (R R' : relation A) (l : list A) :
  (∀ x y, R x y → R' x y) → Sorted R l → Sorted R' l.
Proof.
  intros HR. induction 1 as [|x l _ IH Hhd]; constructor; [done|].
  destruct Hhd; constructor; auto.
Qed.

Lemma sort_descending_Sorted {L} (data : list (L * Q)) :
  Sorted (λ x y : L * Q, (y.2 <= x.2)%Q) (sort_descending data).
Proof.
  unfold sort_descending.
  eapply Sorted_weaken; [|apply Sorted_merge_sort].
  - intros x y H. by apply Qle_bool_iff, Is_true_true.
  - intros x y. rewrite !Is_true_true, !Qle_bool_iff.
    destruct (Qlt_le_dec x.2 y.2) as [H|H]; [right; by apply Qlt_le_weak|by left].
Qed.

Lemma nansum_nonneg (l : list Q) :
  Forall (λ q, (0 <= q)%Q) l → (0 <= nansum (map Some l))%Q.
Proof.
  unfold nansum. induction 1 as [|q l Hq _ IH]; cbn; [done|].
  replace 0%Q with (0 + 0)%Q by done. by apply Qplus_le_compat.
Qed.

Lemma source_sums_nonneg (exp_df : Ledger) :
  Forall (λ kv : string * Q, (0 <= kv.2)%Q) (source_sums exp_df).
Proof.
  unfold source_sums. apply Forall_forall. intros kv Hkv.
  apply list_elem_of_fmap in Hkv as (kv' & -> & _). cbn. apply Qabs_nonneg.
Qed.

Lemma head_n_of_nat {A} (n : nat) (l : list A) :
  head_n (Z.of_nat n) l = take n l.
Proof.
  unfold head_n, slice_stop.
  destruct (Z.ltb_spec (Z.of_nat n) 0); [lia|]. by rewrite Nat2Z.id.
Qed.

Lemma head_n_negative {A} (n : nat) (l : list A) :
  head_n (- Z.of_nat (S n)) l = take (length l - S n) l.
Proof.
  unfold head_n, slice_stop.
  destruct (Z.ltb_spec (- Z.of_nat (S n)) 0); [|lia]. f_equal. lia.
Qed.

Lemma elem_of_source_sums (exp_df : Ledger) (s : string) (v : Q) :
  (s, v) ∈ source_sums exp_df ↔
  (∃ e, e ∈ exp_df ∧ Source e = Some s)
  ∧ v = Qabs (nansum (map Amount (filter (λ e, Source e = Some s) exp_df))).
Proof.
  unfold source_sums. rewrite list_elem_of_fmap. split.
  - intros ([k w] & [= -> ->] & H). cbn.
    apply elem_of_groupby_sum in H as [He ->]. done.
  - intros [He ->]. eexists (s, _). split; [done|].
    by apply elem_of_groupby_sum.
Qed.

Lemma NoDup_source_sums (exp_df : Ledger) :
  NoDup (map fst (source_sums exp_df)).
Proof.
  assert (map fst (source_sums exp_df) = group_keys String.leb Source exp_df)
    as ->; [|apply NoDup_group_keys].
  unfold source_sums, groupby_sum. rewrite !map_map. cbn. apply map_id.
Qed.

(** C8, as the code has it.  For every set of entries and every integer
    N: the groups are the Sources that occur, each with the absolute
    value of its summed Amount; they are sorted by descending value; the
    table keeps the groups before the Python slice point N as they are
    (the first N when N is a natural number, all but the last -N when N
    is negative) and appends one "Others"
    row with the sum of the remaining groups exactly when that sum is
    strictly positive.  Sums 100, 80, 60, 40, 20 with N = 3 give 100,
    80, 60 and Others = 60; with N = 5 there is no Others row. *)
Theorem topN_grouping (exp_df : Ledger) (topN : Z) :
  let sums := source_sums exp_df in
  let data := sort_descending sums in
  let others_sum := nansum (map (Some ∘ snd) (iloc_from topN data)) in
  (∀ s v, (s, v) ∈ sums ↔
          (∃ e, e ∈ exp_df ∧ Source e = Some s)
          ∧ v = Qabs (nansum (map Amount
                        (filter (λ e, Source e = Some s) exp_df))))
  ∧ NoDup (map fst sums)
  ∧ data ≡ₚ sums
  ∧ Sorted (λ x y : string * Q, (y.2 <= x.2)%Q) data
  ∧ (head_n topN data ++ iloc_from topN data)%list = data
  ∧ (∀ n : nat, head_n (Z.of_nat n) data = take n data)
  ∧ (∀ n : nat,
       head_n (- Z.of_nat (S n)) data = take (length data - S n) data)
  ∧ (((0 < others_sum)%Q
      ∧ Graph.expense_pie_topN exp_df topN
        = (head_n topN data ++ [("Others", others_sum)])%list)
     ∨ ((others_sum == 0)%Q
        ∧ Graph.expense_pie_topN exp_df topN = head_n topN data))
  ∧ Graph.expense_pie_topN five_sources 3
    = [("Rent", 100%Q); ("Travel", 80%Q); ("Food", 60%Q); ("Others", 60%Q)]
  ∧ Graph.expense_pie_topN five_sources 5
    = [("Rent", 100%Q); ("Travel", 80%Q); ("Food", 60%Q);
       ("Books", 40%Q); ("Taxi", 20%Q)].
Proof.
  intros sums data others_sum.
  split; [apply elem_of_source_sums|].
  split; [apply NoDup_source_sums|].
  split; [apply sort_descending_Permutation|].
  split; [apply sort_descending_Sorted|].
  split; [apply take_drop|].
  split; [intros n; apply head_n_of_nat|].
  split; [intros n; apply head_n_negative|].
  split; [|split; by vm_compute].
  rewrite expense_pie_topN_collapse. unfold topN_collapse.
  fold sums data. cbv zeta. fold others_sum.
  assert (0 <= others_sum)%Q as Hge.
  { unfold others_sum.
    replace (map (Some ∘ snd) (iloc_from topN data))
      with (map Some (map snd (iloc_from topN data)))
      by (by rewrite map_map).
    apply nansum_nonneg. apply Forall_fmap. unfold iloc_from. apply Forall_drop.
    unfold data. rewrite sort_descending_Permutation.
    apply source_sums_nonneg. }
  destruct (Qltb 0 others_sum) eqn:E.
  - left. split; [by apply Qltb_lt|done].
  - right. split; [|by rewrite app_nil_r].
    apply Qle_antisym; [|done]. apply Qnot_lt_le. intros H%Qltb_lt. congruence.
Qed.

(** C8, as the specification words it, fails: an expense of 100 and a
    refund of 30 on one Source give that Source the value 70, the
    absolute value of the sum, where the sum of the absolute Amounts
    is 130. *)
Lemma sum_of_absolutes_differs :
  source_sums_of_absolutes expense_and_refund = [("Food", 130%Q)]
  ∧ source_sums expense_and_refund = [("Food", 70%Q)]
  ∧ Graph.expense_pie_topN expense_and_refund 3 = [("Food", 70%Q)]
  ∧ ¬ (70 == 130)%Q.
Proof. repeat split; by vm_compute. Qed.

(** ** The type enforcer and the whole pipeline *)

(** The enforcer returns on every frame that has the six canonical
    columns, whatever the cells hold. *)
Lemma enforce_types_total `{Coercions} (df : DataFrame) :
  Forall (λ r : Row,
            Forall (λ c, is_Some (r !! c))
                   ["Timestamp"; "Nature of Record"; "Amount";
                    "Account"; "Source"; "Description"]) df →
  is_Some (_enforce_types df).
Proof.
  intros Hdf. unfold _enforce_types. apply mapM_is_Some.
  eapply Forall_impl; [exact Hdf|]. intros r Hr. cbn beta.
  rewrite !Forall_cons in Hr.
  destruct Hr as ([? E1] & [? E2] & [? E3] & [? E4] & [? E5] & [? E6] & _).
  unfold compose, getitem. rewrite E1, E2, E3, E4, E5, E6. cbn. done.
Qed.

(** What the enforcer makes of single cells: a text that does not parse
    gives a null Timestamp and a null Amount, and a null Description
    gives the empty text. *)
Lemma enforce_types_coerce `{Coercions} (s : string) :
  (parse_datetime s = None → to_datetime (Str s) = None)
  ∧ (parse_numeric s = None → to_numeric (Str s) = None)
  ∧ default "" (astype_string Null) = "".
Proof. by repeat split. Qed.

(** C6 fails on the code.  A text in the Expense Amount column makes
    the pipeline raise: the sign flip of [_combine_columns] negates the
    cell before any coercion is reached.  The same text in the Income
    Amount column goes through, and the enforcer coerces it (and a text
    Timestamp) as [pd.to_numeric] and [pd.to_datetime] do. *)
Theorem text_expense_amount_raises `{Coercions} :
  _combine_columns [expense_text_amount] = None
  ∧ run [expense_text_amount] = None
  ∧ run [income_text_amount]
    = Some [ {| Timestamp := parse_datetime "not-a-date";
                Nature_of_Record := Some "Income";
                Amount := parse_numeric "abc";
                Source := Some "Salary";
                Account := Some "Bank";
                Description := "" |} ].
Proof. repeat split; by vm_compute. Qed.

(** In the same way a text Timestamp next to a date-time makes the
    pipeline raise: [_finalise_schema] sorts the raw cells before the
    enforcer parses them. *)
Example mixed_timestamps_raise `{Coercions} :
  run [income_text_amount; expense_150] = None.
Proof. by vm_compute. Qed.

(** ** More on the transfer splitter *)

(** X1.  Whenever the splitter returns, the Transfer-Out leg of every
    Transfer row has the row's Account as its Source and the row's
    Source as its Account, and the Transfer-In leg has both as the row
    has them. *)
Theorem transfer_legs_swap (raw df : DataFrame) :
  _split_transfers raw = Some df →
  ∀ i r,
    transfer_rows raw !! i = Some r →
    ∃ out_leg in_leg,
      df !! (length (non_transfer_rows raw) + i)%nat = Some out_leg
      ∧ df !! (length (non_transfer_rows raw)
               + length (transfer_rows raw) + i)%nat = Some in_leg
      ∧ out_leg !! "Source" = r !! "Account"
      ∧ out_leg !! "Account" = r !! "Source"
      ∧ in_leg !! "Source" = r !! "Source"
      ∧ in_leg !! "Account" = r !! "Account".
Proof.
  intros Hdf.
  destruct (transfer_legs_lookup _ _ Hdf) as (_ & _ & Hlegs).
  intros i r Hr.
  destruct (Hlegs i r Hr) as (o & n & Ho & Hn & Hor & Hnr).
  exists o, n. split; [done|]. split; [done|].
  apply expense_leg_Some in Hor as (a & s & c & _ & _ & Hs & Hc & ->).
  apply income_leg_Some in Hnr as (_ & ->).
  split; [by rewrite !lookup_insert_ne, lookup_insert_eq by done|].
  split; [by rewrite lookup_insert_ne, lookup_insert_eq by done|].
  split; by rewrite lookup_insert_ne by done.
Qed.

Lemma transfer_legs_swap_witness :
  ∃ df, _split_transfers [coalesced_expense; coalesced_transfer] = Some df
    ∧ ∀ i r,
        transfer_rows [coalesced_expense; coalesced_transfer] !! i = Some r →
        ∃ out_leg in_leg,
          df !! (length (non_transfer_rows [coalesced_expense; coalesced_transfer])
                 + i)%nat = Some out_leg
          ∧ df !! (length (non_transfer_rows [coalesced_expense; coalesced_transfer])
                   + length (transfer_rows [coalesced_expense; coalesced_transfer])
                   + i)%nat = Some in_leg
          ∧ out_leg !! "Source" = r !! "Account"
          ∧ out_leg !! "Account" = r !! "Source"
          ∧ in_leg !! "Source" = r !! "Source"
          ∧ in_leg !! "Account" = r !! "Account".
Proof.
  assert (bool_decide (is_Some (_split_transfers [coalesced_expense; coalesced_transfer])) = true)
    as [df E]%bool_decide_eq_true by (vm_compute; reflexivity).
  exists df. split; [exact E|]. exact (transfer_legs_swap _ _ E).
Defined.

Lemma is_transfer_legs (r o n : Row) :
  expense_leg r = Some o → income_leg r = Some n →
  is_transfer o = Some false ∧ is_transfer n = Some false.
Proof.
  intros (a & s & c & _ & _ & _ & _ & ->)%expense_leg_Some
         (_ & ->)%income_leg_Some.
  unfold is_transfer, getitem. by rewrite !lookup_insert_eq.
Qed.

Lemma split_transfers_no_transfer (df : DataFrame) :
  Forall (λ r, is_transfer r = Some false) df → _split_transfers df = Some df.
Proof.
  intros H. rewrite split_transfers_rowwise.
  assert (mapM is_transfer df = Some (map (λ _, false) df)) as ->.
  { apply mapM_Some_2. induction H; cbn; constructor; done. }
  cbn [mbind option_bind].
  assert (loc_mask df (map (λ _, false) df) = []) as ->.
  { clear H. by induction df. }
  assert (loc_mask df (map negb (map (λ _, false) df)) = df) as ->.
  { clear H. induction df as [|r df IH]; [done|]. cbn. by rewrite IH. }
  cbn. by rewrite app_nil_r.
Qed.

Lemma transfer_rows_nil (df : DataFrame) :
  Forall (λ r, is_transfer r = Some false) df → transfer_rows df = [].
Proof.
  unfold transfer_rows. induction 1 as [|r df Hr _ IH]; [done|].
  rewrite filter_cons. case_decide; [congruence|done].
Qed.

(** X2.  Whenever the splitter returns, no row of its result is a
    Transfer row any more, and splitting the result again returns it
    unchanged. *)
Theorem split_transfers_idempotent (raw df : DataFrame) :
  _split_transfers raw = Some df →
  transfer_rows df = [] ∧ _split_transfers df = Some df.
Proof.
  intros Hdf. pose proof (split_transfers_domain _ _ Hdf) as Hok.
  assert (Forall (λ r, is_transfer r = Some false) df) as Hno.
  { destruct (split_transfers_Some _ _ Hdf) as (outs & ins & -> & Ho & Hi).
    rewrite !Forall_app. split; [|split].
    - apply Forall_forall. intros r [Hr Hin]%list_elem_of_filter.
      rewrite Forall_forall in Hok. specialize (Hok r Hin).
      unfold split_ok in Hok. by destruct (is_transfer r) as [[]|].
    - apply Forall_forall. intros o Ho'.
      apply list_elem_of_lookup in Ho' as [i Hi'].
      destruct (Forall2_lookup_r _ _ _ _ _ Ho Hi') as (r & Hr & Hro).
      destruct (Forall2_lookup_l _ _ _ _ _ Hi Hr) as (n & _ & Hrn).
      by destruct (is_transfer_legs _ _ _ Hro Hrn).
    - apply Forall_forall. intros n Hn'.
      apply list_elem_of_lookup in Hn' as [i Hi'].
      destruct (Forall2_lookup_r _ _ _ _ _ Hi Hi') as (r & Hr & Hrn).
      destruct (Forall2_lookup_l _ _ _ _ _ Ho Hr) as (o & _ & Hro).
      by destruct (is_transfer_legs _ _ _ Hro Hrn). }
  split; [|by apply split_transfers_no_transfer].
  by apply transfer_rows_nil.
Qed.

Lemma split_transfers_idempotent_witness :
  ∃ df, _split_transfers [coalesced_expense; coalesced_transfer] = Some df
    ∧ transfer_rows df = []
    ∧ _split_transfers df = Some df.
Proof.
  assert (bool_decide (is_Some (_split_transfers [coalesced_expense; coalesced_transfer])) = true)
    as [df E]%bool_decide_eq_true by (vm_compute; reflexivity).
  exists df. split; [exact E|]. exact (split_transfers_idempotent _ _ E).
Defined.

Lemma nansum_app (l1 l2 : list (option Q)) :
  (nansum (l1 ++ l2) == nansum l1 + nansum l2)%Q.
Proof.
  unfold nansum. induction l1 as [|[q|] l1 IH]; cbn.
  - by rewrite Qplus_0_l.
  - rewrite IH. by rewrite Qplus_assoc.
  - done.
Qed.

Lemma amount_number_legs (r o n : Row) :
  expense_leg r = Some o → income_leg r = Some n →
  amount_number o = Qopp <$> amount_number r
  ∧ amount_number n = amount_number r.
Proof.
  intros (a & s & c & Ha & Hneg & _ & _ & ->)%expense_leg_Some
         (_ & ->)%income_leg_Some.
  unfold amount_number.
  rewrite !lookup_insert_ne, lookup_insert_eq by done.
  rewrite (lookup_insert_ne r "Nature of Record" "Amount") by done.
  rewrite Ha. by destruct a.
Qed.

Lemma nansum_opp (l : list (option Q)) :
  (nansum (map (fmap Qopp) l) == - nansum l)%Q.
Proof.
  unfold nansum. induction l as [|[q|] l IH]; cbn; [done| |done].
  rewrite IH. ring.
Qed.

Lemma negatable_iff (c : option cell) :
  negatable c = true ↔ c = Some Null ∨ ∃ q, c = Some (Num q).
Proof.
  destruct c as [[|q| |]|]; cbn;
    (split; [try done; eauto|by intros [?|[? ?]]]).
Qed.

(** X3.  Whenever the splitter returns, the Amounts of all the legs
    it has appended sum to zero: over the whole frame the transfers
    cancel out. *)
Theorem transfer_legs_net_zero (raw df : DataFrame) :
  _split_transfers raw = Some df →
  (nansum (map amount_number
               (drop (length (non_transfer_rows raw)) df)) == 0)%Q.
Proof.
  intros Hdf.
  destruct (split_transfers_Some _ _ Hdf) as (outs & ins & -> & Ho & Hi).
  rewrite drop_app_length, map_app, nansum_app.
  assert (map amount_number outs
          = map (fmap Qopp) (map amount_number (transfer_rows raw))
          ∧ map amount_number ins = map amount_number (transfer_rows raw))
    as [-> ->].
  { clear Hdf. revert ins Hi. induction Ho as [|r o trs outs Hro _ IH];
      intros ins Hi; inversion Hi as [|? n ? ins' Hrn Hi']; subst; [done|].
    destruct (amount_number_legs _ _ _ Hro Hrn) as [E1 E2].
    destruct (IH _ Hi') as [IH1 IH2]. cbn. by rewrite E1, E2, IH1, IH2. }
  rewrite nansum_opp. ring.
Qed.

Lemma transfer_legs_net_zero_witness :
  ∃ df, _split_transfers [coalesced_expense; coalesced_transfer] = Some df
    ∧ (nansum (map amount_number
         (drop (length (non_transfer_rows [coalesced_expense; coalesced_transfer]))
               df)) == 0)%Q.
Proof.
  assert (bool_decide (is_Some (_split_transfers [coalesced_expense; coalesced_transfer])) = true)
    as [df E]%bool_decide_eq_true by (vm_compute; reflexivity).
  exists df. split; [exact E|]. exact (transfer_legs_net_zero _ _ E).
Defined.

(** X4.  The splitter returns only on frames in which every row
    carries a Nature of Record and every Transfer row carries a Source,
    an Account and an Amount that is null or a number: on a frame with a
    row that lacks the label column, or with a Transfer row that lacks
    one of the three columns or holds a text or a date-time in Amount,
    it raises (KeyError for the column, TypeError for the minus sign). *)
Theorem split_transfers_returns_only_if (raw df : DataFrame) :
  _split_transfers raw = Some df →
  Forall (λ r : Row,
    is_Some (r !! "Nature of Record")
    ∧ ((∃ s, r !! "Nature of Record" = Some (Str s) ∧ strip s = "Transfer") →
       (r !! "Amount" = Some Null ∨ ∃ q, r !! "Amount" = Some (Num q))
       ∧ is_Some (r !! "Source") ∧ is_Some (r !! "Account"))) raw.
Proof.
  intros Hdf. apply split_transfers_domain in Hdf.
  eapply Forall_impl; [exact Hdf|]. intros r.
  rewrite <- is_transfer_iff. unfold split_ok.
  destruct (is_transfer r) as [[]|] eqn:E; [| |done].
  - rewrite !andb_true_iff, !bool_decide_eq_true, negatable_iff.
    intros [[Ha Hs] Hc]. split; [|done].
    unfold is_transfer, getitem in E. by destruct (r !! "Nature of Record").
  - intros _. split; [|done].
    unfold is_transfer, getitem in E. by destruct (r !! "Nature of Record").
Qed.

Lemma split_transfers_returns_only_if_witness :
  ∃ df, _split_transfers [coalesced_expense; coalesced_transfer] = Some df
    ∧ Forall (λ r : Row,
        is_Some (r !! "Nature of Record")
        ∧ ((∃ s, r !! "Nature of Record" = Some (Str s)
                 ∧ strip s = "Transfer") →
           (r !! "Amount" = Some Null ∨ ∃ q, r !! "Amount" = Some (Num q))
           ∧ is_Some (r !! "Source") ∧ is_Some (r !! "Account")))
        [coalesced_expense; coalesced_transfer].
Proof.
  assert (bool_decide (is_Some (_split_transfers [coalesced_expense; coalesced_transfer])) = true)
    as [df E]%bool_decide_eq_true by (vm_compute; reflexivity).
  exists df. split; [exact E|]. exact (split_transfers_returns_only_if _ _ E).
Defined.

(** ** More on the coalescer *)

Lemma lookup_drop_columns_in (cols : list string) (c : string) (r : Row) :
  c ∈ cols → drop_columns cols r !! c = None.
Proof.
  unfold drop_columns. induction cols as [|k cols IH]; [by intros ?%elem_of_nil|].
  intros Hc. cbn. destruct (decide (k = c)) as [->|Hne].
  - apply lookup_delete_eq.
  - rewrite lookup_delete_ne by done. apply IH.
    apply elem_of_cons in Hc as [->|Hc]; done.
Qed.

Opaque coalesce getitem drop_columns neg sign_flip family.

Lemma combine_row_dropped (r r' : Row) (c : string) :
  combine_row r = Some r' →
  c ∈ (AMOUNT_COLS ++ ACCOUNT_COLS ++ SOURCE_COLS ++ DESC_COLS)%list →
  r' !! c = None.
Proof.
  unfold combine_row. intros H Hc.
  destruct (sign_flip r) as [r1|]; cbn [mbind option_bind] in H; [|done].
  destruct (coalesce AMOUNT_COLS _) as [a|]; cbn [mbind option_bind] in H; [|done].
  destruct (coalesce ACCOUNT_COLS _) as [b|]; cbn [mbind option_bind] in H; [|done].
  destruct (coalesce SOURCE_COLS _) as [s|]; cbn [mbind option_bind] in H; [|done].
  destruct (coalesce DESC_COLS _) as [d|]; cbn [mbind option_bind] in H; [|done].
  injection H as <-. by apply lookup_drop_columns_in.
Qed.

Transparent coalesce getitem drop_columns neg sign_flip family.

(** X5.  The coalescer replaces the twenty family columns by the four
    unified ones and touches nothing else: a coalesced row has the
    columns of the wide row without the family columns, plus Amount,
    Account, Source and Description, and every other column holds what
    it held. *)
Theorem combine_columns_schema (raw : DataFrame) :
  Forall (λ r, wide_ok r = true) raw →
  ∃ df, _combine_columns raw = Some df ∧
    Forall2 (λ r r' : Row,
      dom r' = (dom r ∖ list_to_set
                  (AMOUNT_COLS ++ ACCOUNT_COLS ++ SOURCE_COLS ++ DESC_COLS))
               ∪ list_to_set ["Amount"; "Account"; "Source"; "Description"]
      ∧ ∀ c : string,
          c ∉ (["Amount"; "Account"; "Source"; "Description"]
               ++ AMOUNT_COLS ++ ACCOUNT_COLS ++ SOURCE_COLS ++ DESC_COLS)%list →
          r' !! c = r !! c) raw df.
Proof.
  intros Hw. destruct (combine_columns_wide_ok raw Hw) as [df Hdf].
  exists df. split; [done|].
  eapply Forall2_impl; [exact (combine_columns_Some _ _ Hdf)|].
  intros r r' Hr.
  pose proof (combine_row_Some _ _ Hr) as (_ & Ha & Hb & Hc & Hd & Hframe).
  split; [|done].
  apply set_eq. intros c.
  rewrite elem_of_union, elem_of_difference, !elem_of_dom, !elem_of_list_to_set.
  destruct (decide (c ∈ (AMOUNT_COLS ++ ACCOUNT_COLS ++ SOURCE_COLS ++ DESC_COLS)%list))
    as [Hfam|Hfam].
  { rewrite (combine_row_dropped _ _ _ Hr Hfam). split.
    - by intros [? ?].
    - intros [[_ ?]|Hfour]; [done|]. exfalso.
      rewrite !elem_of_cons in Hfour.
      destruct Hfour as [->|[->|[->|[->|?%elem_of_nil]]]]; try done;
        revert Hfam; compute_done. }
  destruct (decide (c ∈ ["Amount"; "Account"; "Source"; "Description"]))
    as [Hfour|Hfour].
  { split; [by right|]. intros _. rewrite !elem_of_cons in Hfour.
    destruct Hfour as [->|[->|[->|[->|?%elem_of_nil]]]];
      by rewrite ?Ha, ?Hb, ?Hc, ?Hd. }
  rewrite Hframe by (rewrite not_elem_of_app; done). tauto.
Qed.

Lemma combine_columns_schema_witness :
  Forall (λ r, wide_ok r = true) [expense_150; transfer_40]
  ∧ ∃ df, _combine_columns [expense_150; transfer_40] = Some df ∧
    Forall2 (λ r r' : Row,
      dom r' = (dom r ∖ list_to_set
                  (AMOUNT_COLS ++ ACCOUNT_COLS ++ SOURCE_COLS ++ DESC_COLS))
               ∪ list_to_set ["Amount"; "Account"; "Source"; "Description"]
      ∧ ∀ c : string,
          c ∉ (["Amount"; "Account"; "Source"; "Description"]
               ++ AMOUNT_COLS ++ ACCOUNT_COLS ++ SOURCE_COLS ++ DESC_COLS)%list →
          r' !! c = r !! c) [expense_150; transfer_40] df.
Proof.
  assert (Forall (λ r, wide_ok r = true) [expense_150; transfer_40]) as H.
  { repeat constructor. }
  split; [exact H|]. exact (combine_columns_schema _ H).
Defined.

(** X6.  On a frame with at least one row the coalescer returns
    exactly when every row carries all twenty family columns and holds
    nothing but a number or a null in Expense Amount and in Transfer-Out
    Amount; on any other such frame it raises (KeyError for a missing
    column, TypeError for the minus sign on a text or a date-time). *)
Theorem combine_columns_returns_iff (raw : DataFrame) :
  raw ≠ [] →
  is_Some (_combine_columns raw) ↔
  Forall (λ r : Row,
    Forall (λ c, is_Some (r !! c))
           (AMOUNT_COLS ++ ACCOUNT_COLS ++ SOURCE_COLS ++ DESC_COLS)
    ∧ (r !! "Expense Amount" = Some Null
       ∨ ∃ q, r !! "Expense Amount" = Some (Num q))
    ∧ (r !! "Transfer-Out Amount" = Some Null
       ∨ ∃ q, r !! "Transfer-Out Amount" = Some (Num q))) raw.
Proof.
  intros _. split.
  - intros [df Hdf]. apply combine_columns_domain in Hdf.
    eapply Forall_impl; [exact Hdf|]. intros r.
    rewrite wide_ok_iff, !negatable_iff. tauto.
  - intros H. apply combine_columns_wide_ok.
    eapply Forall_impl; [exact H|]. intros r.
    rewrite wide_ok_iff, !negatable_iff. tauto.
Qed.

Lemma combine_columns_returns_iff_witness :
  [expense_150] ≠ []
  ∧ (is_Some (_combine_columns [expense_150]) ↔
     Forall (λ r : Row,
       Forall (λ c, is_Some (r !! c))
              (AMOUNT_COLS ++ ACCOUNT_COLS ++ SOURCE_COLS ++ DESC_COLS)
       ∧ (r !! "Expense Amount" = Some Null
          ∨ ∃ q, r !! "Expense Amount" = Some (Num q))
       ∧ (r !! "Transfer-Out Amount" = Some Null
          ∨ ∃ q, r !! "Transfer-Out Amount" = Some (Num q))) [expense_150]).
Proof.
  assert ([expense_150] ≠ []) as Hne by discriminate.
  split; [exact Hne|]. exact (combine_columns_returns_iff _ Hne).
Defined.

(** X7.  The coalescer cannot run twice: its result has lost the family
    columns, so coalescing a non-empty result raises. *)
Theorem combine_columns_once (raw : DataFrame) :
  Forall (λ r, wide_ok r = true) raw →
  raw ≠ [] →
  ∃ df, _combine_columns raw = Some df ∧ _combine_columns df = None.
Proof.
  intros Hw Hne. destruct (combine_columns_wide_ok raw Hw) as [df Hdf].
  exists df. split; [done|].
  destruct (_combine_columns df) as [df'|] eqn:E; [exfalso|done].
  apply combine_columns_domain in E.
  pose proof (combine_columns_Some _ _ Hdf) as HF.
  destruct HF as [|r r' raw' df'' Hr _]; [done|].
  apply Forall_cons in E as [E _]. apply wide_ok_iff in E as (E & _).
  apply Forall_app in E as [E _]. apply Forall_cons in E as [[v Hv] _].
  by rewrite (combine_row_dropped _ _ "Income Amount" Hr) in Hv by compute_done.
Qed.

Lemma combine_columns_once_witness :
  Forall (λ r, wide_ok r = true) [expense_150]
  ∧ [expense_150] ≠ []
  ∧ ∃ df, _combine_columns [expense_150] = Some df
          ∧ _combine_columns df = None.
Proof.
  assert (Forall (λ r, wide_ok r = true) [expense_150]) as H.
  { repeat constructor. }
  assert ([expense_150] ≠ []) as Hne by discriminate.
  split; [exact H|]. split; [exact Hne|].
  exact (combine_columns_once _ H Hne).
Defined.

Lemma first_valid_unique (cols : list string) (r : Row) (c : string) (v : cell) :
  c ∈ cols → r !! c = Some v → isna v = false →
  (∀ c', c' ∈ cols → c' ≠ c → r !! c' = Some Null) →
  first_valid (family cols r) = v.
Proof.
  intros Hc Hv Hna. induction cols as [|k cols IH]; intros Hnull.
  { by apply elem_of_nil in Hc. }
  unfold first_valid, family in *. cbn.
  destruct (decide (k = c)) as [->|Hne].
  - rewrite Hv. cbn. by rewrite Hna.
  - rewrite (Hnull k) by (done || apply elem_of_cons; by left). cbn.
    apply IH.
    + apply elem_of_cons in Hc as [->|Hc]; done.
    + intros c' Hc' ?. apply Hnull; [|done]. apply elem_of_cons. by right.
Qed.

Lemma first_valid_signed_unique (r : Row) (c : string) (v : cell) :
  c ∈ AMOUNT_COLS → r !! c = Some v → isna v = false →
  (∀ c', c' ∈ AMOUNT_COLS → c' ≠ c → r !! c' = Some Null) →
  first_valid (signed_amounts r)
  = if bool_decide (c ∈ ["Expense Amount"; "Transfer-Out Amount"])
    then opp v else v.
Proof.
  intros Hc Hv Hna Hnull.
  assert (isna (opp v) = false) as Hopp by (by destruct v).
  unfold AMOUNT_COLS in Hc. rewrite !elem_of_cons in Hc.
  unfold signed_amounts, first_valid.
  destruct Hc as [->|[->|[->|[->|[->|?%elem_of_nil]]]]]; [| | | | |done];
    rewrite Hv, ?(Hnull "Income Amount"), ?(Hnull "Expense Amount"),
      ?(Hnull "Transfer Amount"), ?(Hnull "Transfer-In Amount"),
      ?(Hnull "Transfer-Out Amount") by (done || compute_done);
    cbn; rewrite ?Hna, ?Hopp; done.
Qed.

(** X8.  Under the input contract the priority order does not matter:
    when one column of a family holds a non-null value and all the
    others hold nulls, the coalesced field of the row is that value,
    wherever the column stands in the family; in the Amount family it is
    the value with its sign flipped when the column is Expense Amount or
    Transfer-Out Amount. *)
Theorem coalesce_unique_member (raw df : DataFrame) :
  _combine_columns raw = Some df →
  Forall2 (λ r r' : Row,
    ∀ (cols : list string) (field c : string) (v : cell),
      (cols, field) ∈ [(AMOUNT_COLS, "Amount"); (ACCOUNT_COLS, "Account");
                       (SOURCE_COLS, "Source"); (DESC_COLS, "Description")] →
      c ∈ cols → r !! c = Some v → isna v = false →
      (∀ c', c' ∈ cols → c' ≠ c → r !! c' = Some Null) →
      r' !! field
      = Some (if bool_decide (c ∈ ["Expense Amount"; "Transfer-Out Amount"])
              then opp v else v)) raw df.
Proof.
  intros Hdf. eapply Forall2_impl; [exact (combine_columns_Some _ _ Hdf)|].
  intros r r' Hr cols field c v Hfam Hc Hv Hna Hnull.
  pose proof (combine_row_Some _ _ Hr) as (_ & Ha & Hb & Hs & Hd & _).
  rewrite !elem_of_cons in Hfam.
  destruct Hfam as [[= -> ->]|[[= -> ->]|[[= -> ->]|[[= -> ->]|?%elem_of_nil]]]];
    [|..|done].
  - rewrite Ha. f_equal. by apply first_valid_signed_unique.
  - rewrite Hb, (first_valid_unique _ _ _ _ Hc Hv Hna Hnull).
    rewrite bool_decide_eq_false_2; [done|]. intros Hin.
    revert Hc. rewrite !elem_of_cons in Hin.
    destruct Hin as [->|[->|?%elem_of_nil]]; [| |done]; compute_done.
  - rewrite Hs, (first_valid_unique _ _ _ _ Hc Hv Hna Hnull).
    rewrite bool_decide_eq_false_2; [done|]. intros Hin.
    revert Hc. rewrite !elem_of_cons in Hin.
    destruct Hin as [->|[->|?%elem_of_nil]]; [| |done]; compute_done.
  - rewrite Hd, (first_valid_unique _ _ _ _ Hc Hv Hna Hnull).
    rewrite bool_decide_eq_false_2; [done|]. intros Hin.
    revert Hc. rewrite !elem_of_cons in Hin.
    destruct Hin as [->|[->|?%elem_of_nil]]; [| |done]; compute_done.
Qed.

Lemma coalesce_unique_member_witness :
  ∃ df, _combine_columns [expense_150; transfer_40] = Some df
    ∧ Forall2 (λ r r' : Row,
        ∀ (cols : list string) (field c : string) (v : cell),
          (cols, field) ∈ [(AMOUNT_COLS, "Amount"); (ACCOUNT_COLS, "Account");
                           (SOURCE_COLS, "Source"); (DESC_COLS, "Description")] →
          c ∈ cols → r !! c = Some v → isna v = false →
          (∀ c', c' ∈ cols → c' ≠ c → r !! c' = Some Null) →
          r' !! field
          = Some (if bool_decide (c ∈ ["Expense Amount"; "Transfer-Out Amount"])
                  then opp v else v)) [expense_150; transfer_40] df.
Proof.
  assert (bool_decide (is_Some (_combine_columns [expense_150; transfer_40]))
          = true)
    as [df E]%bool_decide_eq_true by (vm_compute; reflexivity).
  exists df. split; [exact E|]. exact (coalesce_unique_member _ _ E).
Defined.

(** ** The schema finaliser *)

Lemma project_Some (cols : list string) (r p : Row) :
  project cols r = Some p →
  Forall (λ c, is_Some (r !! c)) cols
  ∧ ∀ c, p !! c = if decide (c ∈ cols) then r !! c else None.
Proof.
  unfold project, getitem. intros H.
  destruct (mapM _ cols) as [kvs|] eqn:Hk; cbn in H; [|done].
  injection H as <-. apply mapM_Some_1 in Hk.
  induction Hk as [|c kv cols kvs Hc _ [IH1 IH2]].
  { split; [done|]. intros c.
    rewrite decide_False by apply not_elem_of_nil. apply lookup_empty. }
  destruct (r !! c) as [v|] eqn:Hv; cbn in Hc; [|done].
  injection Hc as <-. split; [constructor; [by rewrite Hv|done]|].
  intros c'. cbn. destruct (decide (c = c')) as [->|Hne].
  - rewrite lookup_insert_eq. rewrite decide_True by (by left). done.
  - rewrite lookup_insert_ne, IH2 by done.
    destruct (decide (c' ∈ cols)) as [Hin|Hin].
    + by rewrite decide_True by (by right).
    + rewrite decide_False; [done|]. intros [->|?]%elem_of_cons; done.
Qed.

Lemma project_canonical_part (r p : Row) :
  project CANONICAL r = Some p → p = canonical_part r.
Proof.
  intros [_ Hp]%project_Some. apply map_eq. intros c.
  rewrite Hp. unfold canonical_part. apply option_eq. intros v.
  rewrite map_lookup_filter_Some. cbn.
  case_decide; [tauto|]. split; [done|tauto].
Qed.

Lemma project_present (cols : list string) (r : Row) :
  Forall (λ c, is_Some (r !! c)) cols → is_Some (project cols r).
Proof.
  intros H. unfold project.
  assert (is_Some (mapM (λ c, v ← getitem c r; Some (c, v)) cols)) as [kvs ->];
    [|done].
  apply mapM_is_Some. eapply Forall_impl; [exact H|].
  intros c [v Hv]. unfold compose, getitem. by rewrite Hv.
Qed.

Lemma keyed_Some (c : string) (df : DataFrame) (keyed : list (cell * Row)) :
  mapM (λ r, k ← getitem c r; Some (k, r)) df = Some keyed →
  keyed = map (λ r : Row, (default Null (r !! c), r)) df
  ∧ Forall (λ r : Row, is_Some (r !! c)) df.
Proof.
  unfold getitem. intros H%mapM_Some_1.
  induction H as [|r kr df keyed Hr _ [IH1 IH2]]; [done|].
  destruct (r !! c) as [k|] eqn:Hk; cbn in Hr; [|done].
  injection Hr as <-. split.
  - cbn. by rewrite Hk, IH1.
  - constructor; [by rewrite Hk|done].
Qed.

Lemma List_filter_partition {A} (f g : A → bool) (l : list A) :
  (∀ x, g x = negb (f x)) →
  (List.filter f l ++ List.filter g l)%list ≡ₚ l.
Proof.
  intros Hg. induction l as [|x l IH]; [done|].
  cbn. rewrite Hg. destruct (f x); cbn.
  - by rewrite IH.
  - by rewrite <- Permutation_middle, IH.
Qed.

Lemma Forall_List_filter {A} (f : A → bool) (l : list A) :
  Forall (λ x, f x = true) (List.filter f l).
Proof.
  induction l as [|x l IH]; [done|].
  cbn. destruct (f x) eqn:E; [by constructor|done].
Qed.

Lemma datetime_leb_total (t u : datetime) :
  datetime_leb t u = true ∨ datetime_leb u t = true.
Proof.
  unfold datetime_leb.
  repeat match goal with
  | |- context [Z.eqb ?a ?b] => destruct (Z.eqb_spec a b)
  | |- context [Z.ltb ?a ?b] => destruct (Z.ltb_spec a b)
  | |- context [Z.leb ?a ?b] => destruct (Z.leb_spec a b)
  end; try (by left); try (by right); lia.
Qed.

Lemma cell_leb_total (a b : cell) :
  cell_leb a b = true ∨ cell_leb b a = true.
Proof.
  destruct a as [|p|s|t], b as [|q|s'|t']; cbn; try (by left).
  - rewrite !Qle_bool_iff.
    destruct (Qlt_le_dec p q) as [H|H]; [left; by apply Qlt_le_weak|by right].
  - apply String.leb_total.
  - apply datetime_leb_total.
Qed.

Lemma Sorted_fmap_Forall {A B} (f : A → B) (P : A → Prop)
    (R1 : relation A) (R2 : relation B) (l : list A) :
  (∀ x y, P x → P y → R1 x y → R2 (f x) (f y)) →
  Forall P l → Sorted R1 l → Sorted R2 (map f l).
Proof.
  intros HR HP HS. induction HS as [|x l _ IH Hhd]; [constructor|].
  apply Forall_cons in HP as [Hx HP]. cbn. constructor; [by apply IH|].
  destruct Hhd as [|y l' Hxy]; cbn; constructor.
  apply Forall_cons in HP as [Hy _]. by apply HR.
Qed.

Lemma sort_values_Some (c : string) (df out : DataFrame) :
  sort_values c df = Some out →
  Forall (λ r : Row, is_Some (r !! c)) df
  ∧ out ≡ₚ df
  ∧ ∃ present missing,
      out = (present ++ missing)%list
      ∧ Forall (λ r : Row, isna (default Null (r !! c)) = false) present
      ∧ Forall (λ r : Row, isna (default Null (r !! c)) = true) missing
      ∧ comparable (map (λ r : Row, default Null (r !! c)) present) = true
      ∧ Sorted (λ r1 r2 : Row,
                  cell_leb (default Null (r1 !! c)) (default Null (r2 !! c))
                  = true) present.
Proof.
  unfold sort_values. intros H.
  destruct (mapM _ df) as [keyed|] eqn:Hk; cbn [mbind option_bind] in H; [|done].
  apply keyed_Some in Hk as [Hkeyed Hpres]. cbv zeta in H.
  destruct (comparable _) eqn:Hcmp; [|done]. injection H as <-.
  set (present := List.filter (λ kr : cell * Row, negb (isna kr.1)) keyed) in *.
  set (missing := List.filter (λ kr : cell * Row, isna kr.1) keyed) in *.
  set (R := λ x y : cell * Row, Is_true (cell_leb x.1 y.1)).
  assert (Forall (λ kr : cell * Row, kr.1 = default Null (kr.2 !! c)) keyed)
    as Hfst.
  { rewrite Hkeyed. apply Forall_forall. intros kr (r & -> & _)%list_elem_of_fmap.
    done. }
  assert (∀ l : list (cell * Row), l ≡ₚ present ∨ l = missing →
            Forall (λ kr : cell * Row, kr.1 = default Null (kr.2 !! c)) l)
    as Hsub.
  { intros l Hl. apply Forall_forall. intros kr Hkr.
    rewrite Forall_forall in Hfst. apply Hfst.
    assert (kr ∈ present ∨ kr ∈ missing) as Hin.
    { destruct Hl as [Hl| ->]; [left; by rewrite <- Hl|by right]. }
    destruct Hin as [Hin|Hin]; apply list_elem_of_In in Hin;
      apply filter_In in Hin as [Hin _]; by apply list_elem_of_In. }
  split; [done|]. split.
  { rewrite map_app, merge_sort_Permutation, <- map_app.
    unfold present, missing.
    rewrite (List_filter_partition _ (λ kr : cell * Row, isna kr.1))
      by (intros; by rewrite negb_involutive).
    rewrite Hkeyed, map_map. cbn. by rewrite map_id. }
  exists (map snd (merge_sort R present)), (map snd missing).
  split; [apply map_app|].
  pose proof (Hsub (merge_sort R present)
                (or_introl (merge_sort_Permutation R present))) as Hs.
  pose proof (Hsub missing (or_intror eq_refl)) as Hm.
  assert (map fst (merge_sort R present)
          = map (λ r : Row, default Null (r !! c))
                (map snd (merge_sort R present))) as Hkeys.
  { rewrite map_map. apply List.map_ext_Forall. exact Hs. }
  repeat split.
  - apply Forall_fmap. apply Forall_forall. intros kr Hkr. cbn.
    rewrite Forall_forall in Hs. rewrite <- (Hs kr Hkr).
    rewrite merge_sort_Permutation in Hkr.
    pose proof (Forall_List_filter (λ kr : cell * Row, negb (isna kr.1)) keyed)
      as HF.
    rewrite Forall_forall in HF. specialize (HF kr Hkr). cbn in HF.
    by destruct (isna kr.1).
  - apply Forall_fmap. apply Forall_forall. intros kr Hkr. cbn.
    rewrite Forall_forall in Hm. rewrite <- (Hm kr Hkr).
    pose proof (Forall_List_filter (λ kr : cell * Row, isna kr.1) keyed) as HF.
    rewrite Forall_forall in HF. exact (HF kr Hkr).
  - rewrite <- Hkeys.
    assert (∀ l l' : list cell, l ≡ₚ l' → comparable l = true →
              ∀ x y, x ∈ l' → y ∈ l' → kind_of x = kind_of y) as Hkinds.
    { intros l l' Hl Hc x y Hx Hy. rewrite <- Hl in Hx, Hy.
      destruct l as [|k l]; [by apply elem_of_nil in Hx|].
      cbn in Hc. rewrite forallb_forall in Hc.
      assert (∀ z, z ∈ k :: l → kind_of z = kind_of k) as Hz.
      { intros z [->|Hz]%elem_of_cons; [done|].
        apply list_elem_of_In, Hc in Hz.
        by destruct (kind_of z), (kind_of k). }
      by rewrite (Hz x), (Hz y). }
    assert (∀ l : list cell,
              (∀ x y, x ∈ l → y ∈ l → kind_of x = kind_of y) →
              comparable l = true) as Hback.
    { intros [|k l] Hl; [done|]. cbn. apply forallb_forall.
      intros z Hz%list_elem_of_In.
      rewrite (Hl z k) by (rewrite !elem_of_cons; auto).
      by destruct (kind_of k). }
    apply Hback. eapply Hkinds; [|exact Hcmp].
    by rewrite merge_sort_Permutation.
  - eapply (Sorted_fmap_Forall snd _ R); [|exact Hs|apply Sorted_merge_sort].
    + intros x y Hx Hy Hxy. cbn beta in Hx, Hy. rewrite <- Hx, <- Hy.
      by apply Is_true_true.
    + intros x y. unfold R. rewrite !Is_true_true. apply cell_leb_total.
Qed.

Lemma comparable_iff (l : list cell) :
  comparable l = true ↔ ∀ x y, x ∈ l → y ∈ l → kind_of x = kind_of y.
Proof.
  split.
  - intros Hc x y Hx Hy.
    destruct l as [|k l]; [by apply elem_of_nil in Hx|].
    cbn in Hc. rewrite forallb_forall in Hc.
    assert (∀ z, z ∈ k :: l → kind_of z = kind_of k) as Hz.
    { intros z [->|Hz]%elem_of_cons; [done|].
      apply list_elem_of_In, Hc in Hz.
      by destruct (kind_of z), (kind_of k). }
    by rewrite (Hz x), (Hz y).
  - destruct l as [|k l]; intros Hl; [done|]. cbn. apply forallb_forall.
    intros z Hz%list_elem_of_In.
    rewrite (Hl z k) by (rewrite !elem_of_cons; auto).
    by destruct (kind_of k).
Qed.

Lemma sort_values_is_Some (c : string) (df : DataFrame) :
  Forall (λ r : Row, is_Some (r !! c)) df →
  (∀ r1 r2 : Row, r1 ∈ df → r2 ∈ df →
     isna (default Null (r1 !! c)) = false →
     isna (default Null (r2 !! c)) = false →
     kind_of (default Null (r1 !! c)) = kind_of (default Null (r2 !! c))) →
  is_Some (sort_values c df).
Proof.
  intros Hpres Hkind. unfold sort_values.
  assert (mapM (λ r, k ← getitem c r; Some (k, r)) df
          = Some (map (λ r : Row, (default Null (r !! c), r)) df)) as ->.
  { apply mapM_Some_2. induction Hpres as [|r df [k Hk] _ IH]; [constructor|].
    cbn. constructor.
    - unfold getitem. by rewrite Hk.
    - apply IH. intros r1 r2 H1 H2. apply Hkind; by right. }
  cbn [mbind option_bind]. cbv zeta.
  assert (comparable
            (map fst (List.filter (λ kr : cell * Row, negb (isna kr.1))
                        (map (λ r : Row, (default Null (r !! c), r)) df)))
          = true) as ->; [|done].
  apply comparable_iff.
  assert (∀ x, x ∈ map fst (List.filter (λ kr : cell * Row, negb (isna kr.1))
                   (map (λ r : Row, (default Null (r !! c), r)) df)) →
               ∃ r : Row, r ∈ df ∧ x = default Null (r !! c)
                          ∧ isna x = false) as Hx.
  { intros x ([k r] & -> & Hin)%list_elem_of_fmap.
    apply list_elem_of_In, filter_In in Hin as [Hin Hna].
    apply list_elem_of_In, list_elem_of_fmap in Hin as (r' & [= -> ->] & Hr).
    exists r'. cbn in *. split; [done|]. split; [done|].
    by destruct (isna _). }
  intros x y (r1 & H1 & -> & N1)%Hx (r2 & H2 & -> & N2)%Hx.
  by apply Hkind.
Qed.

Lemma finalise_schema_Some (df out : DataFrame) :
  _finalise_schema df = Some out →
  Forall (λ r : Row, Forall (λ c, is_Some (r !! c)) CANONICAL) df
  ∧ sort_values "Timestamp" (map canonical_part df) = Some out.
Proof.
  unfold _finalise_schema. fold CANONICAL. intros H.
  destruct (mapM (project CANONICAL) df) as [proj|] eqn:Hp;
    cbn [mbind option_bind] in H; [|done].
  apply mapM_Some_1 in Hp.
  assert (proj = map canonical_part df) as ->.
  { clear H. induction Hp as [|r p df proj Hr _ IH]; [done|].
    cbn. by rewrite (project_canonical_part _ _ Hr), IH. }
  split; [|done].
  clear H. remember (map canonical_part df) as proj eqn:E. clear E.
  induction Hp as [|r p df proj Hr _ IH]; constructor; [|done].
  by apply project_Some in Hr as [? _].
Qed.

Lemma canonical_part_lookup (r : Row) (c : string) :
  c ∈ CANONICAL → canonical_part r !! c = r !! c.
Proof.
  intros Hc. unfold canonical_part. apply option_eq. intros v.
  rewrite map_lookup_filter_Some. cbn. tauto.
Qed.

Lemma canonical_part_dom (r : Row) :
  Forall (λ c, is_Some (r !! c)) CANONICAL →
  dom (canonical_part r) = list_to_set CANONICAL.
Proof.
  intros H. apply set_eq. intros c.
  rewrite elem_of_dom, elem_of_list_to_set. split.
  - intros [v Hv]. unfold canonical_part in Hv.
    apply map_lookup_filter_Some in Hv as [_ Hc]. done.
  - intros Hc. rewrite canonical_part_lookup by done.
    rewrite Forall_forall in H. by apply H.
Qed.

(** X9.  The schema finaliser keeps every row and only reorders: its
    result is a permutation of the rows of its input cut down to the six
    canonical columns, and every row of the result has exactly these
    six columns. *)
Theorem finalise_schema_rows (df out : DataFrame) :
  _finalise_schema df = Some out →
  out ≡ₚ map canonical_part df
  ∧ Forall (λ p : Row, dom p = list_to_set CANONICAL) out.
Proof.
  intros [Hpres Hsort]%finalise_schema_Some.
  apply sort_values_Some in Hsort as (_ & Hperm & _).
  split; [done|]. rewrite Hperm. apply Forall_fmap.
  eapply Forall_impl; [exact Hpres|]. intros r. apply canonical_part_dom.
Qed.

Lemma finalise_schema_rows_witness :
  ∃ out, _finalise_schema unsorted_frame = Some out
    ∧ out ≡ₚ map canonical_part unsorted_frame
    ∧ Forall (λ p : Row, dom p = list_to_set CANONICAL) out.
Proof.
  assert (bool_decide (is_Some (_finalise_schema unsorted_frame)) = true)
    as [out E]%bool_decide_eq_true by (vm_compute; reflexivity).
  exists out. split; [exact E|]. exact (finalise_schema_rows _ _ E).
Defined.

(** X10.  The schema finaliser sorts by Timestamp: in its result the
    rows that have a Timestamp come first, in ascending order of it,
    and the rows whose Timestamp is null come last. *)
Theorem finalise_schema_sorted (df out : DataFrame) :
  _finalise_schema df = Some out →
  ∃ dated undated,
    out = (dated ++ undated)%list
    ∧ Forall (λ r, isna (timestamp_cell r) = false) dated
    ∧ Forall (λ r, isna (timestamp_cell r) = true) undated
    ∧ Sorted (λ r1 r2,
                cell_leb (timestamp_cell r1) (timestamp_cell r2) = true) dated.
Proof.
  intros [_ Hsort]%finalise_schema_Some.
  apply sort_values_Some
    in Hsort as (_ & _ & dated & undated & -> & Hd & Hu & _ & Hs).
  by exists dated, undated.
Qed.

Lemma finalise_schema_sorted_witness :
  ∃ out, _finalise_schema unsorted_frame = Some out
    ∧ ∃ dated undated,
        out = (dated ++ undated)%list
        ∧ Forall (λ r, isna (timestamp_cell r) = false) dated
        ∧ Forall (λ r, isna (timestamp_cell r) = true) undated
        ∧ Sorted (λ r1 r2,
                    cell_leb (timestamp_cell r1) (timestamp_cell r2) = true)
                 dated.
Proof.
  assert (bool_decide (is_Some (_finalise_schema unsorted_frame)) = true)
    as [out E]%bool_decide_eq_true by (vm_compute; reflexivity).
  exists out. split; [exact E|]. exact (finalise_schema_sorted _ _ E).
Defined.

Lemma timestamp_cell_canonical (r : Row) :
  timestamp_cell (canonical_part r) = timestamp_cell r.
Proof.
  unfold timestamp_cell. by rewrite canonical_part_lookup by compute_done.
Qed.

Lemma finalise_schema_kinds (df out : DataFrame) (r1 r2 : Row) :
  _finalise_schema df = Some out →
  r1 ∈ df → r2 ∈ df →
  isna (timestamp_cell r1) = false →
  isna (timestamp_cell r2) = false →
  kind_of (timestamp_cell r1) = kind_of (timestamp_cell r2).
Proof.
  intros [Hpres Hsort]%finalise_schema_Some.
  apply sort_values_Some
    in Hsort as (_ & Hperm & dated & undated & -> & Hd & Hu & Hc & _).
  assert (∀ r : Row, r ∈ df → isna (timestamp_cell r) = false →
                     canonical_part r ∈ dated) as Hin.
  { intros r Hr Hna.
    assert (canonical_part r ∈ (dated ++ undated)%list) as Hp.
    { rewrite Hperm. by apply list_elem_of_fmap_2. }
    apply elem_of_app in Hp as [Hp|Hp]; [done|].
    rewrite Forall_forall in Hu. specialize (Hu _ Hp).
    fold (timestamp_cell (canonical_part r)) in Hu.
    rewrite timestamp_cell_canonical in Hu. congruence. }
  intros H1 H2 N1 N2.
  rewrite comparable_iff in Hc.
  rewrite <- (timestamp_cell_canonical r1), <- (timestamp_cell_canonical r2).
  apply Hc; apply list_elem_of_fmap;
    [exists (canonical_part r1)|exists (canonical_part r2)]; auto.
Qed.

Lemma finalise_schema_is_Some (df : DataFrame) :
  Forall (λ r : Row, Forall (λ c, is_Some (r !! c)) CANONICAL) df →
  (∀ r1 r2 : Row, r1 ∈ df → r2 ∈ df →
     isna (timestamp_cell r1) = false →
     isna (timestamp_cell r2) = false →
     kind_of (timestamp_cell r1) = kind_of (timestamp_cell r2)) →
  is_Some (_finalise_schema df).
Proof.
  intros Hpres Hkind.
  assert (mapM (project CANONICAL) df = Some (map canonical_part df)) as Hp.
  { clear Hkind. apply mapM_Some_2.
    induction Hpres as [|r df Hr _ IH]; simpl; constructor; [|done].
    destruct (project_present _ _ Hr) as [p Hp].
    by rewrite Hp, (project_canonical_part _ _ Hp). }
  unfold _finalise_schema. fold CANONICAL. rewrite Hp.
  cbn [mbind option_bind]. apply sort_values_is_Some.
  + apply Forall_fmap. eapply Forall_impl; [exact Hpres|].
    intros r Hr. cbn. rewrite canonical_part_lookup by compute_done.
    rewrite Forall_forall in Hr. apply Hr. compute_done.
  + intros p1 p2 (r1 & -> & H1)%list_elem_of_fmap
                 (r2 & -> & H2)%list_elem_of_fmap.
    fold (timestamp_cell (canonical_part r1))
         (timestamp_cell (canonical_part r2)).
    rewrite !timestamp_cell_canonical. by apply Hkind.
Qed.

(** X11.  On a frame with at least one row the schema finaliser
    returns exactly when every row carries the six canonical columns and
    all non-null Timestamps are values of one type; on any other such
    frame it raises (KeyError for a missing column, TypeError when the
    sort compares a text with a date-time or a number). *)
Theorem finalise_schema_returns_iff (df : DataFrame) :
  df ≠ [] →
  is_Some (_finalise_schema df) ↔
  Forall (λ r : Row, Forall (λ c, is_Some (r !! c)) CANONICAL) df
  ∧ ∀ r1 r2 : Row, r1 ∈ df → r2 ∈ df →
      isna (timestamp_cell r1) = false →
      isna (timestamp_cell r2) = false →
      kind_of (timestamp_cell r1) = kind_of (timestamp_cell r2).
Proof.
  intros _. split.
  - intros [out Hout]. split.
    + by apply finalise_schema_Some in Hout as [? _].
    + intros r1 r2. by apply (finalise_schema_kinds df out).
  - intros [Hpres Hkind]. by apply finalise_schema_is_Some.
Qed.

Lemma finalise_schema_returns_iff_witness :
  unsorted_frame ≠ []
  ∧ (is_Some (_finalise_schema unsorted_frame) ↔
     Forall (λ r : Row, Forall (λ c, is_Some (r !! c)) CANONICAL)
            unsorted_frame
     ∧ ∀ r1 r2 : Row, r1 ∈ unsorted_frame → r2 ∈ unsorted_frame →
         isna (timestamp_cell r1) = false →
         isna (timestamp_cell r2) = false →
         kind_of (timestamp_cell r1) = kind_of (timestamp_cell r2)).
Proof.
  assert (unsorted_frame ≠ []) as Hne by discriminate.
  split; [exact Hne|]. exact (finalise_schema_returns_iff _ Hne).
Defined.

(** ** The pipeline as a whole *)

Lemma enforce_types_rowwise `{Coercions} (df : DataFrame) :
  _enforce_types df = mapM enforce_row df.
Proof. reflexivity. Qed.

Lemma enforce_row_Some `{Coercions} (r : Row) (e : LedgerEntry) :
  enforce_row r = Some e →
  Forall (λ c, is_Some (r !! c)) CANONICAL
  ∧ Timestamp e = to_datetime (timestamp_cell r)
  ∧ Nature_of_Record e = astype_string (nature_cell r).
Proof.
  unfold enforce_row, getitem, timestamp_cell, nature_cell. intros He.
  destruct (r !! "Timestamp") as [t|] eqn:Ht; [|done].
  destruct (r !! "Nature of Record") as [n|] eqn:Hn; [|done].
  destruct (r !! "Amount") as [a|] eqn:Ha; [|done].
  destruct (r !! "Account") as [c|] eqn:Hc; [|done].
  destruct (r !! "Source") as [s|] eqn:Hs; [|done].
  destruct (r !! "Description") as [d|] eqn:Hd; [|done].
  cbn in He. injection He as <-. split; [|done].
  unfold CANONICAL. rewrite ?Ht, ?Hn, ?Ha, ?Hc, ?Hs, ?Hd.
  repeat (constructor; [by eexists|]). constructor.
Qed.

Lemma run_Some `{Coercions} (raw : DataFrame) (ledger : Ledger) :
  run raw = Some ledger →
  ∃ comb df fin,
    Forall2 (λ r r', combine_row r = Some r') raw comb
    ∧ _split_transfers comb = Some df
    ∧ _finalise_schema df = Some fin
    ∧ Forall2 (λ r e, enforce_row r = Some e) fin ledger.
Proof.
  unfold run. intros Hrun.
  destruct (_combine_columns raw) as [comb|] eqn:Hc;
    cbn [mbind option_bind] in Hrun; [|done].
  destruct (_split_transfers comb) as [df|] eqn:Hs;
    cbn [mbind option_bind] in Hrun; [|done].
  destruct (_finalise_schema df) as [fin|] eqn:Hf;
    cbn [mbind option_bind] in Hrun; [|done].
  exists comb, df, fin. split; [by apply combine_columns_Some|].
  split; [done|]. split; [done|].
  rewrite enforce_types_rowwise in Hrun. by apply mapM_Some_1.
Qed.

Lemma combine_row_keeps (r r' : Row) :
  combine_row r = Some r' →
  timestamp_cell r' = timestamp_cell r
  ∧ nature_cell r' = nature_cell r
  ∧ is_transfer r' = is_transfer r.
Proof.
  intros (_ & _ & _ & _ & _ & Hk)%combine_row_Some.
  unfold timestamp_cell, nature_cell, is_transfer, getitem.
  rewrite !Hk by compute_done. done.
Qed.

Lemma transfer_rows_combined (raw comb : DataFrame) :
  Forall2 (λ r r', combine_row r = Some r') raw comb →
  length (transfer_rows comb) = length (transfer_rows raw).
Proof.
  unfold transfer_rows.
  induction 1 as [|r r' raw comb Hr _ IH]; [done|].
  apply combine_row_keeps in Hr as (_ & _ & Ht).
  rewrite !filter_cons, Ht.
  destruct (decide (is_transfer r = Some true)); cbn; by rewrite IH.
Qed.

(** X12.  The pipeline yields one ledger entry for every row of the
    sheet and one more for every Transfer row: a Transfer row becomes
    its two legs, every other row becomes one entry. *)
Theorem run_row_count `{Coercions} (raw : DataFrame) (ledger : Ledger) :
  run raw = Some ledger →
  length ledger = (length raw + length (transfer_rows raw))%nat.
Proof.
  intros (comb & df & fin & Hc & Hs & Hf & He)%run_Some.
  apply Forall2_length in He. rewrite <- He.
  apply finalise_schema_Some in Hf as [_ Hf].
  apply sort_values_Some in Hf as (_ & Hperm & _).
  rewrite Hperm, length_map.
  apply transfer_legs_lookup in Hs as (-> & _).
  rewrite <- (transfer_rows_combined _ _ Hc).
  rewrite (Forall2_length _ _ _ Hc), <- (rows_partition comb). lia.
Qed.

Lemma run_row_count_witness :
  ∃ ledger,
    @run parse_nothing [expense_150; transfer_40] = Some ledger
    ∧ length ledger
      = (length [expense_150; transfer_40]
         + length (transfer_rows [expense_150; transfer_40]))%nat.
Proof.
  assert (bool_decide
            (is_Some (@run parse_nothing [expense_150; transfer_40])) = true)
    as [ledger E]%bool_decide_eq_true by (vm_compute; reflexivity).
  exists ledger. split; [exact E|].
  exact (@run_row_count parse_nothing _ _ E).
Defined.

Lemma split_rows_origin (raw df : DataFrame) (d : Row) :
  _split_transfers raw = Some df → d ∈ df →
  ∃ r, r ∈ raw
    ∧ ((d = r ∧ is_transfer r = Some false)
       ∨ (is_transfer r = Some true
          ∧ (expense_leg r = Some d ∨ income_leg r = Some d))).
Proof.
  intros Hs Hd. pose proof (split_transfers_domain _ _ Hs) as Hok.
  apply split_transfers_Some in Hs as (outs & ins & -> & Ho & Hi).
  rewrite !elem_of_app in Hd. destruct Hd as [Hd|[Hd|Hd]].
  - unfold non_transfer_rows in Hd.
    apply list_elem_of_filter in Hd as [Hn Hd].
    exists d. split; [done|]. left. split; [done|].
    rewrite Forall_forall in Hok. specialize (Hok _ Hd).
    unfold split_ok in Hok. by destruct (is_transfer d) as [[]|].
  - apply list_elem_of_lookup in Hd as [i Hd].
    destruct (Forall2_lookup_r _ _ _ _ _ Ho Hd) as (r & Hr & Hleg).
    apply list_elem_of_lookup_2, list_elem_of_filter in Hr as [Ht Hr].
    exists r. split; [done|]. right. split; [done|]. by left.
  - apply list_elem_of_lookup in Hd as [i Hd].
    destruct (Forall2_lookup_r _ _ _ _ _ Hi Hd) as (r & Hr & Hleg).
    apply list_elem_of_lookup_2, list_elem_of_filter in Hr as [Ht Hr].
    exists r. split; [done|]. right. split; [done|]. by right.
Qed.

Lemma leg_cells (r o n : Row) :
  (expense_leg r = Some o →
   timestamp_cell o = timestamp_cell r ∧ nature_cell o = Str "Transfer-Out")
  ∧ (income_leg r = Some n →
     timestamp_cell n = timestamp_cell r ∧ nature_cell n = Str "Transfer-In").
Proof.
  unfold timestamp_cell, nature_cell. split.
  - intros (a & s & c & _ & _ & _ & _ & ->)%expense_leg_Some.
    rewrite lookup_insert_eq, !lookup_insert_ne by done. done.
  - intros [_ ->]%income_leg_Some.
    rewrite lookup_insert_eq, !lookup_insert_ne by done. done.
Qed.

Lemma canonical_part_cells (r : Row) :
  timestamp_cell (canonical_part r) = timestamp_cell r
  ∧ nature_cell (canonical_part r) = nature_cell r.
Proof.
  unfold timestamp_cell, nature_cell.
  by rewrite !canonical_part_lookup by compute_done.
Qed.

(** Where a row of the finalised frame comes from: a row of the sheet
    that is no Transfer row, whose Timestamp and label it carries, or a
    Transfer row of the sheet, whose Timestamp it carries under the
    label of one of the two legs. *)
Lemma finalised_rows_origin (raw comb df fin : DataFrame) (p : Row) :
  Forall2 (λ r r', combine_row r = Some r') raw comb →
  _split_transfers comb = Some df →
  _finalise_schema df = Some fin →
  p ∈ fin →
  ∃ r, r ∈ raw
    ∧ timestamp_cell p = timestamp_cell r
    ∧ ((nature_cell p = nature_cell r ∧ is_transfer r = Some false)
       ∨ (is_transfer r = Some true
          ∧ (nature_cell p = Str "Transfer-Out"
             ∨ nature_cell p = Str "Transfer-In"))).
Proof.
  intros Hc Hs Hf Hp.
  apply finalise_schema_Some in Hf as [_ Hf].
  apply sort_values_Some in Hf as (_ & Hperm & _).
  rewrite Hperm in Hp. apply list_elem_of_fmap in Hp as (d & -> & Hd).
  destruct (canonical_part_cells d) as [-> ->].
  destruct (split_rows_origin _ _ _ Hs Hd) as (r' & Hr' & Hcase).
  apply list_elem_of_lookup in Hr' as [i Hr'].
  destruct (Forall2_lookup_r _ _ _ _ _ Hc Hr') as (r & Hr & Hcomb).
  apply list_elem_of_lookup_2 in Hr.
  apply combine_row_keeps in Hcomb as (Hts & Hn & Ht).
  exists r. split; [done|]. rewrite <- Hts, <- Hn, <- Ht.
  destruct Hcase as [[-> Hfalse]|[Htrue [Hleg|Hleg]]].
  - split; [done|]. by left.
  - apply (leg_cells r' d d) in Hleg as [-> ->].
    split; [done|]. right. split; [done|]. by left.
  - apply (leg_cells r' d d) in Hleg as [-> ->].
    split; [done|]. right. split; [done|]. by right.
Qed.

Lemma Sorted_Forall2 {A B} (R1 : relation A) (R2 : relation B)
    (Q : A → B → Prop) (l : list A) (k : list B) :
  (∀ x y x' y', Q x x' → Q y y' → R1 x y → R2 x' y') →
  Forall2 Q l k → Sorted R1 l → Sorted R2 k.
Proof.
  intros HR HF. induction HF as [|x x' l k Hx HF IH]; intros HS.
  { constructor. }
  apply Sorted_inv in HS as [HS Hhd]. constructor; [by apply IH|].
  destruct HF as [|y y' l k Hy HF]; constructor.
  apply HdRel_inv in Hhd. by eapply HR.
Qed.

(** X13.  When the Timestamp cells of the sheet hold date-times or
    nothing, the ledger is in chronological order: the entries with a
    Timestamp come first, each no later than the next, and the entries
    without one come last. *)
Theorem run_chronological `{Coercions} (raw : DataFrame) (ledger : Ledger) :
  Forall (λ r, datetime_or_null (timestamp_cell r) = true) raw →
  run raw = Some ledger →
  ∃ dated undated,
    ledger = (dated ++ undated)%list
    ∧ Forall (λ e, is_Some (Timestamp e)) dated
    ∧ Forall (λ e, Timestamp e = None) undated
    ∧ Sorted (λ e1 e2, ∃ t1 t2, Timestamp e1 = Some t1
                                ∧ Timestamp e2 = Some t2
                                ∧ datetime_leb t1 t2 = true) dated.
Proof.
  intros Hraw (comb & df & fin & Hc & Hs & Hf & He)%run_Some.
  assert (∀ p, p ∈ fin → datetime_or_null (timestamp_cell p) = true) as Hk.
  { intros p Hp.
    destruct (finalised_rows_origin _ _ _ _ _ Hc Hs Hf Hp) as (r & Hr & -> & _).
    rewrite Forall_forall in Hraw. by apply Hraw. }
  apply finalise_schema_Some in Hf as [_ Hf].
  apply sort_values_Some
    in Hf as (_ & _ & present & missing & -> & Hd & Hu & _ & Hsort).
  apply Forall2_app_inv_l in He as (dated & undated & Hed & Heu & ->).
  assert (Forall2 (λ (p : Row) e, ∃ t, timestamp_cell p = Time t
                                       ∧ Timestamp e = Some t)
                  present dated) as Hpd.
  { apply Forall2_same_length_lookup. split; [by eapply Forall2_length|].
    intros i p e Hp Hi.
    destruct (Forall2_lookup_l _ _ _ _ _ Hed Hp) as (e' & He' & Henf).
    assert (e' = e) as -> by congruence.
    apply enforce_row_Some in Henf as (_ & Hts & _).
    rewrite Forall_forall in Hd.
    pose proof (Hd p (list_elem_of_lookup_2 _ _ _ Hp)) as Hna.
    fold (timestamp_cell p) in Hna.
    pose proof (Hk p) as Hkp. rewrite elem_of_app in Hkp.
    specialize (Hkp (or_introl (list_elem_of_lookup_2 _ _ _ Hp))).
    destruct (timestamp_cell p) as [|q|s|t]; try done.
    by exists t. }
  exists dated, undated. split; [done|]. split; [|split].
  - apply (Forall2_Forall_r _ _ _ _ Hpd). apply Forall_true.
    intros p e (t & _ & ->). by eexists.
  - apply Forall_forall. intros e Hein.
    apply list_elem_of_lookup in Hein as [i Hi].
    destruct (Forall2_lookup_r _ _ _ _ _ Heu Hi) as (p & Hp & Henf).
    apply enforce_row_Some in Henf as (_ & -> & _).
    rewrite Forall_forall in Hu.
    pose proof (Hu p (list_elem_of_lookup_2 _ _ _ Hp)) as Hna.
    fold (timestamp_cell p) in Hna.
    by destruct (timestamp_cell p).
  - eapply Sorted_Forall2; [|exact Hpd|exact Hsort].
    intros p1 p2 e1 e2 (t1 & H1 & E1) (t2 & H2 & E2) Hle.
    fold (timestamp_cell p1) (timestamp_cell p2) in Hle.
    rewrite H1, H2 in Hle. by exists t1, t2.
Qed.

Lemma run_chronological_witness :
  Forall (λ r, datetime_or_null (timestamp_cell r) = true)
         [expense_150; income_undated; transfer_40; income_100]
  ∧ ∃ ledger,
      @run parse_nothing
           [expense_150; income_undated; transfer_40; income_100] = Some ledger
      ∧ ∃ dated undated,
          ledger = (dated ++ undated)%list
          ∧ Forall (λ e, is_Some (Timestamp e)) dated
          ∧ Forall (λ e, Timestamp e = None) undated
          ∧ Sorted (λ e1 e2, ∃ t1 t2, Timestamp e1 = Some t1
                                      ∧ Timestamp e2 = Some t2
                                      ∧ datetime_leb t1 t2 = true) dated.
Proof.
  assert (Forall (λ r, datetime_or_null (timestamp_cell r) = true)
                 [expense_150; income_undated; transfer_40; income_100]) as Hraw
    by (repeat constructor).
  assert (bool_decide
            (is_Some (@run parse_nothing
                        [expense_150; income_undated; transfer_40; income_100]))
          = true)
    as [ledger E]%bool_decide_eq_true by (vm_compute; reflexivity).
  split; [exact Hraw|]. exists ledger. split; [exact E|].
  exact (@run_chronological parse_nothing _ _ Hraw E).
Defined.

(** X14.  When the labels of the sheet are texts or nothing, no entry
    of the ledger is labelled Transfer, with or without blanks around
    the word: every Transfer row has become its two legs. *)
Theorem run_no_transfer_label `{Coercions} (raw : DataFrame) (ledger : Ledger) :
  Forall (λ r, text_or_null (nature_cell r) = true) raw →
  run raw = Some ledger →
  Forall (λ e, ∀ s, Nature_of_Record e = Some s → strip s ≠ "Transfer") ledger.
Proof.
  intros Hraw (comb & df & fin & Hc & Hs & Hf & He)%run_Some.
  apply Forall_forall. intros e Hein s Hlabel.
  apply list_elem_of_lookup in Hein as [i Hi].
  destruct (Forall2_lookup_r _ _ _ _ _ He Hi) as (p & Hp & Henf).
  apply list_elem_of_lookup_2 in Hp.
  apply enforce_row_Some in Henf as (_ & _ & Hn). rewrite Hlabel in Hn.
  destruct (finalised_rows_origin _ _ _ _ _ Hc Hs Hf Hp)
    as (r & Hr & _ & [[Hnr Hfalse]|[_ [Hleg|Hleg]]]).
  - rewrite Hnr in Hn. rewrite Forall_forall in Hraw. specialize (Hraw _ Hr).
    unfold is_transfer, getitem in Hfalse. unfold nature_cell in Hn, Hraw.
    destruct (r !! "Nature of Record") as [[|q|s'|t]|]; try done.
    cbn in Hn, Hfalse. injection Hn as ->. injection Hfalse as Hfalse.
    intros Heq. rewrite Heq in Hfalse. done.
  - rewrite Hleg in Hn. cbn in Hn. injection Hn as ->. by vm_compute.
  - rewrite Hleg in Hn. cbn in Hn. injection Hn as ->. by vm_compute.
Qed.

Lemma run_no_transfer_label_witness :
  Forall (λ r, text_or_null (nature_cell r) = true)
         [expense_150; transfer_40]
  ∧ ∃ ledger,
      @run parse_nothing [expense_150; transfer_40] = Some ledger
      ∧ Forall (λ e, ∀ s, Nature_of_Record e = Some s → strip s ≠ "Transfer")
               ledger.
Proof.
  assert (Forall (λ r, text_or_null (nature_cell r) = true)
                 [expense_150; transfer_40]) as Hraw
    by (repeat constructor).
  assert (bool_decide
            (is_Some (@run parse_nothing [expense_150; transfer_40])) = true)
    as [ledger E]%bool_decide_eq_true by (vm_compute; reflexivity).
  split; [exact Hraw|]. exists ledger. split; [exact E|].
  exact (@run_no_transfer_label parse_nothing _ _ Hraw E).
Defined.

(** ** Totals of the grouped tables *)

Lemma nansum_Permutation (l k : list (option Q)) :
  l ≡ₚ k → (nansum l == nansum k)%Q.
Proof.
  unfold nansum. induction 1 as [|x l k _ IH|x y l|l k m _ IH1 _ IH2].
  - done.
  - destruct x as [q|]; cbn; [by rewrite IH|done].
  - destruct x as [p|], y as [q|]; cbn; try done.
    rewrite !Qplus_assoc. by rewrite (Qplus_comm q p).
  - by rewrite IH1.
Qed.

Lemma nansum_zeros {A} (l : list A) :
  (nansum (map (λ _, Some 0%Q) l) == 0)%Q.
Proof.
  unfold nansum. induction l as [|x l IH]; cbn; [done|].
  by rewrite IH.
Qed.

Lemma nansum_map_plus {A} (f g : A → Q) (l : list A) :
  (nansum (map (λ x, Some (f x + g x)%Q) l)
   == nansum (map (λ x, Some (f x)) l) + nansum (map (λ x, Some (g x)) l))%Q.
Proof.
  unfold nansum. induction l as [|x l IH]; cbn; [done|].
  rewrite IH. ring.
Qed.

Lemma nansum_map_ext {A} (f g : A → Q) (l : list A) :
  (∀ x, x ∈ l → (f x == g x)%Q) →
  (nansum (map (λ x, Some (f x)) l) == nansum (map (λ x, Some (g x)) l))%Q.
Proof.
  unfold nansum. induction l as [|x l IH]; intros Hfg; cbn; [done|].
  rewrite IH by (intros y Hy; apply Hfg; by right).
  rewrite (Hfg x) by left. done.
Qed.

Lemma nansum_indicator {A} `{EqDecision A} (x0 : A) (c : Q) (l : list A) :
  NoDup l →
  (nansum (map (λ x, Some (if decide (x = x0) then c else 0%Q)) l)
   == if decide (x0 ∈ l) then c else 0)%Q.
Proof.
  unfold nansum. induction 1 as [|x l Hx _ IH]; cbn; [done|].
  rewrite IH. destruct (decide (x = x0)) as [->|Hne].
  - rewrite decide_False by done. rewrite decide_True by left. ring.
  - destruct (decide (x0 ∈ l)) as [Hin|Hnin].
    + rewrite decide_True by (by right). ring.
    + rewrite decide_False; [ring|].
      intros [->|?]%elem_of_cons; done.
Qed.

Section groupby_totals.
Context {K : Type} `{EqDecision K} (leb : K → K → bool).
Context (key : LedgerEntry → option K).

Lemma group_sums_total (ks : list K) (df : Ledger) :
  NoDup ks →
  (∀ e k, e ∈ df → key e = Some k → k ∈ ks) →
  (nansum (map (λ k, Some (nansum (map Amount
                                     (filter (λ e, key e = Some k) df)))) ks)
   == nansum (map Amount (filter (λ e, is_Some (key e)) df)))%Q.
Proof.
  intros Hnd. induction df as [|e df IH]; intros Hks.
  { cbn. apply nansum_zeros. }
  assert ((nansum (map (λ k, Some (nansum (map Amount
                                     (filter (λ e, key e = Some k) (e :: df)))))
                       ks)
           == nansum (map (λ k, Some (if decide (Some k = key e)
                                      then nansum [Amount e] else 0%Q)) ks)
              + nansum (map Amount (filter (λ e, is_Some (key e)) df)))%Q)
    as Hstep.
  { rewrite <- IH by (intros e' k He'; apply Hks; by right).
    rewrite <- nansum_map_plus. apply nansum_map_ext. intros k _.
    rewrite filter_cons. destruct (decide (key e = Some k)) as [Hk|Hk].
    - rewrite decide_True by done.
      change (e :: filter (λ e0, key e0 = Some k) df)
        with ([e] ++ filter (λ e0, key e0 = Some k) df)%list.
      by rewrite map_app, nansum_app.
    - rewrite decide_False by done. by rewrite Qplus_0_l. }
  rewrite Hstep. rewrite filter_cons.
  destruct (key e) as [k0|] eqn:Hk0.
  - rewrite decide_True by by eexists.
    change (e :: filter (λ e0, is_Some (key e0)) df)
      with ([e] ++ filter (λ e0, is_Some (key e0)) df)%list.
    rewrite map_app, nansum_app. apply Qplus_comp; [|done].
    rewrite (nansum_map_ext _ (λ k, if decide (k = k0)
                                    then nansum [Amount e] else 0%Q)).
    + rewrite nansum_indicator by done.
      rewrite decide_True; [done|]. eapply Hks; [by left|done].
    + intros k _. destruct (decide (k = k0)) as [->|Hne].
      * by rewrite decide_True.
      * rewrite decide_False; [done|]. congruence.
  - rewrite decide_False by (by intros [? ?]).
    rewrite (nansum_map_ext _ (λ _, 0%Q)) by done.
    rewrite nansum_zeros. by rewrite Qplus_0_l.
Qed.

Lemma groupby_sum_total (df : Ledger) :
  (nansum (map (Some ∘ snd) (groupby_sum leb key df))
   == nansum (map Amount (filter (λ e, is_Some (key e)) df)))%Q.
Proof.
  unfold groupby_sum. rewrite map_map. cbn.
  apply group_sums_total; [apply NoDup_group_keys|].
  intros e k He Hk. apply elem_of_group_keys. by exists e.
Qed.

End groupby_totals.

(** ** The profit-and-loss table *)

(** X15.  The values of the monthly profit-and-loss table add up to
    the Amounts of the month's entries that have both a label and an
    Account; an entry of the month that lacks one of the two is in no
    group and counts nowhere. *)
Theorem pnl_total (month year : Z) (df : Ledger) :
  (nansum (map (Some ∘ snd) (monthly_profit_and_loss month year df))
   == nansum (map Amount
        (filter (λ e, is_Some (Nature_of_Record e) ∧ is_Some (Account e))
                (filter (λ e, in_month month year e = true) df))))%Q.
Proof.
  rewrite monthly_profit_and_loss_rows, groupby_sum_total.
  erewrite list_filter_iff; [done|].
  intros e. unfold pnl_key.
  destruct (Nature_of_Record e) as [n|], (Account e) as [a|]; cbn.
  - split; intros _; [split|]; by eexists.
  - split; [by intros [? ?]|by intros [_ [? ?]]].
  - split; [by intros [? ?]|by intros [[? ?] _]].
  - split; [by intros [? ?]|by intros [[? ?] _]].
Qed.

(** ** The balance of every account *)

Lemma isin_true (x : option string) (values : list string) :
  isin x values = true ↔ ∃ s, x = Some s ∧ s ∈ values.
Proof.
  unfold isin. destruct x as [s|].
  - rewrite bool_decide_eq_true. split; [by exists s|].
    by intros (? & [= <-] & ?).
  - split; [done|]. by intros (? & ? & _).
Qed.

Lemma balance_by_account_rows (df : Ledger) (selected_accounts : list string) :
  Graph.balance_by_account_graph df selected_accounts
  = groupby_sum String.leb Account
      (filter (λ e, isin (Account e) selected_accounts = true) df).
Proof.
  unfold Graph.balance_by_account_graph.
  by rewrite (loc_mask_map (λ e, isin (Account e) selected_accounts)).
Qed.

(** X16.  The bar chart of balances has a bar for an account exactly
    when the account is selected and occurs in the ledger, and the bar
    shows the sum of all the Amounts booked on that account.  A selected
    account without entries gets no bar. *)
Theorem balance_by_account_bars (df : Ledger) (selected_accounts : list string)
    (a : string) (v : Q) :
  (a, v) ∈ Graph.balance_by_account_graph df selected_accounts ↔
  a ∈ selected_accounts
  ∧ (∃ e, e ∈ df ∧ Account e = Some a)
  ∧ v = nansum (map Amount (filter (λ e, Account e = Some a) df)).
Proof.
  rewrite balance_by_account_rows, elem_of_groupby_sum.
  assert (a ∈ selected_accounts →
          filter (λ e, Account e = Some a)
                 (filter (λ e, isin (Account e) selected_accounts = true) df)
          = filter (λ e, Account e = Some a) df) as Hfilter.
  { intros Ha. rewrite list_filter_filter. apply list_filter_iff.
    intros e. split; [by intros [? _]|]. intros He. split; [done|].
    apply isin_true. by exists a. }
  split.
  - intros [(e & [Hsel He]%list_elem_of_filter & Ha) ->].
    assert (a ∈ selected_accounts) as Hin.
    { apply isin_true in Hsel as (s & Hs & Hin). congruence. }
    split; [done|]. split; [by exists e|]. by rewrite Hfilter.
  - intros (Hin & (e & He & Ha) & ->). split; [|by rewrite Hfilter].
    exists e. split; [|done]. apply list_elem_of_filter. split; [|done].
    apply isin_true. by exists a.
Qed.

Lemma String_leb_total : Total (λ s t : string, Is_true (String.leb s t)).
Proof.
  intros s t. destruct (String.leb_total s t) as [H|H]; rewrite H;
    [by left|by right].
Qed.

(** X17.  The bar chart of balances shows every account once, and the
    accounts in ascending order of their names. *)
Theorem balance_by_account_order (df : Ledger) (selected_accounts : list string) :
  let accounts := map fst (Graph.balance_by_account_graph df selected_accounts) in
  NoDup accounts
  ∧ Sorted (λ s t : string, String.leb s t = true) accounts.
Proof.
  cbv zeta. rewrite balance_by_account_rows, fst_groupby_sum.
  split; [apply NoDup_group_keys|].
  unfold group_keys.
  eapply Sorted_weaken; [|apply Sorted_merge_sort, String_leb_total].
  intros s t. apply Is_true_true_1.
Qed.

(** X18.  The bars of the balance chart add up to the Amounts of the
    entries booked on a selected account. *)
Theorem balance_by_account_total (df : Ledger) (selected_accounts : list string) :
  (nansum (map (Some ∘ snd)
               (Graph.balance_by_account_graph df selected_accounts))
   == nansum (map Amount
        (filter (λ e, isin (Account e) selected_accounts = true) df)))%Q.
Proof.
  rewrite balance_by_account_rows, groupby_sum_total, list_filter_filter.
  erewrite list_filter_iff; [done|].
  intros e. split; [by intros [_ ?]|]. intros He. split; [|done].
  apply isin_true in He as (s & -> & _). by eexists.
Qed.

(** ** The pie of the expenses *)

Lemma source_sums_sorted_nonneg (exp_df : Ledger) :
  Forall (λ kv : string * Q, (0 <= kv.2)%Q)
         (sort_descending (source_sums exp_df)).
Proof. rewrite sort_descending_Permutation. apply source_sums_nonneg. Qed.

Lemma others_sum_nonneg (data : list (string * Q)) (topN : Z) :
  Forall (λ kv : string * Q, (0 <= kv.2)%Q) data →
  (0 <= nansum (map (Some ∘ snd) (iloc_from topN data)))%Q.
Proof.
  intros Hdata.
  replace (map (Some ∘ snd) (iloc_from topN data))
    with (map Some (map snd (iloc_from topN data)))
    by (by rewrite map_map).
  apply nansum_nonneg, Forall_fmap. unfold iloc_from. by apply Forall_drop.
Qed.

Lemma topN_collapse_total (data : list (string * Q)) (topN : Z) :
  Forall (λ kv : string * Q, (0 <= kv.2)%Q) data →
  (nansum (map (Some ∘ snd) (topN_collapse data topN))
   == nansum (map (Some ∘ snd) data))%Q.
Proof.
  intros Hdata. pose proof (others_sum_nonneg data topN Hdata) as Hge.
  unfold topN_collapse. cbv zeta.
  transitivity
    (nansum (map (Some ∘ snd) (head_n topN data ++ iloc_from topN data)%list));
    [|unfold head_n, iloc_from; by rewrite take_drop].
  rewrite !map_app, !nansum_app. apply Qplus_comp; [done|].
  destruct (Qltb 0 _) eqn:E; cbn.
  - unfold nansum at 1. cbn. by rewrite Qplus_0_r.
  - apply Qle_antisym; [done|]. apply Qnot_lt_le.
    intros Hlt%Qltb_lt. congruence.
Qed.

(** X19.  The slices of the expense pie add up to the total of all
    Sources, the number written in the middle of the pie, whatever the
    number of slices asked for: what the top slices leave out is in the
    Others slice, and there is no Others slice only when nothing is left
    out. *)
Theorem expense_pie_total (exp_df : Ledger) (topN : Z) :
  let data := sort_descending (source_sums exp_df) in
  (nansum (map (Some ∘ snd) (Graph.expense_pie_topN exp_df topN))
   == nansum (map (Some ∘ snd) data))%Q.
Proof.
  cbv zeta. rewrite expense_pie_topN_collapse.
  apply topN_collapse_total, source_sums_sorted_nonneg.
Qed.

(** X20.  When the pie is asked for at least as many slices as there
    are Sources, it shows every Source with its own slice, largest
    first, and no Others slice. *)
Theorem expense_pie_covers_all (exp_df : Ledger) (topN : Z) :
  Z.of_nat (length (source_sums exp_df)) ≤ topN →
  Graph.expense_pie_topN exp_df topN = sort_descending (source_sums exp_df).
Proof.
  intros Hlen. rewrite expense_pie_topN_collapse. unfold topN_collapse.
  cbv zeta. unfold head_n, iloc_from, slice_stop.
  assert (length (sort_descending (source_sums exp_df))
          = length (source_sums exp_df)) as Hl
    by (by rewrite sort_descending_Permutation).
  destruct (Z.ltb_spec topN 0) as [Hneg|Hpos]; [lia|].
  rewrite take_ge, drop_ge by lia. cbn. by rewrite app_nil_r.
Qed.

Lemma expense_pie_covers_all_witness :
  Z.of_nat (length (source_sums five_sources)) ≤ 5
  ∧ Graph.expense_pie_topN five_sources 5
    = sort_descending (source_sums five_sources).
Proof.
  assert (Z.of_nat (length (source_sums five_sources)) ≤ 5) as H
    by (vm_compute; discriminate).
  split; [exact H|exact (expense_pie_covers_all _ _ H)].
Defined.

Lemma Qge_trans : Transitive (λ x y : string * Q, (y.2 <= x.2)%Q).
Proof. intros x y z Hxy Hyz. by eapply Qle_trans. Qed.

Lemma expense_pie_named_rows (exp_df : Ledger) (topN : Z) :
  take (slice_stop topN (length (source_sums exp_df)))
       (Graph.expense_pie_topN exp_df topN)
  = head_n topN (sort_descending (source_sums exp_df)).
Proof.
  rewrite expense_pie_topN_collapse. unfold topN_collapse. cbv zeta.
  assert (length (sort_descending (source_sums exp_df))
          = length (source_sums exp_df)) as Hlen
    by (by rewrite sort_descending_Permutation).
  unfold head_n, iloc_from. rewrite Hlen.
  set (k := slice_stop topN (length (source_sums exp_df))).
  set (data := sort_descending (source_sums exp_df)) in *.
  destruct (decide (k ≤ length data)%nat) as [Hk|Hk].
  - apply take_app_length'. by rewrite length_take_le.
  - rewrite (drop_ge data k) by lia. cbn. rewrite app_nil_r.
    apply take_ge. rewrite length_take. lia.
Qed.

(** X21.  The rows of the pie's table that stand for a Source of their
    own, that is all rows but an Others row, hold the largest Sources:
    no Source that is left out of them has a larger sum than a Source
    among them. *)
Theorem expense_pie_top_largest (exp_df : Ledger) (topN : Z)
    (x y : string * Q) :
  x ∈ take (slice_stop topN (length (source_sums exp_df)))
           (Graph.expense_pie_topN exp_df topN) →
  y ∈ source_sums exp_df →
  y ∉ take (slice_stop topN (length (source_sums exp_df)))
           (Graph.expense_pie_topN exp_df topN) →
  (y.2 <= x.2)%Q.
Proof.
  rewrite expense_pie_named_rows. unfold head_n.
  intros Hx Hy Hny.
  pose proof (sort_descending_Sorted (source_sums exp_df)) as Hs.
  apply (@Sorted_StronglySorted _ _ Qge_trans) in Hs.
  rewrite <- (sort_descending_Permutation (source_sums exp_df)) in Hy.
  rewrite <- (take_drop
                (slice_stop topN (length (sort_descending (source_sums exp_df))))
                (sort_descending (source_sums exp_df))) in Hs, Hy.
  apply elem_of_app in Hy as [Hy|Hy]; [done|].
  by apply (StronglySorted_app_1_elem_of _ _ _ _ _ Hs).
Qed.

Lemma expense_pie_top_largest_witness :
  ("Food", 60%Q)
    ∈ take (slice_stop 3 (length (source_sums five_sources)))
           (Graph.expense_pie_topN five_sources 3)
  ∧ ("Books", 40%Q) ∈ source_sums five_sources
  ∧ (("Books", 40%Q)
       ∉ take (slice_stop 3 (length (source_sums five_sources)))
              (Graph.expense_pie_topN five_sources 3))
  ∧ (("Books", 40%Q).2 <= ("Food", 60%Q).2)%Q.
Proof.
  assert (("Food", 60%Q)
            ∈ take (slice_stop 3 (length (source_sums five_sources)))
                   (Graph.expense_pie_topN five_sources 3))
    as Hx by (vm_compute; do 2 right; left).
  assert (("Books", 40%Q) ∈ source_sums five_sources)
    as Hy by (vm_compute; left).
  assert (("Books", 40%Q)
            ∉ take (slice_stop 3 (length (source_sums five_sources)))
                   (Graph.expense_pie_topN five_sources 3)) as Hny.
  { vm_compute. intros H.
    repeat (apply elem_of_cons in H as [H|H]; [discriminate H|]).
    by apply elem_of_nil in H. }
  split; [exact Hx|]. split; [exact Hy|]. split; [exact Hny|].
  exact (expense_pie_top_largest five_sources 3 _ _ Hx Hy Hny).
Defined.

(** ** The metrics of the dashboard *)

Lemma filter_none {A} (P : A → Prop) `{∀ x, Decision (P x)} (l : list A) :
  (∀ x, x ∈ l → ¬ P x) → filter P l = [].
Proof.
  induction l as [|x l IH]; intros Hl; [done|].
  rewrite filter_cons_False by (apply Hl; left).
  apply IH. intros y Hy. apply Hl. by right.
Qed.

Lemma record_totals_Some (df : Ledger) (k : string) (v : Q) :
  record_totals df !! k = Some v ↔
  (∃ e, e ∈ df ∧ Nature_of_Record e = Some k)
  ∧ v = nansum (map Amount (filter (λ e, Nature_of_Record e = Some k) df)).
Proof.
  unfold record_totals. rewrite <- elem_of_list_to_map.
  - apply elem_of_groupby_sum.
  - change (NoDup (map fst (groupby_sum String.leb Nature_of_Record df))).
    rewrite fst_groupby_sum. apply NoDup_group_keys.
Qed.

(** X22.  The expense ratio of the dashboard is computed exactly when
    the selected entries hold at least one Expense and at least one
    Income; with none of either the division meets None and the script
    stops with a TypeError. *)
Theorem expense_ratio_returns_iff (filtered_df : Ledger) :
  is_Some (expense_ratio filtered_df) ↔
  (∃ e, e ∈ filtered_df ∧ Nature_of_Record e = Some "Expense")
  ∧ (∃ e, e ∈ filtered_df ∧ Nature_of_Record e = Some "Income").
Proof.
  unfold expense_ratio. cbv zeta. split.
  - intros [v Hv].
    destruct (record_totals filtered_df !! "Expense") as [x|] eqn:Ex;
      cbn [mbind option_bind] in Hv; [|done].
    destruct (record_totals filtered_df !! "Income") as [i|] eqn:Ei;
      cbn [mbind option_bind] in Hv; [|done].
    apply record_totals_Some in Ex as [Hx _].
    apply record_totals_Some in Ei as [Hi _]. done.
  - intros [Hx Hi].
    assert (is_Some (record_totals filtered_df !! "Expense")) as [x ->]
      by (eexists; apply record_totals_Some; done).
    assert (is_Some (record_totals filtered_df !! "Income")) as [i ->]
      by (eexists; apply record_totals_Some; done).
    by eexists.
Qed.

(** ** The legs of the transfers in the ledger *)

Lemma omap_all_None {A B} (f : A → option B) (l : list A) :
  Forall (λ x, f x = None) l → omap f l = [].
Proof. induction 1 as [|x l Hx _ IH]; [done|]. cbn. by rewrite Hx. Qed.

Lemma omap_Forall2_Some {A B C} (f : A → C) (g : B → option C)
    (l : list A) (k : list B) :
  Forall2 (λ x y, g y = Some (f x)) l k → omap g k = map f l.
Proof. induction 1 as [|x y l k Hxy _ IH]; [done|]. cbn. by rewrite Hxy, IH. Qed.

Lemma omap_map {A B C} (f : B → option C) (g : A → B) (l : list A) :
  omap f (map g l) = omap (λ x, f (g x)) l.
Proof. induction l as [|x l IH]; [done|]. cbn. by rewrite IH. Qed.

Lemma enforce_row_amount `{Coercions} (r : Row) (e : LedgerEntry) (l : string) :
  enforce_row r = Some e →
  (if decide (Nature_of_Record e = Some l) then Some (Amount e) else None)
  = labelled_amount l r.
Proof.
  unfold enforce_row, labelled_amount, getitem, amount_cell, nature_cell.
  intros He.
  destruct (r !! "Timestamp") as [t|]; [|done].
  destruct (r !! "Nature of Record") as [n|]; [|done].
  destruct (r !! "Amount") as [a|]; [|done].
  destruct (r !! "Account") as [c|]; [|done].
  destruct (r !! "Source") as [s|]; [|done].
  destruct (r !! "Description") as [d|]; [|done].
  cbn in He. by injection He as <-.
Qed.

Lemma ledger_label_amounts `{Coercions} (fin : DataFrame) (ledger : Ledger)
    (l : string) :
  Forall2 (λ r e, enforce_row r = Some e) fin ledger →
  map Amount (filter (λ e, Nature_of_Record e = Some l) ledger)
  = omap (labelled_amount l) fin.
Proof.
  induction 1 as [|r e fin ledger Hr _ IH]; [done|].
  rewrite filter_cons. cbn [omap list_omap].
  rewrite <- (enforce_row_amount _ _ l Hr).
  destruct (decide (Nature_of_Record e = Some l)); cbn; by rewrite IH.
Qed.

Lemma labelled_amount_canonical `{Coercions} (l : string) (r : Row) :
  labelled_amount l (canonical_part r) = labelled_amount l r.
Proof.
  unfold labelled_amount, amount_cell, nature_cell.
  by rewrite !canonical_part_lookup by compute_done.
Qed.

Lemma expense_leg_amounts `{Coercions} (r o : Row) :
  expense_leg r = Some o →
  negatable (r !! "Amount") = true
  ∧ labelled_amount "Transfer-Out" o = Some (Qopp <$> amount_number r)
  ∧ labelled_amount "Transfer-In" o = None.
Proof.
  intros (a & s & c & Ha & Hneg & _ & _ & ->)%expense_leg_Some.
  unfold labelled_amount, amount_cell, nature_cell, amount_number.
  rewrite lookup_insert_eq, !lookup_insert_ne, lookup_insert_eq by done.
  rewrite Ha. split; [done|]. cbn. by destruct a.
Qed.

Lemma income_leg_amounts `{Coercions} (r n : Row) :
  income_leg r = Some n →
  negatable (r !! "Amount") = true →
  labelled_amount "Transfer-In" n = Some (amount_number r)
  ∧ labelled_amount "Transfer-Out" n = None.
Proof.
  intros [_ ->]%income_leg_Some Hneg.
  unfold labelled_amount, amount_cell, nature_cell, amount_number.
  rewrite lookup_insert_eq, !lookup_insert_ne by done. cbn.
  by destruct (r !! "Amount") as [[]|].
Qed.

Lemma no_leg_label_amounts `{Coercions} (r : Row) :
  no_leg_label (nature_cell r) = true →
  labelled_amount "Transfer-In" r = None
  ∧ labelled_amount "Transfer-Out" r = None.
Proof.
  unfold labelled_amount. destruct (nature_cell r) as [|q|s|t]; try done.
  cbn. intros [Hin Hout]%andb_prop.
  apply negb_true_iff, String.eqb_neq in Hin, Hout.
  rewrite !decide_False by congruence. done.
Qed.

(** X23.  For a sheet whose rows are not themselves labelled as legs
    of a transfer, the two legs pair up in the ledger the pipeline
    produces: the Amounts of the Transfer-Out entries are, up to their
    order, the Amounts of the Transfer-In entries with the sign
    changed.  No Amount is added here, so this holds of the numbers as
    they are stored. *)
Theorem run_transfer_legs_paired `{Coercions} (raw : DataFrame)
    (ledger : Ledger) :
  Forall (λ r, no_leg_label (nature_cell r) = true) raw →
  run raw = Some ledger →
  map Amount (filter (λ e, Nature_of_Record e = Some "Transfer-Out") ledger)
  ≡ₚ map (fmap Qopp)
         (map Amount
              (filter (λ e, Nature_of_Record e = Some "Transfer-In") ledger)).
Proof.
  intros Hraw (comb & df & fin & Hc & Hs & Hf & He)%run_Some.
  rewrite !(ledger_label_amounts _ _ _ He).
  apply finalise_schema_Some in Hf as [_ Hf].
  apply sort_values_Some in Hf as (_ & Hperm & _).
  assert (∀ l, omap (labelled_amount l) fin
               ≡ₚ omap (labelled_amount l) df) as Hfin.
  { intros l. rewrite Hperm, omap_map.
    erewrite list_omap_ext; [done|]. apply Forall2_same_length_lookup.
    split; [done|]. intros i x y Hx Hy.
    assert (x = y) as -> by congruence.
    apply labelled_amount_canonical. }
  rewrite !Hfin.
  apply split_transfers_Some in Hs as (outs & ins & -> & Ho & Hi).
  assert (Forall (λ d, labelled_amount "Transfer-In" d = None
                       ∧ labelled_amount "Transfer-Out" d = None)
                 (non_transfer_rows comb)) as Hnon.
  { apply Forall_forall. intros d [_ Hd]%list_elem_of_filter.
    apply list_elem_of_lookup in Hd as [i Hd].
    destruct (Forall2_lookup_r _ _ _ _ _ Hc Hd) as (r & Hr & Hcomb).
    apply combine_row_keeps in Hcomb as (_ & Hn & _).
    apply no_leg_label_amounts. rewrite Hn.
    rewrite Forall_forall in Hraw.
    by apply Hraw, (list_elem_of_lookup_2 _ i). }
  assert (Forall (λ r, negatable (r !! "Amount") = true) (transfer_rows comb))
    as Hneg.
  { apply (Forall2_Forall_l _ _ _ _ Ho). apply Forall_true.
    intros r o Hleg. by apply expense_leg_amounts in Hleg as [? _]. }
  assert (omap (labelled_amount "Transfer-Out") outs
          = map (λ r, Qopp <$> amount_number r) (transfer_rows comb)
          ∧ omap (labelled_amount "Transfer-In") outs = []) as [Hoo Hoi].
  { split.
    - apply omap_Forall2_Some. eapply Forall2_impl; [exact Ho|].
      intros r o Hleg. by apply expense_leg_amounts in Hleg as (_ & ? & ?).
    - apply omap_all_None. apply (Forall2_Forall_r _ _ _ _ Ho).
      apply Forall_true. intros r o Hleg.
      by apply expense_leg_amounts in Hleg as (_ & ? & ?). }
  assert (Forall2 (λ r n, labelled_amount "Transfer-In" n
                          = Some (amount_number r)
                          ∧ labelled_amount "Transfer-Out" n = None)
                  (transfer_rows comb) ins) as Hins.
  { apply Forall2_same_length_lookup.
    split; [by eapply Forall2_length|]. intros i r n Hr Hn.
    destruct (Forall2_lookup_l _ _ _ _ _ Hi Hr) as (n' & Hn' & Hleg).
    assert (n' = n) as -> by congruence.
    rewrite Forall_forall in Hneg.
    pose proof (Hneg r (list_elem_of_lookup_2 _ _ _ Hr)) as Hr'.
    by apply income_leg_amounts in Hleg. }
  assert (omap (labelled_amount "Transfer-In") ins
          = map amount_number (transfer_rows comb)
          ∧ omap (labelled_amount "Transfer-Out") ins = []) as [Hii Hio].
  { split.
    - apply omap_Forall2_Some. eapply Forall2_impl; [exact Hins|].
      by intros r n [? _].
    - apply omap_all_None. apply (Forall2_Forall_r _ _ _ _ Hins).
      apply Forall_true. by intros r n [_ ?]. }
  rewrite !omap_app, Hoo, Hoi, Hii, Hio.
  rewrite (omap_all_None (labelled_amount "Transfer-In"))
    by (eapply Forall_impl; [exact Hnon|]; by intros d [? _]).
  rewrite (omap_all_None (labelled_amount "Transfer-Out"))
    by (eapply Forall_impl; [exact Hnon|]; by intros d [_ ?]).
  cbn [app]. rewrite !app_nil_r. by rewrite map_map.
Qed.

Lemma run_transfer_legs_paired_witness :
  Forall (λ r, no_leg_label (nature_cell r) = true) [expense_150; transfer_40]
  ∧ ∃ ledger,
      @run parse_nothing [expense_150; transfer_40] = Some ledger
      ∧ map Amount
            (filter (λ e, Nature_of_Record e = Some "Transfer-Out") ledger)
        ≡ₚ map (fmap Qopp)
               (map Amount
                    (filter (λ e, Nature_of_Record e = Some "Transfer-In")
                            ledger)).
Proof.
  assert (Forall (λ r, no_leg_label (nature_cell r) = true)
                 [expense_150; transfer_40]) as Hraw
    by (repeat constructor).
  assert (bool_decide
            (is_Some (@run parse_nothing [expense_150; transfer_40])) = true)
    as [ledger E]%bool_decide_eq_true by (vm_compute; reflexivity).
  split; [exact Hraw|]. exists ledger. split; [exact E|].
  exact (@run_transfer_legs_paired parse_nothing _ _ Hraw E).
Defined.

(** ** What the pipeline needs to return *)

Lemma is_transfer_is_Some (r : Row) :
  is_Some (is_transfer r) ↔ is_Some (r !! "Nature of Record").
Proof.
  unfold is_transfer, getitem.
  destruct (r !! "Nature of Record") as [c|]; cbn; split; intros [? ?];
    done || by eexists.
Qed.

Lemma legs_timestamp (r d : Row) :
  expense_leg r = Some d ∨ income_leg r = Some d →
  d !! "Timestamp" = r !! "Timestamp".
Proof.
  intros [(a & s & c & _ & _ & _ & _ & ->)%expense_leg_Some
         |[_ ->]%income_leg_Some];
    by rewrite !lookup_insert_ne by done.
Qed.

(** Every row of the sheet has a row in the split frame that carries
    its Timestamp. *)
Lemma sheet_rows_split (raw comb df : DataFrame) (r : Row) :
  Forall2 (λ r r', combine_row r = Some r') raw comb →
  _split_transfers comb = Some df →
  r ∈ raw →
  ∃ d, d ∈ df ∧ d !! "Timestamp" = r !! "Timestamp".
Proof.
  intros Hc Hs Hr.
  apply list_elem_of_lookup in Hr as [i Hr].
  destruct (Forall2_lookup_l _ _ _ _ _ Hc Hr) as (r' & Hr' & Hcomb).
  apply list_elem_of_lookup_2 in Hr'.
  pose proof (combine_row_Some _ _ Hcomb) as (_ & _ & _ & _ & _ & Hk).
  rewrite <- (Hk "Timestamp") by compute_done.
  apply split_transfers_Some in Hs as (outs & ins & -> & Ho & _).
  destruct (decide (is_transfer r' = Some true)) as [Ht|Ht].
  - assert (r' ∈ transfer_rows comb) as [j Hj]%list_elem_of_lookup
      by (by apply list_elem_of_filter).
    destruct (Forall2_lookup_l _ _ _ _ _ Ho Hj) as (o & Ho' & Hleg).
    exists o. split.
    + rewrite !elem_of_app. right. left. by eapply list_elem_of_lookup_2.
    + by apply (legs_timestamp r' o (or_introl Hleg)).
  - exists r'. split; [|done]. rewrite elem_of_app. left.
    by apply list_elem_of_filter.
Qed.

Lemma timestamp_cell_eq (d r : Row) :
  d !! "Timestamp" = r !! "Timestamp" → timestamp_cell d = timestamp_cell r.
Proof. unfold timestamp_cell. by intros ->. Qed.

(** X24.  The pipeline returns a ledger only for sheets in which
    every row carries the columns of the four families, a Timestamp and
    a label, holds a number or nothing in the two Amount cells whose
    sign is flipped and, when it is a Transfer row, in the Amount that
    the coalescer picks, and in which all Timestamps that are not null
    are values of one type.  On a sheet that breaks one of these
    conditions it raises. *)
Theorem run_returns_only_if `{Coercions} (raw : DataFrame) (ledger : Ledger) :
  run raw = Some ledger →
  Forall (λ r : Row,
    wide_ok r = true
    ∧ is_Some (r !! "Timestamp")
    ∧ is_Some (r !! "Nature of Record")
    ∧ (is_transfer r = Some true →
       negatable (Some (first_valid (signed_amounts r))) = true)) raw
  ∧ ∀ r1 r2 : Row, r1 ∈ raw → r2 ∈ raw →
      isna (timestamp_cell r1) = false →
      isna (timestamp_cell r2) = false →
      kind_of (timestamp_cell r1) = kind_of (timestamp_cell r2).
Proof.
  intros (comb & df & fin & Hc & Hs & Hf & He)%run_Some. split.
  - apply Forall_forall. intros r Hr.
    destruct (sheet_rows_split _ _ _ _ Hc Hs Hr) as (d & Hd & Hts).
    apply list_elem_of_lookup in Hr as [i Hr].
    destruct (Forall2_lookup_l _ _ _ _ _ Hc Hr) as (r' & Hr' & Hcomb).
    apply list_elem_of_lookup_2 in Hr'.
    pose proof (combine_row_Some _ _ Hcomb) as (Hw & Ha & _).
    pose proof (combine_row_keeps _ _ Hcomb) as (_ & _ & Ht).
    pose proof (split_transfers_domain _ _ Hs) as Hok.
    rewrite Forall_forall in Hok. specialize (Hok _ Hr').
    unfold split_ok in Hok. rewrite Ht in Hok.
    split; [done|]. split; [|split].
    + rewrite <- Hts.
      apply finalise_schema_Some in Hf as [Hpres _].
      rewrite Forall_forall in Hpres. specialize (Hpres _ Hd).
      rewrite Forall_forall in Hpres. apply Hpres. compute_done.
    + apply is_transfer_is_Some.
      by destruct (is_transfer r) as [b|]; [eexists|].
    + intros Htrue. rewrite Htrue, Ha in Hok.
      by apply andb_prop in Hok as [[? _]%andb_prop _].
  - intros r1 r2 H1 H2.
    destruct (sheet_rows_split _ _ _ _ Hc Hs H1)
      as (d1 & Hd1 & <-%timestamp_cell_eq).
    destruct (sheet_rows_split _ _ _ _ Hc Hs H2)
      as (d2 & Hd2 & <-%timestamp_cell_eq).
    by apply (finalise_schema_kinds df fin).
Qed.

Lemma run_returns_only_if_witness :
  ∃ ledger,
    @run parse_nothing [expense_150; transfer_40] = Some ledger
    ∧ Forall (λ r : Row,
        wide_ok r = true
        ∧ is_Some (r !! "Timestamp")
        ∧ is_Some (r !! "Nature of Record")
        ∧ (is_transfer r = Some true →
           negatable (Some (first_valid (signed_amounts r))) = true))
        [expense_150; transfer_40]
    ∧ ∀ r1 r2 : Row, r1 ∈ [expense_150; transfer_40] →
        r2 ∈ [expense_150; transfer_40] →
        isna (timestamp_cell r1) = false →
        isna (timestamp_cell r2) = false →
        kind_of (timestamp_cell r1) = kind_of (timestamp_cell r2).
Proof.
  assert (bool_decide
            (is_Some (@run parse_nothing [expense_150; transfer_40])) = true)
    as [ledger E]%bool_decide_eq_true by (vm_compute; reflexivity).
  exists ledger. split; [exact E|].
  exact (@run_returns_only_if parse_nothing _ _ E).
Defined.

(** ** The balance over time *)

Lemma String_leb_trans (s1 s2 s3 : string) :
  String.leb s1 s2 = true → String.leb s2 s3 = true → String.leb s1 s3 = true.
Proof.
  unfold String.leb. intros H12 H23.
  destruct (String.compare s1 s2) eqn:E12; [|clear H12|done].
  { apply String.compare_eq_iff in E12 as ->. done. }
  destruct (String.compare s2 s3) eqn:E23; [|clear H23|done].
  { apply String.compare_eq_iff in E23 as <-. by rewrite E12. }
  apply OrderedTypeEx.String_as_OT.cmp_lt in E12, E23.
  pose proof (OrderedTypeEx.String_as_OT.lt_trans _ _ _ E12 E23) as E13.
  apply OrderedTypeEx.String_as_OT.cmp_lt in E13.
  unfold OrderedTypeEx.String_as_OT.cmp in E13. by rewrite E13.
Qed.

Lemma datetime_leb_trans (t u v : datetime) :
  datetime_leb t u = true → datetime_leb u v = true → datetime_leb t v = true.
Proof.
  unfold datetime_leb. destruct t, u, v; cbn.
  repeat match goal with
         | |- context [Z.eqb ?a ?b] => destruct (Z.eqb_spec a b)
         end;
    rewrite ?Z.ltb_lt, ?Z.leb_le; lia.
Qed.

Lemma datetime_leb_antisym (t u : datetime) :
  datetime_leb t u = true → datetime_leb u t = true → t = u.
Proof.
  unfold datetime_leb. destruct t, u; cbn.
  repeat match goal with
         | |- context [Z.eqb ?a ?b] => destruct (Z.eqb_spec a b)
         end;
    rewrite ?Z.ltb_lt, ?Z.leb_le; intros; try lia.
  f_equal; lia.
Qed.

Section option_leb_lemmas.
Context {A : Type} (leb : A → A → bool).
Hypothesis leb_total : ∀ x y, leb x y = true ∨ leb y x = true.
Hypothesis leb_trans :
  ∀ x y z, leb x y = true → leb y z = true → leb x z = true.
Hypothesis leb_antisym : ∀ x y, leb x y = true → leb y x = true → x = y.

Lemma option_leb_total (x y : option A) :
  option_leb leb x y = true ∨ option_leb leb y x = true.
Proof. destruct x, y; cbn; auto. Qed.

Lemma option_leb_trans (x y z : option A) :
  option_leb leb x y = true → option_leb leb y z = true →
  option_leb leb x z = true.
Proof. destruct x, y, z; cbn; try done. apply leb_trans. Qed.

Lemma option_leb_antisym (x y : option A) :
  option_leb leb x y = true → option_leb leb y x = true → x = y.
Proof.
  destruct x, y; cbn; try done. intros H1 H2. f_equal. by apply leb_antisym.
Qed.

End option_leb_lemmas.

Lemma account_timestamp_leb_total (e1 e2 : LedgerEntry) :
  account_timestamp_leb e1 e2 = true ∨ account_timestamp_leb e2 e1 = true.
Proof.
  unfold account_timestamp_leb.
  destruct (decide (Account e1 = Account e2)) as [Heq|Hne].
  - rewrite decide_True by done.
    apply option_leb_total, datetime_leb_total.
  - rewrite decide_False by done.
    apply option_leb_total, String.leb_total.
Qed.

Lemma account_timestamp_leb_trans (e1 e2 e3 : LedgerEntry) :
  account_timestamp_leb e1 e2 = true → account_timestamp_leb e2 e3 = true →
  account_timestamp_leb e1 e3 = true.
Proof.
  unfold account_timestamp_leb.
  destruct (decide (Account e1 = Account e2)) as [E12|N12],
           (decide (Account e2 = Account e3)) as [E23|N23].
  - rewrite decide_True by congruence.
    apply option_leb_trans, datetime_leb_trans.
  - rewrite decide_False by congruence. rewrite E12. auto.
  - rewrite decide_False by congruence. rewrite E23. auto.
  - intros H12 H23. destruct (decide (Account e1 = Account e3)) as [E13|N13].
    + rewrite <- E13 in H23. destruct N12.
      by apply (option_leb_antisym String.leb String.leb_antisym).
    + by apply (option_leb_trans String.leb String_leb_trans _ (Account e2)).
Qed.

Section stable_sort_lemmas.
Context {A : Type} (leb : A → A → bool).

Lemma insert_sorted_Permutation (x : A) (l : list A) :
  insert_sorted leb x l ≡ₚ x :: l.
Proof.
  induction l as [|y l IH]; cbn; [done|].
  destruct (leb x y); [done|]. rewrite IH. apply Permutation_swap.
Qed.

Lemma stable_sort_Permutation (l : list A) : stable_sort leb l ≡ₚ l.
Proof.
  unfold stable_sort. induction l as [|x l IH]; cbn; [done|].
  by rewrite insert_sorted_Permutation, IH.
Qed.

Hypothesis leb_total : ∀ x y, leb x y = true ∨ leb y x = true.
Hypothesis leb_trans :
  ∀ x y z, leb x y = true → leb y z = true → leb x z = true.

Lemma insert_sorted_StronglySorted (x : A) (l : list A) :
  StronglySorted (λ a b, leb a b = true) l →
  StronglySorted (λ a b, leb a b = true) (insert_sorted leb x l).
Proof.
  induction 1 as [|y l Hl IH Hy]; cbn.
  { repeat constructor. }
  destruct (leb x y) eqn:Hxy.
  - constructor; [by constructor|]. constructor; [done|].
    eapply Forall_impl; [exact Hy|]. intros z Hz. by eapply leb_trans.
  - constructor; [done|]. rewrite insert_sorted_Permutation.
    constructor; [|done]. destruct (leb_total x y); congruence.
Qed.

Lemma stable_sort_StronglySorted (l : list A) :
  StronglySorted (λ a b, leb a b = true) (stable_sort leb l).
Proof.
  unfold stable_sort. induction l as [|x l IH]; cbn; [constructor|].
  by apply insert_sorted_StronglySorted.
Qed.

End stable_sort_lemmas.

Lemma length_groupby_cumsum (sums : gmap string Q) (l : Ledger) :
  length (groupby_cumsum sums l) = length l.
Proof.
  revert sums. induction l as [|e l IH]; intros sums; cbn; [done|].
  destruct (Account e), (Amount e); cbn; by rewrite IH.
Qed.

Lemma nansum_filter_one (a : string) (x : LedgerEntry) :
  (nansum (map Amount (filter (λ y, Account y = Some a) [x]))
   == if decide (Account x = Some a) then default 0 (Amount x) else 0)%Q.
Proof.
  destruct (decide (Account x = Some a)) as [Ha|Ha].
  - rewrite filter_cons_True, filter_nil by done.
    unfold nansum. cbn. destruct (Amount x); cbn; ring.
  - rewrite filter_cons_False, filter_nil by done. done.
Qed.

(** The Balance of a row is the sum of the Amounts of its Account in
    the rows up to it. *)
Lemma groupby_cumsum_lookup (sums : gmap string Q) (l : Ledger)
    (j : nat) (e : LedgerEntry) (b : Q) :
  l !! j = Some e →
  groupby_cumsum sums l !! j = Some (Some b) →
  ∃ a, Account e = Some a
    ∧ (b == default 0 (sums !! a)
            + nansum (map Amount (filter (λ x, Account x = Some a)
                                         (take (S j) l))))%Q.
Proof.
  revert sums j. induction l as [|x l IH]; intros sums j Hj Hb; [done|].
  destruct j as [|j].
  - injection Hj as ->. cbn in Hb.
    destruct (Account e) as [a|] eqn:Ha; [|done].
    destruct (Amount e) as [q|] eqn:Hq; [|done].
    injection Hb as <-. exists a. split; [done|].
    change (take 1 (e :: l)) with [e].
    rewrite nansum_filter_one, decide_True, Hq by done. done.
  - cbn in Hj.
    assert (∃ sums',
              groupby_cumsum sums' l !! j = Some (Some b)
              ∧ ∀ a, (default 0 (sums' !! a)
                      == default 0 (sums !! a)
                         + nansum (map Amount
                             (filter (λ y, Account y = Some a) [x])))%Q)
      as (sums' & Hb' & Hsums).
    { cbn in Hb. destruct (Account x) as [a'|] eqn:Ha'.
      - destruct (Amount x) as [q'|] eqn:Hq'.
        + eexists. split; [exact Hb|]. intros a.
          rewrite nansum_filter_one, Ha', Hq'.
          destruct (decide (a' = a)) as [->|Hne].
          * rewrite lookup_insert_eq, decide_True by done. done.
          * rewrite lookup_insert_ne, decide_False by congruence. cbn. ring.
        + exists sums. split; [exact Hb|]. intros a.
          rewrite nansum_filter_one, Hq'. destruct (decide _); cbn; ring.
      - exists sums. split; [exact Hb|]. intros a.
        rewrite nansum_filter_one, decide_False by (rewrite Ha'; done). ring. }
    destruct (IH sums' j Hj Hb') as (a & Ha & Hsum).
    exists a. split; [done|]. rewrite Hsum, Hsums.
    change (take (S (S j)) (x :: l)) with ([x] ++ take (S j) l)%list.
    rewrite filter_app, map_app, nansum_app. ring.
Qed.

Lemma elem_of_loc_mask {A} (l : list A) (mask : list bool) (x : A) :
  x ∈ loc_mask l mask → x ∈ l.
Proof.
  revert mask. induction l as [|y l IH]; intros [|b mask]; cbn;
    try (by intros ?%elem_of_nil).
  destruct b.
  - intros [->|Hx]%elem_of_cons; [by left|]. right. by eapply IH.
  - intros Hx. right. by eapply IH.
Qed.

Lemma sort_timestamps_Permutation {A} (timestamp : A → option datetime)
    (df : list A) :
  sort_timestamps timestamp df ≡ₚ df.
Proof.
  unfold sort_timestamps. cbv zeta. rewrite merge_sort_Permutation.
  by apply List_filter_partition.
Qed.

Lemma lookup_labelled (df : Ledger) (i : nat) (e : LedgerEntry) :
  (i, e) ∈ zip (seq 0 (length df)) df → df !! i = Some e.
Proof.
  intros [k Hk]%list_elem_of_lookup.
  apply lookup_zip_with_Some in Hk as (i' & e' & [= <- <-] & Hi & He).
  apply lookup_seq in Hi as [-> _]. done.
Qed.

(** Where a row of the chart's frame comes from: a row of the frame
    sorted by Account and Timestamp, with the Balance computed there. *)
Lemma balance_overtime_rows (df : Ledger) (mask : list bool)
    (out : list (LedgerEntry * option Q)) (e : LedgerEntry) (b : option Q) :
  Graph.balance_overtime_graph df mask = Some out →
  (e, b) ∈ out →
  let sorted :=
    stable_sort (λ r1 r2 : nat * LedgerEntry,
                   account_timestamp_leb r1.2 r2.2)
                (zip (seq 0 (length df)) df) in
  ∃ j i, sorted !! j = Some (i, e)
         ∧ groupby_cumsum ∅ (map snd sorted) !! j = Some b.
Proof.
  unfold Graph.balance_overtime_graph. cbv zeta. intros Hout He.
  destruct (mapM _ _) as [selected|]; cbn [mbind option_bind] in Hout; [|done].
  injection Hout as <-.
  apply list_elem_of_fmap in He as ([[i e'] b'] & [= <- <-] & Hr).
  rewrite sort_timestamps_Permutation in Hr.
  apply elem_of_loc_mask, list_elem_of_lookup in Hr as [j Hj].
  apply lookup_zip_with_Some in Hj as (r & b'' & [= <- <-] & Hs & Hb).
  by exists j, i.
Qed.

Lemma filter_ext_elem {A} (P Q : A → Prop) `{∀ x, Decision (P x)}
    `{∀ x, Decision (Q x)} (l : list A) :
  (∀ x, x ∈ l → P x ↔ Q x) → filter P l = filter Q l.
Proof.
  induction l as [|x l IH]; intros Hl; [done|].
  rewrite !filter_cons, IH by (intros y Hy; apply Hl; by right).
  destruct (decide (P x)) as [Hp|Hp], (decide (Q x)) as [Hq|Hq]; try done.
  - destruct Hq. apply Hl; [left|done].
  - destruct Hp. apply Hl; [left|done].
Qed.

(** X26.  Every point of the balance-over-time chart shows the running
    balance of its account over the whole ledger, whatever the mask
    leaves out: for an entry that is the only one of its account at its
    time, the Balance is the sum of all Amounts booked on that account up
    to that time. *)
Theorem balance_overtime_running (df : Ledger) (mask : list bool)
    (out : list (LedgerEntry * option Q)) (e : LedgerEntry)
    (a : string) (t : datetime) (b : Q) :
  Graph.balance_overtime_graph df mask = Some out →
  (e, Some b) ∈ out →
  Account e = Some a →
  Timestamp e = Some t →
  (∀ i j e1 e2, df !! i = Some e1 → df !! j = Some e2 →
     Account e1 = Some a → Account e2 = Some a →
     Timestamp e1 = Some t → Timestamp e2 = Some t → i = j) →
  (b == nansum (map Amount
          (filter (λ x, Account x = Some a
                        ∧ option_leb datetime_leb (Timestamp x) (Some t) = true)
                  df)))%Q.
Proof.
  intros Hout Hin Ha Ht Huniq.
  destruct (balance_overtime_rows _ _ _ _ _ Hout Hin) as (j & i & Hj & Hb).
  set (rows := zip (seq 0 (length df)) df) in *.
  set (sorted := stable_sort (λ r1 r2 : nat * LedgerEntry,
                                account_timestamp_leb r1.2 r2.2) rows) in *.
  assert (sorted ≡ₚ rows) as Hperm by apply stable_sort_Permutation.
  assert (StronglySorted (λ r1 r2 : nat * LedgerEntry,
                            account_timestamp_leb r1.2 r2.2 = true) sorted)
    as Hsorted.
  { apply (stable_sort_StronglySorted
             (λ r1 r2 : nat * LedgerEntry, account_timestamp_leb r1.2 r2.2)).
    - intros x y. apply account_timestamp_leb_total.
    - intros x y z. apply account_timestamp_leb_trans. }
  assert (map snd sorted !! j = Some e) as Hje
    by (change (map snd sorted) with (snd <$> sorted);
        by rewrite list_lookup_fmap, Hj).
  destruct (groupby_cumsum_lookup _ _ _ _ _ Hje Hb) as (a' & Ha' & Hsum).
  assert (a' = a) as -> by congruence.
  rewrite lookup_empty in Hsum. cbn in Hsum. rewrite Qplus_0_l in Hsum.
  rewrite Hsum. clear Hsum Hb.
  assert (map snd rows = df) as Hrows.
  { change (map snd rows) with (rows.*2). unfold rows.
    apply snd_zip. by rewrite length_seq. }
  assert (map fst rows = seq 0 (length df)) as Hlabels.
  { change (map fst rows) with (rows.*1). unfold rows.
    apply fst_zip. by rewrite length_seq. }
  assert (∀ i' x, (i', x) ∈ sorted → df !! i' = Some x) as Hlookup.
  { intros i' x Hx. apply lookup_labelled. fold rows. by rewrite <- Hperm. }
  assert (NoDup (map fst sorted)) as Hnodup.
  { change (NoDup (fst <$> sorted)). rewrite Hperm.
    change (NoDup (map fst rows)). rewrite Hlabels. apply NoDup_seq. }
  pose proof (take_drop_middle _ _ _ Hj) as Hmid.
  set (l1 := take j sorted) in *. set (l2 := drop (S j) sorted) in *.
  assert (take (S j) (map snd sorted) = (map snd l1 ++ [e])%list) as Htake.
  { change (map snd sorted) with (snd <$> sorted).
    rewrite <- fmap_take, (take_S_r _ _ _ Hj), fmap_app. done. }
  rewrite Htake.
  rewrite <- Hmid in Hsorted, Hnodup, Hlookup.
  assert (∀ r, r ∈ l1 → account_timestamp_leb r.2 e = true) as Hbefore.
  { intros r Hr.
    apply (StronglySorted_app_1_elem_of _ _ _ r (i, e) Hsorted);
      [done|by left]. }
  assert (∀ r, r ∈ l2 → account_timestamp_leb e r.2 = true) as Hafter.
  { intros r Hr. apply StronglySorted_app_1_r in Hsorted.
    apply StronglySorted_inv in Hsorted as [_ Hall].
    rewrite Forall_forall in Hall. by apply (Hall r). }
  assert (i ∉ map fst l2) as Hil2.
  { change (map fst (l1 ++ (i, e) :: l2)%list)
      with (fst <$> (l1 ++ (i, e) :: l2)%list) in Hnodup.
    rewrite fmap_app, fmap_cons in Hnodup.
    apply NoDup_app in Hnodup as (_ & _ & Hnd).
    by apply NoDup_cons in Hnd as [? _]. }
  rewrite (nansum_Permutation
             (map Amount (filter _ df))
             (map Amount (filter (λ x, Account x = Some a
                                       ∧ option_leb datetime_leb (Timestamp x)
                                                    (Some t) = true)
                                 (map snd (l1 ++ (i, e) :: l2))))).
  2: { apply Permutation_map.
       apply (filter_Permutation _). rewrite Hmid, <- Hrows.
       apply Permutation_map. by symmetry. }
  rewrite map_app. cbn [map snd].
  change (map snd l1 ++ e :: map snd l2)%list
    with (map snd l1 ++ [e] ++ map snd l2)%list.
  rewrite app_assoc, (filter_app _ (map snd l1 ++ [e])%list (map snd l2)).
  rewrite (filter_none _ (map snd l2)), app_nil_r.
  - erewrite (filter_ext_elem _ _ (map snd l1 ++ [e])%list); [done|].
    intros x Hx. split; [|by intros [? _]]. intros Hax. split; [done|].
    apply elem_of_app in Hx as [Hx|Hx].
    + apply list_elem_of_fmap in Hx as (r & -> & Hr).
      specialize (Hbefore r Hr). unfold account_timestamp_leb in Hbefore.
      rewrite decide_True in Hbefore by congruence. by rewrite <- Ht.
    + apply list_elem_of_singleton in Hx as ->. rewrite Ht. cbn.
      by destruct (datetime_leb_total t t).
  - intros y Hy [Hay Hty].
    apply list_elem_of_fmap in Hy as ([i' y'] & -> & Hr). cbn in Hay, Hty.
    pose proof (Hafter _ Hr) as Hle. cbn in Hle.
    unfold account_timestamp_leb in Hle.
    rewrite decide_True in Hle by congruence. rewrite Ht in Hle.
    destruct (Timestamp y') as [t'|] eqn:Hy'; [|done]. cbn in Hle, Hty.
    assert (t = t') as <- by by apply datetime_leb_antisym.
    assert (i = i') as <-.
    { apply (Huniq i i' e y'); try done.
      - apply Hlookup. rewrite elem_of_app. right. by left.
      - apply Hlookup. rewrite elem_of_app. right. by right. }
    apply Hil2. apply list_elem_of_fmap. by exists (i, y').
Qed.

Lemma balance_overtime_running_witness :
  ∃ out,
    Graph.balance_overtime_graph two_accounts [true; false; true; true]
    = Some out
    ∧ (entry 12 "Expense" (-30) "Food" "Bank", Some 70%Q) ∈ out
    ∧ Account (entry 12 "Expense" (-30) "Food" "Bank") = Some "Bank"
    ∧ Timestamp (entry 12 "Expense" (-30) "Food" "Bank")
      = Some (mk_datetime 2025 12 1 0)
    ∧ (∀ i j e1 e2, two_accounts !! i = Some e1 → two_accounts !! j = Some e2 →
         Account e1 = Some "Bank" → Account e2 = Some "Bank" →
         Timestamp e1 = Some (mk_datetime 2025 12 1 0) →
         Timestamp e2 = Some (mk_datetime 2025 12 1 0) → i = j)
    ∧ (70 == nansum (map Amount
          (filter (λ x, Account x = Some "Bank"
                        ∧ option_leb datetime_leb (Timestamp x)
                            (Some (mk_datetime 2025 12 1 0)) = true)
                  two_accounts)))%Q.
Proof.
  set (out := default [] (Graph.balance_overtime_graph
                            two_accounts [true; false; true; true])).
  assert (Graph.balance_overtime_graph two_accounts [true; false; true; true]
          = Some out) as Hout by (vm_compute; reflexivity).
  assert ((entry 12 "Expense" (-30) "Food" "Bank", Some 70%Q) ∈ out) as Hin
    by (vm_compute; right; left).
  assert (∀ i j e1 e2,
            two_accounts !! i = Some e1 → two_accounts !! j = Some e2 →
            Account e1 = Some "Bank" → Account e2 = Some "Bank" →
            Timestamp e1 = Some (mk_datetime 2025 12 1 0) →
            Timestamp e2 = Some (mk_datetime 2025 12 1 0) → i = j) as Huniq.
  { assert (∀ i e1, two_accounts !! i = Some e1 →
                      Timestamp e1 = Some (mk_datetime 2025 12 1 0) →
                      i = 0%nat) as H0.
    { intros i e1 H T.
      destruct i as [|[|[|[|i]]]]; [reflexivity|..];
        cbn in H; try discriminate H; injection H as <-; discriminate T. }
    intros i j e1 e2 H1 H2 _ _ T1 T2.
    by rewrite (H0 i e1 H1 T1), (H0 j e2 H2 T2). }
  exists out. split; [exact Hout|]. split; [exact Hin|].
  split; [reflexivity|]. split; [reflexivity|]. split; [exact Huniq|].
  exact (balance_overtime_running two_accounts _ out _ "Bank"
           (mk_datetime 2025 12 1 0) 70 Hout Hin eq_refl eq_refl Huniq).
Defined.

Lemma loc_mask_labelled (g : nat → bool) (k : nat) (df : Ledger) :
  map snd (filter (λ r : nat * LedgerEntry, g r.1 = true)
                  (zip (seq k (length df)) df))
  = loc_mask df (map g (seq k (length df))).
Proof.
  revert k. induction df as [|e df IH]; intros k; [done|].
  change (zip (seq k (length (e :: df))) (e :: df))
    with ((k, e) :: zip (seq (S k) (length df)) df).
  change (map g (seq k (length (e :: df))))
    with (g k :: map g (seq (S k) (length df))).
  rewrite filter_cons. cbn [fst loc_mask].
  destruct (g k) eqn:E.
  - rewrite decide_True by done. cbn [map snd]. by rewrite IH.
  - rewrite decide_False by done. by rewrite IH.
Qed.

Lemma map_lookup_seq {A} (d : A) (l : list A) :
  map (λ i, default d (l !! i)) (seq 0 (length l)) = l.
Proof.
  apply list_eq. intros i.
  change (map ?f ?l) with (f <$> l). rewrite list_lookup_fmap.
  destruct (l !! i) as [x|] eqn:Hi.
  - rewrite lookup_seq_lt by (by eapply lookup_lt_Some). cbn. by rewrite Hi.
  - rewrite lookup_seq_ge by (by apply lookup_ge_None). done.
Qed.

Lemma map_fst_filter {A B} (g : A → bool) (l : list (A * B)) :
  map fst (filter (λ r, g r.1 = true) l)
  = filter (λ x, g x = true) (map fst l).
Proof.
  induction l as [|r l IH]; [done|]. cbn [map].
  rewrite !filter_cons. destruct (decide (g r.1 = true)); cbn; by rewrite IH.
Qed.

(** X27.  With a mask over the index of the ledger, the chart of the
    balance over time holds exactly the entries that the mask selects:
    the mask is read by index label, so sorting the frame before the
    mask is applied loses and adds no row. *)
Theorem balance_overtime_shown (df : Ledger) (mask : list bool) :
  length mask = length df →
  ∃ out, Graph.balance_overtime_graph df mask = Some out
    ∧ map fst out ≡ₚ loc_mask df mask.
Proof.
  intros Hlen. unfold Graph.balance_overtime_graph; cbv zeta.
  set (rows := zip (seq 0 (length df)) df).
  set (sorted := stable_sort (λ r1 r2 : nat * LedgerEntry,
                                account_timestamp_leb r1.2 r2.2) rows).
  set (frame := zip sorted (groupby_cumsum ∅ (map snd sorted))).
  assert (sorted ≡ₚ rows) as Hperm by apply stable_sort_Permutation.
  assert (map fst frame = sorted) as Hframe.
  { change (map fst frame) with (frame.*1). apply fst_zip.
    by rewrite length_groupby_cumsum, length_map. }
  assert (mapM (λ r : nat * LedgerEntry * option Q, mask !! r.1.1) frame
          = Some (map (λ r : nat * LedgerEntry * option Q,
                         default false (mask !! r.1.1)) frame)) as ->.
  { apply mapM_Some_2. apply Forall2_fmap_r, Forall_Forall2_diag.
    apply Forall_forall. intros [[i e] b] Hr. cbn.
    assert ((i, e) ∈ rows) as Hie.
    { rewrite <- Hperm, <- Hframe. apply list_elem_of_fmap.
      by exists (i, e, b). }
    apply lookup_labelled, lookup_lt_Some in Hie.
    destruct (lookup_lt_is_Some_2 mask i) as [v ->]; [lia|done]. }
  cbn [mbind option_bind]. eexists. split; [done|].
  rewrite map_map. cbn [fst].
  rewrite (loc_mask_map (λ r : nat * LedgerEntry * option Q,
                           default false (mask !! r.1.1))).
  etransitivity.
  { apply Permutation_map, sort_timestamps_Permutation. }
  rewrite <- (map_map fst snd).
  assert (map fst (filter (λ r : nat * LedgerEntry * option Q,
                             default false (mask !! r.1.1) = true) frame)
          = filter (λ r : nat * LedgerEntry,
                      default false (mask !! r.1) = true) sorted) as ->.
  { rewrite <- Hframe.
    apply (map_fst_filter (λ r : nat * LedgerEntry,
                             default false (mask !! r.1))). }
  etransitivity.
  { apply Permutation_map, (filter_Permutation _), Hperm. }
  unfold rows.
  rewrite (loc_mask_labelled (λ i, default false (mask !! i))).
  by rewrite <- Hlen, map_lookup_seq.
Qed.

Lemma balance_overtime_shown_witness :
  length [true; false; true; true] = length two_accounts
  ∧ ∃ out,
      Graph.balance_overtime_graph two_accounts [true; false; true; true]
      = Some out
      ∧ map fst out ≡ₚ loc_mask two_accounts [true; false; true; true].
Proof.
  split; [reflexivity|].
  exact (balance_overtime_shown two_accounts [true; false; true; true] eq_refl).
Defined.

Lemma sort_timestamps_sorted {A} (timestamp : A → option datetime)
    (df : list A) :
  ∃ present missing,
    sort_timestamps timestamp df = (present ++ missing)%list
    ∧ Forall (λ r, is_Some (timestamp r)) present
    ∧ Forall (λ r, timestamp r = None) missing
    ∧ Sorted (λ r1 r2, option_leb datetime_leb (timestamp r1) (timestamp r2)
                       = true) present.
Proof.
  unfold sort_timestamps. cbv zeta. eexists _, _. split; [done|].
  split; [|split].
  - rewrite merge_sort_Permutation.
    eapply Forall_impl; [apply Forall_List_filter|].
    intros r Hr. by apply bool_decide_eq_true in Hr.
  - eapply Forall_impl; [apply Forall_List_filter|].
    intros r Hr. cbn in Hr. apply negb_true_iff, bool_decide_eq_false in Hr.
    destruct (timestamp r); [|done]. destruct Hr. by eexists.
  - eapply Sorted_weaken; [|apply Sorted_merge_sort].
    + intros x y. apply Is_true_true_1.
    + intros x y.
      destruct (option_leb_total datetime_leb datetime_leb_total
                                 (timestamp x) (timestamp y)) as [H|H];
        rewrite H; [by left|by right].
Qed.

(** X28.  The frame of the balance-over-time chart is in the order of
    the Timestamps: the dated entries first, each no later than the
    next, then the entries without a Timestamp. *)
Theorem balance_overtime_sorted (df : Ledger) (mask : list bool)
    (out : list (LedgerEntry * option Q)) :
  Graph.balance_overtime_graph df mask = Some out →
  ∃ dated undated,
    out = (dated ++ undated)%list
    ∧ Forall (λ r, is_Some (Timestamp r.1)) dated
    ∧ Forall (λ r, Timestamp r.1 = None) undated
    ∧ Sorted (λ r1 r2, option_leb datetime_leb (Timestamp r1.1)
                                               (Timestamp r2.1) = true) dated.
Proof.
  unfold Graph.balance_overtime_graph. cbv zeta. intros Hout.
  destruct (mapM _ _) as [selected|]; cbn [mbind option_bind] in Hout; [|done].
  injection Hout as <-.
  destruct (sort_timestamps_sorted
              (λ r : nat * LedgerEntry * option Q, Timestamp r.1.2)
              (loc_mask
                 (zip (stable_sort (λ r1 r2 : nat * LedgerEntry,
                                      account_timestamp_leb r1.2 r2.2)
                                   (zip (seq 0 (length df)) df))
                      (groupby_cumsum ∅
                         (map snd
                            (stable_sort (λ r1 r2 : nat * LedgerEntry,
                                            account_timestamp_leb r1.2 r2.2)
                                         (zip (seq 0 (length df)) df)))))
                 selected))
    as (present & missing & -> & Hp & Hm & Hs).
  exists (map (λ r : nat * LedgerEntry * option Q, (r.1.2, r.2)) present),
         (map (λ r : nat * LedgerEntry * option Q, (r.1.2, r.2)) missing).
  split; [by rewrite map_app|]. split; [|split].
  - by apply Forall_fmap.
  - by apply Forall_fmap.
  - eapply (Sorted_fmap_Forall _ (λ _, True)); [|by apply Forall_true|exact Hs].
    by intros x y _ _ H.
Qed.

Lemma balance_overtime_sorted_witness :
  ∃ out,
    Graph.balance_overtime_graph two_accounts [true; true; true; true]
    = Some out
    ∧ ∃ dated undated,
        out = (dated ++ undated)%list
        ∧ Forall (λ r, is_Some (Timestamp r.1)) dated
        ∧ Forall (λ r, Timestamp r.1 = None) undated
        ∧ Sorted (λ r1 r2, option_leb datetime_leb (Timestamp r1.1)
                                                   (Timestamp r2.1) = true)
                 dated.
Proof.
  set (out := default [] (Graph.balance_overtime_graph
                            two_accounts [true; true; true; true])).
  assert (Graph.balance_overtime_graph two_accounts [true; true; true; true]
          = Some out) as Hout by (vm_compute; reflexivity).
  exists out. split; [exact Hout|].
  exact (balance_overtime_sorted _ _ _ Hout).
Defined.
